(** * spec2nii: Siemens DICOM spectroscopy conversion

    A shallow embedding of [spec2nii/dicomfunctions.py] and the properties
    its specification states about it.

    Conventions of the embedding.
    - Python exceptions are values of [exn]; a computation that may raise
      has type [result A = exn + A] and is written in do-notation.
    - Floating-point numbers are kept abstract behind the class [Scalar]:
      every statement holds for any interpretation of the arithmetic and
      comparison operators.  The rationals give an executable instance.
    - numpy arrays are a shape together with their elements in C order. *)

From Stdlib Require Import ZArith QArith Lia List Ascii String Decimal DecimalString
  DecimalNat.
From stdpp Require Import base option list strings gmap fin_maps.
Import ListNotations.

#[local] Open Scope string_scope.
#[local] Open Scope list_scope.
#[local] Open Scope Z_scope.

(** ** Exceptions and the error monad *)

Inductive exn : Type :=
| KeyError        (* a dict has no such key *)
| IndexError      (* a list has no such position *)
| AttributeError  (* a DICOM dataset has no such attribute *)
| TypeError       (* an operator applied to operands it has no rule for *)
| ValueError      (* numpy: shapes that cannot be broadcast or reshaped *)
| GeometryError   (* the specification's error for degenerate geometry *)
| IOError.        (* the external file decoder gave up *)

Definition result (A : Type) : Type := (exn + A)%type.

Definition Ok {A} (x : A) : result A := inr x.
Definition Raise {A} (e : exn) : result A := inl e.

Definition rbind {A B} (m : result A) (f : A -> result B) : result B :=
  match m with
  | inl e => inl e
  | inr x => f x
  end.

Declare Scope result_scope.
Delimit Scope result_scope with result.
Notation "x <~ m ;; k" := (rbind m (fun x => k))
  (at level 100, m at next level, right associativity,
   format "'[v' x  <~  m  ;;  '/' k ']'") : result_scope.
#[local] Open Scope result_scope.

Definition fails {A} (m : result A) : Prop := exists e, m = Raise e.

(** Python's [d[k]] on a dictionary and [l[0]] on a list. *)
Definition dict_get {V} (d : gmap string V) (k : string) : result V :=
  match d !! k with
  | Some v => Ok v
  | None => Raise KeyError
  end.

Definition list_get0 {A} (l : list A) : result A :=
  match l with
  | x :: _ => Ok x
  | [] => Raise IndexError
  end.

(** [for x in l: ...] with a body that may raise: fail-fast traversal. *)
Fixpoint mapM {A B} (f : A -> result B) (l : list A) : result (list B) :=
  match l with
  | [] => Ok []
  | x :: l' =>
      y <~ f x ;;
      ys <~ mapM f l' ;;
      Ok (y :: ys)
  end.

(** ** Floating-point scalars *)

Class Scalar (R : Type) : Type := {
  f_of_Z : Z -> R;            (* int -> float conversion *)
  f_add : R -> R -> R;
  f_sub : R -> R -> R;
  f_mul : R -> R -> R;
  f_div : R -> R -> R;
  f_eqb : R -> R -> bool;     (* Python's == on floats *)
  f_ltb : R -> R -> bool;     (* < *)
  f_leb : R -> R -> bool;     (* <= *)
  f_1em9 : R;                 (* the literal 1E-9 *)
  f_1em3 : R;                 (* the literal 1E-3 *)
  f_1e3 : R                   (* the literal 1E3 *)
}.

(** The rationals: exact arithmetic, used to run the model. *)
#[export] Instance Scalar_Q : Scalar Q := {|
  f_of_Z := inject_Z;
  f_add := Qplus;
  f_sub := Qminus;
  f_mul := Qmult;
  f_div := Qdiv;
  f_eqb := Qeq_bool;
  f_ltb := fun x y => negb (Qle_bool y x);
  f_leb := Qle_bool;
  f_1em9 := (1 # 1000000000)%Q;
  f_1em3 := (1 # 1000)%Q;
  f_1e3 := inject_Z 1000
|}.

(** [==] on floats is symmetric and transitive (it is not reflexive on
    NaN); these are the only facts about it the development uses. *)
Class ScalarEq (R : Type) `{Scalar R} : Prop := {
  f_eqb_sym : forall x y : R, f_eqb x y = true -> f_eqb y x = true;
  f_eqb_trans : forall x y z : R,
      f_eqb x y = true -> f_eqb y z = true -> f_eqb x z = true
}.

(** The specification's "near zero" test on a 3-vector; its tolerance is
    not fixed by the specification, so it is a parameter. *)
Class Tolerance (R : Type) : Type := {
  near_zero3 : R * R * R -> bool
}.

#[export] Instance Tolerance_Q : Tolerance Q := {|
  near_zero3 := fun v =>
    match v with
    | (x, y, z) => Qeq_bool x 0 && Qeq_bool y 0 && Qeq_bool z 0
    end
|}.

(** Whatever the tolerance, a vector whose three components compare
    equal to zero is near zero.  What is said below of degenerate
    geometry assumes this of the test. *)
Class ToleranceLaw (R : Type) `{Scalar R} `{Tolerance R} : Prop := {
  near_zero3_zero : forall x y z : R,
      f_eqb x (f_of_Z 0) = true ->
      f_eqb y (f_of_Z 0) = true ->
      f_eqb z (f_of_Z 0) = true ->
      near_zero3 (x, y, z) = true
}.

(** ** Python sequences *)

Section PySeq.
Context {A : Type}.

(** [l[0::2]]: every second element, starting with the first. *)
Fixpoint slice_step2 (l : list A) : list A :=
  match l with
  | [] => []
  | [x] => [x]
  | x :: _ :: l' => x :: slice_step2 l'
  end.

(** [l[1::2]]: every second element, starting with the second. *)
Definition slice_from1_step2 (l : list A) : list A := slice_step2 (tail l).

(** [l1 == l2] on lists (and tuples): same length, equal elements. *)
Fixpoint list_eqb (eqb : A -> A -> bool) (l1 l2 : list A) : bool :=
  match l1, l2 with
  | [], [] => true
  | x :: l1', y :: l2' => eqb x y && list_eqb eqb l1' l2'
  | _, _ => false
  end.

(** [all_equal] of [multi_file_dicom]: [lst[:-1] == lst[1:]]. *)
Definition all_equal (eqb : A -> A -> bool) (lst : list A) : bool :=
  list_eqb eqb (removelast lst) (tail lst).

(** [l.insert(i, x)] for [i >= 0]: positions past the end append. *)
Definition py_insert (i : nat) (x : A) (l : list A) : list A :=
  take i l ++ x :: drop i l.

(** [enumerate(l)], counting from [start]. *)
Fixpoint enumerate_from (start : nat) (l : list A) : list (nat * A) :=
  match l with
  | [] => []
  | x :: l' => (start, x) :: enumerate_from (S start) l'
  end.

Definition enumerate (l : list A) : list (nat * A) := enumerate_from 0 l.
End PySeq.

(** [for x in l: st = body(st, x)] with a body that may raise. *)
Fixpoint foldM {A S} (body : S -> A -> result S) (l : list A) (st : S) : result S :=
  match l with
  | [] => Ok st
  | x :: l' =>
      st' <~ body st x ;;
      foldM body l' st'
  end.

(** The test [if s:] on a value that is [None] or a string: [Some] of
    the string when the test holds, which it does on a non-empty string. *)
Definition truthy (s : option string) : option string :=
  match s with
  | Some s' => if String.eqb s' "" then None else Some s'
  | None => None
  end.

(** [f'{idx:03}']: decimal digits, padded with zeros on the left to at
    least three characters. *)
Fixpoint zfill (pad : nat) (s : string) : string :=
  match pad with
  | O => s
  | S pad' => String "0" (zfill pad' s)
  end.

Definition format_03 (idx : nat) : string :=
  let digits := NilZero.string_of_uint (Nat.to_uint idx) in
  zfill (3 - String.length digits) digits.

(** [int(s)] on a string of decimal digits; [None] where Python raises
    ValueError. *)
Definition parse_index (s : string) : option nat :=
  match NilZero.uint_of_string s with
  | Some d => Some (Nat.of_uint d)
  | None => None
  end.

(** The decimal digits of [n / 100], [n / 10] and [n], one character
    each: how a number below 1000 reads when padded to three digits. *)
Definition digit (n : nat) : ascii := ascii_of_nat (48 + n mod 10).

Definition three_digits (n : nat) : string :=
  String (digit (n / 100)) (String (digit (n / 10)) (String (digit n) "")).

(** ** numpy arrays *)

Record ndarray (A : Type) : Type := mk_ndarray {
  shape : list nat;
  data : list A          (* the elements in C (row-major) order *)
}.
Arguments mk_ndarray {A} _ _.
Arguments shape {A} _.
Arguments data {A} _.

Section NdArray.
Context {A : Type} `{Inhabited A}.

Definition size_of (sh : list nat) : nat := fold_right Nat.mul 1%nat sh.

Definition well_formed (a : ndarray A) : Prop :=
  length (data a) = size_of (shape a).

(** A one-dimensional array from its elements. *)
Definition array1 (l : list A) : ndarray A :=
  mk_ndarray [length l] l.

(** Position of the multi-index [idx] in C order. *)
Fixpoint ravel (sh idx : list nat) : nat :=
  match sh, idx with
  | n :: sh', i :: idx' => (i * size_of sh' + ravel sh' idx')%nat
  | _, _ => 0%nat
  end.

(** [idx] addresses an element of an array of shape [sh]. *)
Fixpoint in_bounds (sh idx : list nat) : Prop :=
  match sh, idx with
  | [], [] => True
  | n :: sh', i :: idx' => (i < n)%nat /\ in_bounds sh' idx'
  | _, _ => False
  end.

(** [a[idx]]. *)
Definition get (a : ndarray A) (idx : list nat) : A :=
  data a !!! ravel (shape a) idx.

(** All multi-indices of an array of shape [sh], in C order. *)
Fixpoint indices (sh : list nat) : list (list nat) :=
  match sh with
  | [] => [[]]
  | n :: sh' => flat_map (fun i => map (cons i) (indices sh')) (seq 0 n)
  end.

(** [a.reshape(newshape)].  A negative entry stands for the one
    dimension numpy infers; there may be at most one.  The size must be
    preserved, otherwise numpy raises ValueError.  (numpy also raises
    when a partial product of the requested dimensions exceeds the
    machine word; with the exact product equal to the size this can
    only happen for a zero-sized array, and is left out.) *)
Definition reshape (a : ndarray A) (newshape : list Z) : result (ndarray A) :=
  let unknown := List.filter (fun d => d <? 0) newshape in
  let s_known := fold_right Z.mul 1 (List.filter (fun d => 0 <=? d) newshape) in
  let s_original := Z.of_nat (length (data a)) in
  match unknown with
  | [] =>
      if s_original =? s_known
      then Ok (mk_ndarray (map Z.to_nat newshape) (data a))
      else Raise ValueError
  | [_] =>
      if (s_known =? 0) || negb (s_original mod s_known =? 0)
      then Raise ValueError
      else Ok (mk_ndarray
                 (map (fun d => Z.to_nat (if d <? 0 then s_original / s_known else d))
                      newshape)
                 (data a))
  | _ => Raise ValueError
  end.

(** [a.transpose(order)]: axis [i] of the result is axis [order[i]] of
    [a], so the element at [idx] is [a]'s element at the index whose
    component [order[i]] is [idx[i]]. *)
Fixpoint index_of (j : nat) (order : list nat) : nat :=
  match order with
  | [] => 0%nat
  | n :: order' => if Nat.eqb n j then 0%nat else S (index_of j order')
  end.

Definition source_index (order idx : list nat) : list nat :=
  map (fun j => idx !!! index_of j order) (seq 0 (length order)).

Definition transpose (a : ndarray A) (order : list nat) : ndarray A :=
  let newshape := map (fun ax => shape a !!! ax) order in
  mk_ndarray newshape
    (map (fun idx => get a (source_index order idx)) (indices newshape)).

(** [np.stack(arrays, axis=-1)]: the arrays must be at least one and of
    one shape; the result has one more trailing axis, indexed by the
    position in [arrays]. *)
Definition stack_last (arrays : list (ndarray A)) : result (ndarray A) :=
  match arrays with
  | [] => Raise ValueError
  | a0 :: _ =>
      if forallb (fun a => list_eqb Nat.eqb (shape a) (shape a0)) arrays
      then Ok (mk_ndarray
                 (shape a0 ++ [length arrays])
                 (flat_map (fun p => map (fun a => data a !!! p) arrays)
                           (seq 0 (length (data a0)))))
      else Raise ValueError
  end.
End NdArray.

(** [sorted(zip(destination, source))] of [np.moveaxis]: insertion sort of
    pairs in lexicographic order. *)
Definition pair_leb (p q : nat * nat) : bool :=
  (fst p <? fst q)%nat || ((fst p =? fst q)%nat && (snd p <=? snd q)%nat).

Fixpoint insert_sorted (p : nat * nat) (l : list (nat * nat)) : list (nat * nat) :=
  match l with
  | [] => [p]
  | q :: l' => if pair_leb p q then p :: q :: l' else q :: insert_sorted p l'
  end.

Definition sorted_pairs (l : list (nat * nat)) : list (nat * nat) :=
  fold_right insert_sorted [] l.

(** The axis order [np.moveaxis] hands to [transpose]:
    [order = [n for n in range(ndim) if n not in source]], then
    [order.insert(dest, src)] for the sorted (dest, src) pairs. *)
Definition moveaxis_order (ndim : nat) (source destination : list nat) : list nat :=
  let rest := List.filter (fun n => negb (existsb (Nat.eqb n) source)) (seq 0 ndim) in
  fold_left (fun order p => py_insert (fst p) (snd p) order)
            (sorted_pairs (zip destination source)) rest.

(** [np.moveaxis(a, source, destination)] for non-negative axes.  numpy
    raises (AxisError, a ValueError) on an axis out of range, a repeated
    axis, or tuples of different lengths. *)
Definition moveaxis {A} `{Inhabited A} (a : ndarray A) (source destination : list nat)
  : result (ndarray A) :=
  let ndim := length (shape a) in
  if forallb (fun ax => (ax <? ndim)%nat) (source ++ destination)
     && bool_decide (NoDup source) && bool_decide (NoDup destination)
     && (length source =? length destination)%nat
  then Ok (transpose a (moveaxis_order ndim source destination))
  else Raise ValueError.

(** ** Complex samples *)

Record complex (R : Type) : Type := mk_complex { re : R; im : R }.
Arguments mk_complex {R} _ _.
Arguments re {R} _.
Arguments im {R} _.

Section Complex.
Context {R : Type} `{Scalar R}.

(** A real number used where numpy wants a complex one. *)
Definition c_of_real (x : R) : complex R := mk_complex x (f_of_Z 0).

(** The literal [1j]. *)
Definition c_j : complex R := mk_complex (f_of_Z 0) (f_of_Z 1).

Definition c_sub (a b : complex R) : complex R :=
  mk_complex (f_sub (re a) (re b)) (f_sub (im a) (im b)).

Definition c_mul (a b : complex R) : complex R :=
  mk_complex (f_sub (f_mul (re a) (re b)) (f_mul (im a) (im b)))
             (f_add (f_mul (re a) (im b)) (f_mul (im a) (re b))).

(** [r - 1j * i]: the sample the scanner stores as the pair [r], [i]. *)
Definition scanner_sample (r i : R) : complex R :=
  c_sub (c_of_real r) (c_mul c_j (c_of_real i)).

#[export] Instance complex_inhabited : Inhabited (complex R) :=
  populate (c_of_real (f_of_Z 0)).

(** Elementwise [a - b] on one-dimensional arrays, with numpy's
    broadcasting: equal lengths pair up, a length-one operand is
    repeated, anything else raises ValueError. *)
Definition broadcast_sub (a b : list (complex R)) : result (list (complex R)) :=
  if (length a =? length b)%nat then Ok (zip_with c_sub a b)
  else match a, b with
       | [x], _ => Ok (map (fun y => c_sub x y) b)
       | _, [y] => Ok (map (fun x => c_sub x y) a)
       | _, _ => Raise ValueError
       end.

(** [specData[0::2] - 1j * specData[1::2]]. *)
Definition decode_complex (specData : list R) : result (ndarray (complex R)) :=
  l <~ broadcast_sub
         (map c_of_real (slice_step2 specData))
         (map (fun x => c_mul c_j (c_of_real x)) (slice_from1_step2 specData)) ;;
  Ok (array1 l).
End Complex.

(** ** The decoded DICOM file *)

Section Dicom.
Context {R : Type} `{Scalar R} `{Tolerance R}.

(** An item of a CSA header tag, as the decoder converts it: an int, a
    float or a string, according to the tag's value representation. *)
Inductive item : Type :=
| IInt (z : Z)
| IFloat (x : R)
| IStr (s : string).

Record csa_tag : Type := mk_csa_tag {
  n_items : Z;           (* the item count the header declares *)
  items : list item      (* the items the decoder kept *)
}.

(** The flat top-level DICOM attributes the module reads.  [None] is an
    absent attribute.  [PatientName] holds the family name;
    [PatientWeight] the decimal string's value; [SpectroscopyData] the
    float32 samples of element (7fe1,1010). *)
Record dcm_dataset : Type := mk_dcm_dataset {
  Manufacturer : option string;
  ManufacturerModelName : option string;
  DeviceSerialNumber : option string;
  SoftwareVersions : option string;
  InstitutionName : option string;
  InstitutionAddress : option string;
  ProtocolName : option string;
  SeriesDescription : option string;
  PatientPosition : option string;
  PatientName : option string;
  PatientWeight : option R;
  PatientBirthDate : option string;
  PatientSex : option string;
  SpectroscopyData : option (list R)
}.

(** What [wrapper_from_file] returns. *)
Record dicom_img : Type := mk_dicom_img {
  csa_header : gmap string csa_tag;   (* [img.csa_header['tags']] *)
  dcm_data : dcm_dataset
}.

(** [img.dcm_data.Name]. *)
Definition attr {V} (field : dcm_dataset -> option V) (img : dicom_img) : result V :=
  match field (dcm_data img) with
  | Some v => Ok v
  | None => Raise AttributeError
  end.

(** [img.dcm_data[('7fe1', '1010')].value], read by [np.frombuffer]. *)
Definition frombuffer (img : dicom_img) : result (list R) :=
  match SpectroscopyData (dcm_data img) with
  | Some l => Ok l
  | None => Raise KeyError
  end.

(** [img.csa_header['tags'][name]['items']] and [...['items'][0]]. *)
Definition csa_items (img : dicom_img) (name : string) : result (list item) :=
  t <~ dict_get (csa_header img) name ;;
  Ok (items t).

Definition csa_item0 (img : dicom_img) (name : string) : result item :=
  l <~ csa_items img name ;;
  list_get0 l.

(** [img.csa_header['tags'][name]['items'][1]]. *)
Definition csa_item1 (img : dicom_img) (name : string) : result item :=
  l <~ csa_items img name ;;
  list_get0 (tail l).

(** *** Python and numpy arithmetic on items *)

(** An item used as a float operand. *)
Definition as_float (x : item) : result R :=
  match x with
  | IInt z => Ok (f_of_Z z)
  | IFloat x => Ok x
  | IStr _ => Raise TypeError
  end.

(** An item used as an array dimension: only ints will do. *)
Definition as_index (x : item) : result Z :=
  match x with
  | IInt z => Ok z
  | _ => Raise TypeError
  end.

(** [x * c] and [x / c] for a float literal [c]. *)
Definition item_mul_float (x : item) (c : R) : result R :=
  v <~ as_float x ;;
  Ok (f_mul v c).

Definition item_div_float (x : item) (c : R) : result R :=
  v <~ as_float x ;;
  Ok (f_div v c).

(** numpy's 64-bit signed integers: arithmetic wraps around. *)
Definition wrap64 (z : Z) : Z := (z + 2 ^ 63) mod 2 ^ 64 - 2 ^ 63.

Definition fits_int64 (z : Z) : bool := (- 2 ^ 63 <=? z) && (z <? 2 ^ 63).

Definition is_int (x : item) : bool :=
  match x with IInt _ => true | _ => false end.

Definition is_str (x : item) : bool :=
  match x with IStr _ => true | _ => false end.

Definition int_value (x : item) : Z :=
  match x with IInt z => z | _ => 0 end.

(** numpy's 64-bit unsigned integers. *)
Definition fits_uint64 (z : Z) : bool := (0 <=? z) && (z <? 2 ^ 64).

Definition wrapu64 (z : Z) : Z := z mod 2 ^ 64.

(** The product of an array of floats. *)
Definition float_prod (xs : list R) : item :=
  match xs with
  | [] => IFloat (f_of_Z 1)
  | x :: xs' => IFloat (fold_left f_mul xs' x)
  end.

(** [np.prod(l)] for a list of items.  A string makes a string array,
    which has no product.  An int makes numpy choose int64 when it fits,
    else uint64 when it fits, else a Python object; the array takes the
    common type of its elements.  So ints that all fit int64 make an
    int64 array and ints that all need uint64 a uint64 array, whose
    products wrap around; a mixture of the two makes a float array, as a
    float among the numbers does; and an int beyond 64 bits makes an
    array of Python ints, whose product is exact. *)
Definition np_prod (l : list item) : result item :=
  if existsb is_str l then Raise TypeError
  else if forallb is_int l then
    if forallb (fun x => fits_int64 (int_value x)) l
    then Ok (IInt (fold_left (fun acc x => wrap64 (acc * int_value x)) l 1))
    else if forallb (fun x => negb (fits_int64 (int_value x))
                              && fits_uint64 (int_value x)) l
    then Ok (IInt (fold_left (fun acc x => wrapu64 (acc * int_value x)) l 1))
    else if forallb (fun x => fits_int64 (int_value x)
                              || fits_uint64 (int_value x)) l
    then Ok (float_prod (map (fun x => f_of_Z (int_value x)) l))
    else Ok (IInt (fold_left (fun acc x => acc * int_value x) l 1))
  else
    xs <~ mapM as_float l ;;
    Ok (float_prod xs).

(** [p > 1.0]. *)
Definition gt_one (p : item) : result bool :=
  match p with
  | IInt z => Ok (1 <? z)
  | IFloat x => Ok (f_ltb (f_of_Z 1) x)
  | IStr _ => Raise TypeError
  end.

(** *** svs_or_CSI *)

Inductive mrs_type : Type := SVS | CSI.

Definition svs_or_CSI (img : dicom_img) : result mrs_type :=
  rows <~ csa_item0 img "Rows" ;;
  cols <~ csa_item0 img "Columns" ;;
  slices <~ csa_item0 img "NumberOfFrames" ;;
  p <~ np_prod [rows; cols; slices] ;;
  b <~ gt_one p ;;
  Ok (if b then CSI else SVS).

(** *** The header extension object (module [nifti_mrs]) *)

(** A metadata value: an item, or the list of file names. *)
Inductive meta_value : Type :=
| VItem (x : item)
| VStrList (l : list string).

Definition VString (s : string) : meta_value := VItem (IStr s).
Definition VFloat (x : R) : meta_value := VItem (IFloat x).

(** Modelled from the spec: the class [hdr_ext] of [nifti_mrs], which is
    not part of the sources at hand.  It is built from the imaging
    frequency and the nucleus, and holds standard fields, user fields
    (each a value with its documentation string, under a key) and the
    tags of the extra dimensions. *)
Record hdr_ext : Type := mk_hdr_ext {
  SpectrometerFrequency : item;
  ResonantNucleus : item;
  standard_data : gmap string meta_value;
  user_data : gmap string (meta_value * string);
  dimension_information : gmap nat string
}.

(** Modelled from the spec: the constructor
    [hdr_ext(spec_frequency, resonant_nucleus)], with no field set.  The
    specification types the frequency as a float and the nucleus as a
    string and does not say what the constructor does with anything
    else, nor which dimension tags a new object carries: here the two
    items are stored as they come and the object starts without tags.
    Nothing below asserts that the constructor accepts another type, or
    what the tags of a new object are. *)
Definition new_hdr_ext (spec_frequency resonant_nucleus : item) : hdr_ext :=
  mk_hdr_ext spec_frequency resonant_nucleus ∅ ∅ ∅.

(** Modelled from the spec: [hdr_ext.set_standard_def(key, value)]. *)
Definition set_standard_def (key : string) (value : meta_value) (obj : hdr_ext) : hdr_ext :=
  mk_hdr_ext (SpectrometerFrequency obj) (ResonantNucleus obj)
             (<[key := value]> (standard_data obj))
             (user_data obj) (dimension_information obj).

(** Modelled from the spec: [hdr_ext.set_user_def(key, value, doc)]. *)
Definition set_user_def (key : string) (value : meta_value) (doc : string)
           (obj : hdr_ext) : hdr_ext :=
  mk_hdr_ext (SpectrometerFrequency obj) (ResonantNucleus obj)
             (standard_data obj)
             (<[key := (value, doc)]> (user_data obj))
             (dimension_information obj).

(** Modelled from the spec: [hdr_ext.set_dim_info(dim, tag)], which
    annotates a dimension with a tag.  The specification names no tag
    the setter would refuse; here it stores the tag it is given. *)
Definition set_dim_info (dim : nat) (tag : string) (obj : hdr_ext) : hdr_ext :=
  mk_hdr_ext (SpectrometerFrequency obj) (ResonantNucleus obj)
             (standard_data obj) (user_data obj)
             (<[dim := tag]> (dimension_information obj)).

(** *** extractDicomMetadata *)

(** [now] is [datetime.now().isoformat(sep='T', timespec='milliseconds')]. *)
Definition extractDicomMetadata (now : string) (dcmdata : dicom_img) : result hdr_ext :=
  frequency <~ csa_item0 dcmdata "ImagingFrequency" ;;
  nucleus <~ csa_item0 dcmdata "ImagedNucleus" ;;
  let obj := new_hdr_ext frequency nucleus in
  (* Some scanner information *)
  v <~ attr Manufacturer dcmdata ;;
  let obj := set_standard_def "Manufacturer" (VString v) obj in
  v <~ attr ManufacturerModelName dcmdata ;;
  let obj := set_standard_def "ManufacturersModelName" (VString v) obj in
  v <~ attr DeviceSerialNumber dcmdata ;;
  let obj := set_standard_def "DeviceSerialNumber" (VString v) obj in
  v <~ attr SoftwareVersions dcmdata ;;
  let obj := set_standard_def "SoftwareVersions" (VString v) obj in
  v <~ attr InstitutionName dcmdata ;;
  let obj := set_standard_def "InstitutionName" (VString v) obj in
  v <~ attr InstitutionAddress dcmdata ;;
  let obj := set_standard_def "InstitutionAddress" (VString v) obj in
  coil <~ csa_items dcmdata "ReceivingCoil" ;;
  obj <~ (if (0 <? length coil)%nat
          then
            v <~ csa_item0 dcmdata "ReceivingCoil" ;;
            Ok (set_user_def "ReceiveCoilName" (VItem v) "Rx coil name." obj)
          else
            v <~ csa_item0 dcmdata "ImaCoilString" ;;
            Ok (set_user_def "ReceiveCoilName" (VItem v) "Rx coil name." obj)) ;;
  (* Some sequence information *)
  v <~ csa_item0 dcmdata "SequenceName" ;;
  let obj := set_standard_def "SequenceName" (VItem v) obj in
  v <~ attr ProtocolName dcmdata ;;
  let obj := set_standard_def "ProtocolName" (VString v) obj in
  v <~ csa_item0 dcmdata "SequenceName" ;;
  let obj := set_user_def "PulseSequenceFile" (VItem v) "Sequence binary path." obj in
  (* Some subject information *)
  v <~ attr PatientPosition dcmdata ;;
  let obj := set_standard_def "PatientPosition" (VString v) obj in
  v <~ attr PatientName dcmdata ;;
  let obj := set_standard_def "PatientName" (VString v) obj in
  w <~ attr PatientWeight dcmdata ;;
  let obj := set_standard_def "PatientWeight" (VFloat w) obj in
  v <~ attr PatientBirthDate dcmdata ;;
  let obj := set_standard_def "PatientDoB" (VString v) obj in
  v <~ attr PatientSex dcmdata ;;
  let obj := set_standard_def "PatientSex" (VString v) obj in
  (* Timing and sequence parameters *)
  te <~ csa_item0 dcmdata "EchoTime" ;;
  te <~ item_mul_float te f_1em3 ;;
  let obj := set_standard_def "EchoTime" (VFloat te) obj in
  ti <~ dict_get (csa_header dcmdata) "InversionTime" ;;
  obj <~ (if 0 <? n_items ti
          then
            v <~ csa_item0 dcmdata "InversionTime" ;;
            Ok (set_standard_def "InversionTime" (VItem v) obj)
          else Ok obj) ;;
  v <~ csa_item0 dcmdata "FlipAngle" ;;
  let obj := set_standard_def "ExcitationFlipAngle" (VItem v) obj in
  tr <~ csa_item0 dcmdata "RepetitionTime" ;;
  tr <~ item_div_float tr f_1e3 ;;
  let obj := set_standard_def "RepetitionTime" (VFloat tr) obj in
  (* Conversion information *)
  let obj := set_standard_def "ConversionMethod" (VString "spec2nii") obj in
  let obj := set_standard_def "ConversionTime" (VString now) obj in
  Ok obj.

(** *** Orientation (modules [orientationFuncs] and [nifti_orientation]) *)

Definition vec3 : Type := (R * R * R)%type.
Definition mat44 : Type := list (list R).

Definition cross (a b : vec3) : vec3 :=
  match a, b with
  | (a0, a1, a2), (b0, b1, b2) =>
      (f_sub (f_mul a1 b2) (f_mul a2 b1),
       f_sub (f_mul a2 b0) (f_mul a0 b2),
       f_sub (f_mul a0 b1) (f_mul a1 b0))
  end.

(** Some voxel-size component is [<= 0]. *)
Definition bad_voxel_size (xyzMM : vec3) : bool :=
  match xyzMM with
  | (sx, sy, sz) =>
      f_leb sx (f_of_Z 0) || f_leb sy (f_of_Z 0) || f_leb sz (f_of_Z 0)
  end.

(** Modelled from the spec: the matrix assembly of [nifti_dicom2mat]
    (module [dcm2niiOrientation.orientationFuncs], not part of the
    sources at hand).  The third direction is the cross product of the
    row and column directions; the three directions are the columns of
    the 3x3 block, each scaled by its voxel size; the position is the
    translation column; the bottom row is [0, 0, 0, 1].  It fails with
    GeometryError on a voxel size [<= 0] or a near-zero cross product. *)
Definition dicom2mat (row col pos xyzMM : vec3) : result mat44 :=
  if bad_voxel_size xyzMM then Raise GeometryError
  else
    let n := cross row col in
    if near_zero3 n then Raise GeometryError
    else
      match row, col, n, pos, xyzMM with
      | (r0, r1, r2), (c0, c1, c2), (n0, n1, n2), (p0, p1, p2), (sx, sy, sz) =>
          Ok [[f_mul r0 sx; f_mul c0 sy; f_mul n0 sz; p0];
              [f_mul r1 sx; f_mul c1 sy; f_mul n1 sz; p1];
              [f_mul r2 sx; f_mul c2 sy; f_mul n2 sz; p2];
              [f_of_Z 0; f_of_Z 0; f_of_Z 0; f_of_Z 1]]
      end.

(** Three items as a float vector: numpy has no arithmetic on strings
    (TypeError) and no 3-vector of another length (ValueError). *)
Definition to_vec3 (l : list item) : result vec3 :=
  match l with
  | [a; b; c] =>
      x <~ as_float a ;;
      y <~ as_float b ;;
      z <~ as_float c ;;
      Ok (x, y, z)
  | _ => Raise ValueError
  end.

(** Modelled from the spec: [nifti_dicom2mat(orient, position, xyzMM)],
    on the operands as the callers pass them: the 2x3 array of
    direction cosines, the position items and the voxel sizes. *)
Definition nifti_dicom2mat (orient : ndarray item) (position xyzMM : list item)
  : result mat44 :=
  row <~ to_vec3 (take 3 (data orient)) ;;
  col <~ to_vec3 (drop 3 (data orient)) ;;
  pos <~ to_vec3 position ;;
  size <~ to_vec3 xyzMM ;;
  dicom2mat row col pos size.

(** [Q44[:2, :] *= -1]. *)
Definition negate_first_two_rows (Q44 : mat44) : mat44 :=
  map (map (fun x => f_mul x (f_of_Z (-1)))) (take 2 Q44) ++ drop 2 Q44.

(** Modelled from the spec: the class [NIFTIOrient] of
    [nifti_orientation], which is not part of the sources at hand; it
    carries the matrix it was built from. *)
Record NIFTIOrient : Type := mk_NIFTIOrient { Q44 : mat44 }.

(** Steps 2a, 2b and 3 of both [process_siemens_svs] and
    [process_siemens_csi]. *)
Definition nifti_orientation (orient : ndarray item) (position xyzMM : list item)
  : result NIFTIOrient :=
  Q <~ nifti_dicom2mat orient position xyzMM ;;
  Ok (mk_NIFTIOrient (negate_first_two_rows Q)).

(** *** process_siemens_svs and process_siemens_csi *)

Definition per_file : Type :=
  (ndarray (complex R) * NIFTIOrient * R * hdr_ext)%type.

(** Lines 111-112 of [process_siemens_svs]. *)
Definition svs_data (img : dicom_img) : result (ndarray (complex R)) :=
  specData <~ frombuffer img ;;
  decode_complex specData.

(** Lines 115-119: the geometry tags of a single-voxel file. *)
Definition svs_geometry (img : dicom_img)
  : result (ndarray item * list item * list item) :=
  iop <~ csa_items img "ImageOrientationPatient" ;;
  imageOrientationPatient <~ reshape (array1 iop) [2; 3] ;;
  imagePositionPatient <~ csa_items img "VoiPosition" ;;
  x <~ csa_item0 img "VoiPhaseFoV" ;;
  y <~ csa_item0 img "VoiReadoutFoV" ;;
  z <~ csa_item0 img "VoiThickness" ;;
  Ok (imageOrientationPatient, imagePositionPatient, [x; y; z]).

(** [items[0] * 1E-9] of tag RealDwellTime. *)
Definition dwell_time (img : dicom_img) : result R :=
  t <~ csa_item0 img "RealDwellTime" ;;
  item_mul_float t f_1em9.

(** Lines 114-129 of [process_siemens_svs]: orientation, dwell time
    and metadata. *)
Definition svs_header (now : string) (img : dicom_img)
  : result (NIFTIOrient * R * hdr_ext) :=
  g <~ svs_geometry img ;;
  currNiftiOrientation <~ nifti_orientation (fst (fst g)) (snd (fst g)) (snd g) ;;
  dwelltime <~ dwell_time img ;;
  meta <~ extractDicomMetadata now img ;;
  Ok (currNiftiOrientation, dwelltime, meta).

Definition process_siemens_svs (now : string) (img : dicom_img) : result per_file :=
  specDataCmplx <~ svs_data img ;;
  h <~ svs_header now img ;;
  Ok (specDataCmplx, fst (fst h), snd (fst h), snd h).

(** Lines 135-144 of [process_siemens_csi]. *)
Definition csi_storage (img : dicom_img) : result (ndarray (complex R)) :=
  specData <~ frombuffer img ;;
  specDataCmplx <~ decode_complex specData ;;
  rows <~ csa_item0 img "Rows" ;;
  cols <~ csa_item0 img "Columns" ;;
  slices <~ csa_item0 img "NumberOfFrames" ;;
  spectral_points <~ csa_item0 img "DataPointColumns" ;;
  slices <~ as_index slices ;;
  rows <~ as_index rows ;;
  cols <~ as_index cols ;;
  spectral_points <~ as_index spectral_points ;;
  reshape specDataCmplx [slices; rows; cols; spectral_points].

Definition csi_data (img : dicom_img) : result (ndarray (complex R)) :=
  specDataCmplx <~ csi_storage img ;;
  moveaxis specDataCmplx [0; 1; 2]%nat [2; 1; 0]%nat.

(** Lines 147-151: the geometry tags of a multi-voxel file. *)
Definition csi_geometry (img : dicom_img)
  : result (ndarray item * list item * list item) :=
  iop <~ csa_items img "ImageOrientationPatient" ;;
  imageOrientationPatient <~ reshape (array1 iop) [2; 3] ;;
  imagePositionPatient <~ csa_items img "ImagePositionPatient" ;;
  x <~ csa_item0 img "PixelSpacing" ;;
  y <~ csa_item1 img "PixelSpacing" ;;
  z <~ csa_item0 img "SliceThickness" ;;
  Ok (imageOrientationPatient, imagePositionPatient, [x; y; z]).

(** Lines 146-160 of [process_siemens_csi]: orientation, dwell time
    and metadata. *)
Definition csi_header (now : string) (img : dicom_img)
  : result (NIFTIOrient * R * hdr_ext) :=
  g <~ csi_geometry img ;;
  currNiftiOrientation <~ nifti_orientation (fst (fst g)) (snd (fst g)) (snd g) ;;
  dwelltime <~ dwell_time img ;;
  meta <~ extractDicomMetadata now img ;;
  Ok (currNiftiOrientation, dwelltime, meta).

Definition process_siemens_csi (now : string) (img : dicom_img) : result per_file :=
  specDataCmplx <~ csi_data img ;;
  h <~ csi_header now img ;;
  Ok (specDataCmplx, fst (fst h), snd (fst h), snd h).

(** *** multi_file_dicom *)

(** Modelled from the spec: the class [NIfTI_MRS] of [nifti_mrs], which
    is not part of the sources at hand: the output unit built from the
    data, the affine matrix, the dwell time and the header extension. *)
Record NIfTI_MRS : Type := mk_NIfTI_MRS {
  mrs_data : ndarray (complex R);
  mrs_affine : mat44;
  mrs_dwelltime : R;
  mrs_hdr_ext : hdr_ext
}.

(** The lists the conversion loop fills, and [mainStr]. *)
Record loop_state : Type := mk_loop_state {
  data_list : list (ndarray (complex R));
  orientation_list : list NIFTIOrient;
  dwelltime_list : list R;
  meta_list : list hdr_ext;
  mainStr : string
}.

Definition initial_state : loop_state := mk_loop_state [] [] [] [] "".

(** Lines 40-49: one file's spectrum, orientation, dwell time and
    metadata. *)
Definition convert_file (now : string) (img : dicom_img) : result per_file :=
  mrs <~ svs_or_CSI img ;;
  match mrs with
  | SVS =>
      r <~ process_siemens_svs now img ;;
      match r with
      | (specDataCmplx, orientation, dwelltime, meta_obj) =>
          let newshape := [1; 1; 1] ++ map Z.of_nat (shape specDataCmplx) in
          specDataCmplx <~ reshape specDataCmplx newshape ;;
          Ok (specDataCmplx, orientation, dwelltime, meta_obj)
      end
  | CSI => process_siemens_csi now img
  end.

(** Lines 57-60: the stem of the output names, taken at the first file. *)
Definition main_name (fname_out : option string) (img : dicom_img) : result string :=
  match truthy fname_out with
  | Some name => Ok name
  | None => attr SeriesDescription img
  end.

Section Batch.
(** The external decoder, and the clock read while file [idx] is
    converted. *)
Variable wrapper_from_file : string -> result dicom_img.
Variable clock : nat -> string.

(** File [snd entry], read as [fst ir], converts to the results
    [snd ir] when it is file number [fst entry] of the batch. *)
Definition converts_to (entry : nat * string) (ir : dicom_img * per_file) : Prop :=
  wrapper_from_file (snd entry) = Ok (fst ir)
  /\ convert_file (clock (fst entry)) (fst ir) = Ok (snd ir).

(** Lines 34-60: the body of the conversion loop. *)
Definition loop_body (fname_out : option string) (st : loop_state)
           (entry : nat * string) : result loop_state :=
  let idx := fst entry in
  let fn := snd entry in
  img <~ wrapper_from_file fn ;;
  r <~ convert_file (clock idx) img ;;
  match r with
  | (specDataCmplx, orientation, dwelltime, meta_obj) =>
      main <~ (if (idx =? 0)%nat
               then main_name fname_out img
               else Ok (mainStr st)) ;;
      Ok (mk_loop_state (data_list st ++ [specDataCmplx])
                        (orientation_list st ++ [orientation])
                        (dwelltime_list st ++ [dwelltime])
                        (meta_list st ++ [meta_obj])
                        main)
  end.

(** Lines 68-70: the combine test. *)
Definition combine_test (st : loop_state) : bool :=
  all_equal (list_eqb Nat.eqb) (map shape (data_list st))
  && all_equal (list_eqb (list_eqb f_eqb)) (map Q44 (orientation_list st))
  && all_equal f_eqb (dwelltime_list st).

(** Lines 73-93: one output for the whole batch. *)
Definition combine_files (files_in : list string) (tag : option string)
           (st : loop_state) : result (list NIfTI_MRS * list string) :=
  let fnames_out := [mainStr st] in
  dt_used <~ list_get0 (dwelltime_list st) ;;
  or_used <~ list_get0 (orientation_list st) ;;
  meta_used <~ list_get0 (meta_list st) ;;
  let meta_used := set_standard_def "OriginalFile" (VStrList files_in) meta_used in
  combined_data <~ stack_last (data_list st) ;;
  let meta_used := match truthy tag with
                   | Some t => set_dim_info 0 t meta_used
                   | None => meta_used
                   end in
  Ok ([mk_NIfTI_MRS combined_data (Q44 or_used) dt_used meta_used], fnames_out).

(** Lines 95-103: one output per file. *)
Definition separate_file (main : string)
           (entry : nat * (ndarray (complex R) * (NIFTIOrient * (R * (hdr_ext * string)))))
  : NIfTI_MRS * string :=
  match entry with
  | (idx, (dd, (oo, (dt, (mm, ff))))) =>
      let mm := set_standard_def "OriginalFile" (VStrList [ff]) mm in
      (mk_NIfTI_MRS dd (Q44 oo) dt mm,
       (main ++ "_" ++ format_03 idx)%string)
  end.

Definition separate_files (files_in : list string) (st : loop_state)
  : list NIfTI_MRS * list string :=
  let outs :=
    map (separate_file (mainStr st))
        (enumerate (zip (data_list st)
                   (zip (orientation_list st)
                   (zip (dwelltime_list st)
                   (zip (meta_list st) files_in))))) in
  (map fst outs, map snd outs).

(** [verbose] only switches the progress messages on, which are not
    modelled. *)
Definition multi_file_dicom (files_in : list string) (fname_out tag : option string)
           (verbose : bool) : result (list NIfTI_MRS * list string) :=
  st <~ foldM (loop_body fname_out) (enumerate files_in) initial_state ;;
  if combine_test st
  then combine_files files_in tag st
  else Ok (separate_files files_in st).
End Batch.
End Dicom.

Arguments item R : clear implicits.
Arguments csa_tag R : clear implicits.
Arguments dcm_dataset R : clear implicits.
Arguments dicom_img R : clear implicits.
Arguments meta_value R : clear implicits.
Arguments hdr_ext R : clear implicits.
Arguments NIFTIOrient R : clear implicits.
Arguments NIfTI_MRS R : clear implicits.
Arguments loop_state R : clear implicits.
Arguments IStr {R} s.
Arguments IInt {R} z.

(** ** What the module expects of a file, and what it records *)

(** The standard fields every extracted header has; InversionTime comes
    on top when the file declares one. *)
Definition standard_keys : gset string :=
  list_to_set
    ["Manufacturer"; "ManufacturersModelName"; "DeviceSerialNumber";
     "SoftwareVersions"; "InstitutionName"; "InstitutionAddress";
     "SequenceName"; "ProtocolName"; "PatientPosition"; "PatientName";
     "PatientWeight"; "PatientDoB"; "PatientSex"; "EchoTime";
     "ExcitationFlipAngle"; "RepetitionTime"; "ConversionMethod";
     "ConversionTime"].

Definition user_keys : gset string :=
  list_to_set ["ReceiveCoilName"; "PulseSequenceFile"].

Section Expectations.
Context {R : Type} `{Scalar R}.

(** Tag [name] is present and its first item passes the test [ok]. *)
Definition first_item_is (ok : item R -> bool) (img : dicom_img R) (name : string)
  : bool :=
  match csa_header img !! name with
  | Some t => match items t with
              | x :: _ => ok x
              | [] => false
              end
  | None => false
  end.

Definition has_item (img : dicom_img R) (name : string) : bool :=
  first_item_is (fun _ => true) img name.

Definition has_number (img : dicom_img R) (name : string) : bool :=
  first_item_is (fun x => negb (is_str x)) img name.

Definition has_attr {V} (field : dcm_dataset R -> option V) (img : dicom_img R) : bool :=
  match field (dcm_data img) with
  | Some _ => true
  | None => false
  end.

(** Tag ReceivingCoil is present, and when it has no item tag
    ImaCoilString has one. *)
Definition has_coil (img : dicom_img R) : bool :=
  match csa_header img !! "ReceivingCoil" with
  | Some t => match items t with
              | _ :: _ => true
              | [] => has_item img "ImaCoilString"
              end
  | None => false
  end.

(** Tag InversionTime is present, and when it declares items it has
    one. *)
Definition has_inversion_time (img : dicom_img R) : bool :=
  match csa_header img !! "InversionTime" with
  | Some t => if 0 <? n_items t
              then match items t with _ :: _ => true | [] => false end
              else true
  | None => false
  end.

(** Everything [extractDicomMetadata] reads is there. *)
Definition metadata_available (img : dicom_img R) : bool :=
  has_item img "ImagingFrequency"
  && has_item img "ImagedNucleus"
  && has_attr Manufacturer img
  && has_attr ManufacturerModelName img
  && has_attr DeviceSerialNumber img
  && has_attr SoftwareVersions img
  && has_attr InstitutionName img
  && has_attr InstitutionAddress img
  && has_coil img
  && has_item img "SequenceName"
  && has_attr ProtocolName img
  && has_attr PatientPosition img
  && has_attr PatientName img
  && has_attr PatientWeight img
  && has_attr PatientBirthDate img
  && has_attr PatientSex img
  && has_number img "EchoTime"
  && has_inversion_time img
  && has_item img "FlipAngle"
  && has_number img "RepetitionTime".

(** The file names recorded in an output unit. *)
Definition original_files (out : NIfTI_MRS R) : list string :=
  match standard_data (mrs_hdr_ext out) !! "OriginalFile" with
  | Some (VStrList l) => l
  | _ => []
  end.

(** Two headers that differ at most in the time stamp ConversionTime,
    which every run reads from the clock. *)
Definition same_header_but_time (m1 m2 : hdr_ext R) : Prop :=
  SpectrometerFrequency m1 = SpectrometerFrequency m2
  /\ ResonantNucleus m1 = ResonantNucleus m2
  /\ delete "ConversionTime" (standard_data m1)
     = delete "ConversionTime" (standard_data m2)
  /\ user_data m1 = user_data m2
  /\ dimension_information m1 = dimension_information m2.

(** Two output units with the same data, affine matrix and dwell time,
    whose headers differ at most in the time stamp. *)
Definition same_output_but_time (o1 o2 : NIfTI_MRS R) : Prop :=
  mrs_data o1 = mrs_data o2
  /\ mrs_affine o1 = mrs_affine o2
  /\ mrs_dwelltime o1 = mrs_dwelltime o2
  /\ same_header_but_time (mrs_hdr_ext o1) (mrs_hdr_ext o2).
End Expectations.

(** * Concrete inputs

    Decoded files over the rationals, on which the model runs. *)

Module Examples.
Definition tag_of (l : list (item Q)) : csa_tag Q :=
  mk_csa_tag (Z.of_nat (length l)) l.

Definition no_attributes : dcm_dataset Q :=
  mk_dcm_dataset None None None None None None None None None None None None None None.

(** A header that declares 2^32 rows and 2^32 columns in one frame. *)
Definition huge_grid : dicom_img Q :=
  mk_dicom_img
    (list_to_map [("Rows", tag_of [IInt (2 ^ 32)]);
                  ("Columns", tag_of [IInt (2 ^ 32)]);
                  ("NumberOfFrames", tag_of [IInt 1])])
    no_attributes.

(** A header that declares a 2 x 3 grid in one frame. *)
Definition small_grid : dicom_img Q :=
  mk_dicom_img
    (list_to_map [("Rows", tag_of [IInt 2]);
                  ("Columns", tag_of [IInt 3]);
                  ("NumberOfFrames", tag_of [IInt 1])])
    no_attributes.

Definition spectrum (l : list Q) : ndarray (complex Q) :=
  mk_ndarray [1; 1; 1; length l]%nat (map c_of_real l).

Definition unit_orientation : NIFTIOrient Q :=
  mk_NIFTIOrient [[-1; 0; 0; 0]; [0; -1; 0; 0]; [0; 0; 1; 0]; [0; 0; 0; 1]]%Q.

Definition bare_header : hdr_ext Q :=
  new_hdr_ext (IFloat (12325 # 100)%Q) (IStr "1H").

(** Two per-file results that agree in shape, orientation and dwell
    time. *)
Definition two_results : loop_state Q :=
  mk_loop_state
    [spectrum [1; 2]%Q; spectrum [3; 4]%Q]
    [unit_orientation; unit_orientation]
    [(1 # 2000)%Q; (1 # 2000)%Q]
    [bare_header; bare_header]
    "svs_se".

(** A complete single-voxel file: series description, protocol name,
    dwell time in nanoseconds and interleaved samples are left open. *)
Definition svs_file (series protocol : string) (dwell_ns : Z) (samples : list Q)
  : dicom_img Q :=
  mk_dicom_img
    (list_to_map
       [("Rows", tag_of [IInt 1]);
        ("Columns", tag_of [IInt 1]);
        ("NumberOfFrames", tag_of [IInt 1]);
        ("ImageOrientationPatient",
         tag_of [IFloat 1; IFloat 0; IFloat 0; IFloat 0; IFloat 1; IFloat 0]%Q);
        ("VoiPosition", tag_of [IFloat 0; IFloat 0; IFloat 0]%Q);
        ("VoiPhaseFoV", tag_of [IFloat 20%Q]);
        ("VoiReadoutFoV", tag_of [IFloat 20%Q]);
        ("VoiThickness", tag_of [IFloat 20%Q]);
        ("RealDwellTime", tag_of [IInt dwell_ns]);
        ("ImagingFrequency", tag_of [IFloat (12325 # 100)%Q]);
        ("ImagedNucleus", tag_of [IStr "1H"]);
        ("ReceivingCoil", tag_of [IStr "HeadNeck_64"]);
        ("ImaCoilString", tag_of [IStr "HE1-4"]);
        ("SequenceName", tag_of [IStr "svs_se"]);
        ("EchoTime", tag_of [IFloat 30%Q]);
        ("InversionTime", tag_of []);
        ("FlipAngle", tag_of [IFloat 90%Q]);
        ("RepetitionTime", tag_of [IFloat 2000%Q])])
    (mk_dcm_dataset
       (Some "SIEMENS") (Some "Prisma") (Some "66024") (Some "syngo MR E11")
       (Some "Hospital") (Some "Street 1") (Some protocol) (Some series)
       (Some "HFS") (Some "Doe") (Some 70%Q) (Some "19700101") (Some "O")
       (Some samples)).

Definition file_a : dicom_img Q := svs_file "svs_se_30" "svs_se" 500000 [1; 2; 3; 4]%Q.
Definition file_b : dicom_img Q := svs_file "svs_se_30" "svs_se" 500000 [5; 6; 7; 8]%Q.
Definition file_c : dicom_img Q := svs_file "svs_se_30" "svs_se" 500000 [9; 10; 11; 12]%Q.

(** As [file_c], with another dwell time. *)
Definition file_d : dicom_img Q := svs_file "svs_se_30" "svs_se" 250000 [9; 10; 11; 12]%Q.

(** As [file_a], with another series description. *)
Definition file_e : dicom_img Q := svs_file "localizer_7" "svs_se" 500000 [1; 2; 3; 4]%Q.

(** As [file_a], without the attribute SeriesDescription. *)
Definition file_unnamed : dicom_img Q :=
  mk_dicom_img
    (csa_header file_a)
    (mk_dcm_dataset
       (Some "SIEMENS") (Some "Prisma") (Some "66024") (Some "syngo MR E11")
       (Some "Hospital") (Some "Street 1") (Some "svs_se") None
       (Some "HFS") (Some "Doe") (Some 70%Q) (Some "19700101") (Some "O")
       (Some [1; 2; 3; 4]%Q)).

(** A single-voxel file whose buffer holds three samples. *)
Definition file_odd : dicom_img Q := svs_file "svs_se_30" "svs_se" 500000 [1; 2; 3]%Q.

(** A single-voxel file whose buffer holds five samples. *)
Definition file_five : dicom_img Q :=
  svs_file "svs_se_30" "svs_se" 500000 [1; 2; 3; 4; 5]%Q.

(** A complete multi-voxel file: Rows, Columns, NumberOfFrames and
    DataPointColumns and the interleaved samples are left open. *)
Definition csi_file (rows cols frames points : Z) (samples : list Q) : dicom_img Q :=
  mk_dicom_img
    (list_to_map
       [("Rows", tag_of [IInt rows]);
        ("Columns", tag_of [IInt cols]);
        ("NumberOfFrames", tag_of [IInt frames]);
        ("DataPointColumns", tag_of [IInt points]);
        ("ImageOrientationPatient",
         tag_of [IFloat 1; IFloat 0; IFloat 0; IFloat 0; IFloat 1; IFloat 0]%Q);
        ("ImagePositionPatient", tag_of [IFloat 0; IFloat 0; IFloat 0]%Q);
        ("PixelSpacing", tag_of [IFloat 10; IFloat 10]%Q);
        ("SliceThickness", tag_of [IFloat 15%Q]);
        ("RealDwellTime", tag_of [IInt 500000]);
        ("ImagingFrequency", tag_of [IFloat (12325 # 100)%Q]);
        ("ImagedNucleus", tag_of [IStr "1H"]);
        ("ReceivingCoil", tag_of []);
        ("ImaCoilString", tag_of [IStr "HE1-4"]);
        ("SequenceName", tag_of [IStr "csi_se"]);
        ("EchoTime", tag_of [IFloat 30%Q]);
        ("InversionTime", tag_of []);
        ("FlipAngle", tag_of [IFloat 90%Q]);
        ("RepetitionTime", tag_of [IFloat 2000%Q])])
    (mk_dcm_dataset
       (Some "SIEMENS") (Some "Prisma") (Some "66024") (Some "syngo MR E11")
       (Some "Hospital") (Some "Street 1") (Some "csi_se") (Some "csi_se_30")
       (Some "HFS") (Some "Doe") (Some 70%Q) (Some "19700101") (Some "O")
       (Some samples)).

(** One slice of 2 rows and 3 columns with 2 spectral points. *)
Definition grid_samples : list Q :=
  map inject_Z (map Z.of_nat (seq 0 24)).

Definition file_grid : dicom_img Q := csi_file 2 3 1 2 grid_samples.

(** The same grid with two samples too many. *)
Definition file_grid_long : dicom_img Q :=
  csi_file 2 3 1 2 (grid_samples ++ [0; 0]%Q).

(** The external decoder on a directory of these files. *)
Definition reader (fn : string) : result (dicom_img Q) :=
  if String.eqb fn "a.dcm" then Ok file_a
  else if String.eqb fn "b.dcm" then Ok file_b
  else if String.eqb fn "c.dcm" then Ok file_c
  else if String.eqb fn "d.dcm" then Ok file_d
  else if String.eqb fn "e.dcm" then Ok file_e
  else if String.eqb fn "unnamed.dcm" then Ok file_unnamed
  else if String.eqb fn "odd.dcm" then Ok file_odd
  else if String.eqb fn "five.dcm" then Ok file_five
  else if String.eqb fn "grid.dcm" then Ok file_grid
  else if String.eqb fn "long.dcm" then Ok file_grid_long
  else Raise IOError.

Definition clock (idx : nat) : string := "2020-01-01T00:00:00.000".

(** The state of the conversion loop after the files [files_in]. *)
Definition state_after (files_in : list string) (fname_out : option string)
  : loop_state Q :=
  match foldM (loop_body reader clock fname_out) (enumerate files_in) initial_state with
  | inr st => st
  | inl _ => initial_state
  end.

(** What [file_a] converts to as the first file of a batch. *)
Definition converted_a : ndarray (complex Q) * NIFTIOrient Q * Q * hdr_ext Q :=
  match convert_file (clock 0) file_a with
  | inr r => r
  | inl _ => (spectrum [], unit_orientation, 0%Q, bare_header)
  end.

(** What [file_unnamed] converts to as the first file of a batch. *)
Definition converted_unnamed : ndarray (complex Q) * NIFTIOrient Q * Q * hdr_ext Q :=
  match convert_file (clock 0) file_unnamed with
  | inr r => r
  | inl _ => (spectrum [], unit_orientation, 0%Q, bare_header)
  end.

(** What a batch returns, or nothing if it raises. *)
Definition batch_result (files_in : list string) (fname_out tag : option string)
  : list (NIfTI_MRS Q) * list string :=
  match multi_file_dicom reader clock files_in fname_out tag false with
  | inr r => r
  | inl _ => ([], [])
  end.

(** A second run of the same batch, at a later time. *)
Definition later_clock (idx : nat) : string := "2020-06-30T12:00:00.000".

Definition later_batch_result (files_in : list string) (fname_out tag : option string)
  : list (NIfTI_MRS Q) * list string :=
  match multi_file_dicom reader later_clock files_in fname_out tag true with
  | inr r => r
  | inl _ => ([], [])
  end.

(** The metadata of [file_grid], whose tag ReceivingCoil has no item. *)
Definition grid_metadata : hdr_ext Q :=
  match extractDicomMetadata (clock 0) file_grid with
  | inr obj => obj
  | inl _ => bare_header
  end.

(** Direction cosines, position and voxel sizes as the tags give them. *)
Definition axial_orientation : ndarray (item Q) :=
  mk_ndarray [2; 3]%nat [IFloat 1; IFloat 0; IFloat 0; IFloat 0; IFloat 1; IFloat 0]%Q.

Definition origin : list (item Q) := [IFloat 0; IFloat 0; IFloat 0]%Q.

Definition voxel_20mm : list (item Q) := [IFloat 20; IFloat 20; IFloat 20]%Q.

(** Direction cosines whose column direction is twice the row
    direction. *)
Definition parallel_orientation : ndarray (item Q) :=
  mk_ndarray [2; 3]%nat [IFloat 1; IFloat 0; IFloat 0; IFloat 2; IFloat 0; IFloat 0]%Q.

(** As [file_a], with these direction cosines. *)
Definition file_parallel : dicom_img Q :=
  mk_dicom_img
    (<["ImageOrientationPatient" := tag_of (data parallel_orientation)]>
       (csa_header file_a))
    (dcm_data file_a).

(** As [file_grid], with a slice thickness of zero. *)
Definition file_flat : dicom_img Q :=
  mk_dicom_img
    (<["SliceThickness" := tag_of [IFloat 0%Q]]> (csa_header file_grid))
    (dcm_data file_grid).
End Examples.

(** * Properties *)

(** ** The error monad *)

Lemma rbind_Ok {A B} (m : result A) (f : A -> result B) (y : B) :
  rbind m f = Ok y -> exists x, m = Ok x /\ f x = Ok y.
Proof.
  destruct m as [e | x]; simpl; intros Hm.
  - discriminate.
  - exists x. split; [reflexivity | exact Hm].
Qed.

Lemma Ok_inj {A} (x y : A) : Ok x = Ok y -> x = y.
Proof. intros Heq. injection Heq as ->. reflexivity. Qed.

(** Splits a hypothesis [x <~ m ;; k = Ok y] into the two steps. *)
Ltac inv_bind H :=
  let x := fresh "x" in
  let Hx := fresh "H" x in
  apply rbind_Ok in H; destruct H as (x & Hx & H).

(** ** C6: the classifier *)

Section Classifier.
Context {R : Type} `{Scalar R}.

Lemma wrap64_small (z : Z) : - 2 ^ 63 <= z < 2 ^ 63 -> wrap64 z = z.
Proof.
  intros Hz. unfold wrap64. rewrite Z.mod_small; lia.
Qed.

Lemma fits_int64_spec (z : Z) : fits_int64 z = true <-> - 2 ^ 63 <= z < 2 ^ 63.
Proof. unfold fits_int64. rewrite andb_true_iff, Z.leb_le, Z.ltb_lt. tauto. Qed.

(** The product of three counts, each at least one, that stays below
    2^63 is computed exactly. *)
Lemma np_prod_counts (rows cols frames : Z) :
  1 <= rows -> 1 <= cols -> 1 <= frames ->
  rows * cols * frames < 2 ^ 63 ->
  np_prod (R := R) [IInt rows; IInt cols; IInt frames]
  = Ok (IInt (rows * cols * frames)).
Proof.
  intros Hr Hc Hf Hp.
  assert (Hrc : rows * cols <= rows * cols * frames) by nia.
  assert (Hr' : rows <= rows * cols) by nia.
  assert (Hc' : cols <= rows * cols) by nia.
  assert (Hf' : frames <= rows * cols * frames) by nia.
  unfold np_prod. cbn [existsb is_str forallb is_int int_value orb andb].
  assert (Hfit : forall z, 1 <= z -> z <= rows * cols * frames -> fits_int64 z = true).
  { intros z Hz1 Hz2. apply fits_int64_spec. lia. }
  rewrite (Hfit rows), (Hfit cols), (Hfit frames) by lia.
  cbn [andb fold_left int_value].
  rewrite Z.mul_1_l.
  rewrite (wrap64_small rows) by lia.
  rewrite (wrap64_small (rows * cols)) by lia.
  rewrite (wrap64_small (rows * cols * frames)) by lia.
  reflexivity.
Qed.

Lemma svs_or_CSI_counts (img : dicom_img R) (rows cols frames : Z) :
  csa_item0 img "Rows" = Ok (IInt rows) ->
  csa_item0 img "Columns" = Ok (IInt cols) ->
  csa_item0 img "NumberOfFrames" = Ok (IInt frames) ->
  1 <= rows -> 1 <= cols -> 1 <= frames ->
  rows * cols * frames < 2 ^ 63 ->
  svs_or_CSI img = Ok (if 1 <? rows * cols * frames then CSI else SVS).
Proof.
  intros HR HC HF Hr Hc Hf Hp. unfold svs_or_CSI.
  rewrite HR, HC, HF. cbn [rbind Ok].
  rewrite np_prod_counts by assumption.
  reflexivity.
Qed.

(** C6 (amended).  For every geometry triple (rows, cols, frames) with
    each component at least 1 and rows * cols * frames below 2^63, the
    classifier returns CSI (multi-voxel) if and only if
    rows * cols * frames > 1, and SVS (single-voxel) otherwise, that is,
    if and only if rows = cols = frames = 1. *)
Theorem svs_or_CSI_classifies (img : dicom_img R) (rows cols frames : Z) :
  csa_item0 img "Rows" = Ok (IInt rows) ->
  csa_item0 img "Columns" = Ok (IInt cols) ->
  csa_item0 img "NumberOfFrames" = Ok (IInt frames) ->
  1 <= rows -> 1 <= cols -> 1 <= frames ->
  rows * cols * frames < 2 ^ 63 ->
  (svs_or_CSI img = Ok CSI <-> rows * cols * frames > 1)
  /\ (svs_or_CSI img = Ok SVS <-> ~ rows * cols * frames > 1)
  /\ (svs_or_CSI img = Ok SVS <-> rows = 1 /\ cols = 1 /\ frames = 1).
Proof.
  intros HR HC HF Hr Hc Hf Hp.
  rewrite (svs_or_CSI_counts img rows cols frames) by assumption.
  destruct (Z.ltb_spec 1 (rows * cols * frames)) as [Hgt | Hle].
  - split; [| split].
    + split; [intros _; lia | reflexivity].
    + split; [discriminate | intros Hx; lia].
    + split; [discriminate | intros (-> & -> & ->); lia].
  - split; [| split].
    + split; [discriminate | intros Hx; lia].
    + split; [intros _; lia | reflexivity].
    + split; [intros _; nia | reflexivity].
Qed.
End Classifier.

Lemma svs_or_CSI_classifies_witness :
  (svs_or_CSI Examples.small_grid = Ok CSI <-> 2 * 3 * 1 > 1)
  /\ (svs_or_CSI Examples.small_grid = Ok SVS <-> ~ 2 * 3 * 1 > 1)
  /\ (svs_or_CSI Examples.small_grid = Ok SVS <-> 2 = 1 /\ 3 = 1 /\ 1 = 1).
Proof.
  apply (svs_or_CSI_classifies Examples.small_grid 2 3 1);
    first [reflexivity | lia].
Defined.

(** C6 as stated fails: 2^32 rows and 2^32 columns in one frame are each
    at least 1 and their product exceeds 1, but the 64-bit product
    numpy computes is 0, and the classifier answers SVS. *)
Lemma svs_or_CSI_wraps_around :
  csa_item0 Examples.huge_grid "Rows" = Ok (IInt (2 ^ 32))
  /\ csa_item0 Examples.huge_grid "Columns" = Ok (IInt (2 ^ 32))
  /\ csa_item0 Examples.huge_grid "NumberOfFrames" = Ok (IInt 1)
  /\ 1 <= 2 ^ 32 /\ 1 <= 1
  /\ 2 ^ 32 * 2 ^ 32 * 1 > 1
  /\ svs_or_CSI Examples.huge_grid = Ok SVS
  /\ svs_or_CSI Examples.huge_grid <> Ok CSI.
Proof.
  repeat split; try reflexivity; try lia; try discriminate.
Qed.

(** ** C1: the combine test *)

Section AllEqual.
Context {A : Type} (eqb : A -> A -> bool).

Lemma list_eqb_Forall2 (l1 l2 : list A) :
  list_eqb eqb l1 l2 = true <-> Forall2 (fun x y => eqb x y = true) l1 l2.
Proof.
  revert l2. induction l1 as [| x l1 IH]; intros [| y l2]; simpl.
  - split; [constructor | reflexivity].
  - split; [discriminate | intros Hf; inversion Hf].
  - split; [discriminate | intros Hf; inversion Hf].
  - rewrite andb_true_iff, IH. split.
    + intros [Hxy Hl]. constructor; assumption.
    + intros Hf. inversion Hf; subst. split; assumption.
Qed.

Lemma list_eqb_sym (l1 l2 : list A) :
  (forall x y, eqb x y = true -> eqb y x = true) ->
  list_eqb eqb l1 l2 = true -> list_eqb eqb l2 l1 = true.
Proof.
  intros Hsym. rewrite !list_eqb_Forall2. intros Hf.
  induction Hf; constructor; auto.
Qed.

Lemma list_eqb_trans (l1 l2 l3 : list A) :
  (forall x y z, eqb x y = true -> eqb y z = true -> eqb x z = true) ->
  list_eqb eqb l1 l2 = true -> list_eqb eqb l2 l3 = true ->
  list_eqb eqb l1 l3 = true.
Proof.
  intros Htrans. rewrite !list_eqb_Forall2. intros H12. revert l3.
  induction H12 as [| x y l1 l2 Hxy H12 IH]; intros l3 H23.
  - inversion H23. constructor.
  - inversion H23; subst. constructor; eauto.
Qed.

(** Comparing [lst[:-1]] with [lst[1:]] compares each element with its
    successor. *)
Lemma all_equal_cons2 (x y : A) (l : list A) :
  all_equal eqb (x :: y :: l) = eqb x y && all_equal eqb (y :: l).
Proof. reflexivity. Qed.

Hypothesis eqb_sym : forall x y, eqb x y = true -> eqb y x = true.
Hypothesis eqb_trans : forall x y z, eqb x y = true -> eqb y z = true -> eqb x z = true.

Lemma all_equal_head (x : A) (l : list A) :
  all_equal eqb (x :: l) = true ->
  forall j y, l !! j = Some y -> eqb x y = true.
Proof.
  revert x. induction l as [| z l IH]; intros x Hall j y Hj.
  - discriminate.
  - rewrite all_equal_cons2 in Hall. apply andb_true_iff in Hall as [Hxz Hl].
    destruct j as [| j]; simpl in Hj.
    + injection Hj as <-. exact Hxz.
    + apply eqb_trans with z; [exact Hxz |]. eapply IH; eassumption.
Qed.

(** [all_equal] holds exactly when any two elements at different
    positions are equal. *)
Lemma all_equal_pairwise (l : list A) :
  all_equal eqb l = true <->
  forall i j x y, i <> j -> l !! i = Some x -> l !! j = Some y -> eqb x y = true.
Proof.
  induction l as [| x l IH].
  - split; [| reflexivity]. intros _ i j a b _ Hi. discriminate.
  - split.
    + intros Hall.
      assert (Htail : all_equal eqb l = true).
      { destruct l as [| z l]; [reflexivity |].
        rewrite all_equal_cons2 in Hall. apply andb_true_iff in Hall. tauto. }
      intros [| i] [| j] a b Hne Hi Hj; simpl in Hi, Hj.
      * congruence.
      * injection Hi as <-. eapply all_equal_head; eassumption.
      * injection Hj as <-. apply eqb_sym. eapply all_equal_head; eassumption.
      * apply (proj1 IH Htail i j); [congruence | assumption | assumption].
    + intros Hpair. destruct l as [| z l]; [reflexivity |].
      rewrite all_equal_cons2. apply andb_true_iff. split.
      * apply (Hpair 0%nat 1%nat); [discriminate | reflexivity | reflexivity].
      * apply IH. intros i j a b Hne Hi Hj.
        apply (Hpair (S i) (S j)); [congruence | exact Hi | exact Hj].
Qed.
End AllEqual.

Lemma list_eqb_nat_eq (s1 s2 : list nat) :
  list_eqb Nat.eqb s1 s2 = true <-> s1 = s2.
Proof.
  rewrite list_eqb_Forall2. split.
  - intros Hf. induction Hf as [| x y l1 l2 Hxy _ IH]; [reflexivity |].
    apply Nat.eqb_eq in Hxy. congruence.
  - intros ->. induction s2; constructor; [apply Nat.eqb_refl | assumption].
Qed.

Section CombineTest.
Context {R : Type} `{ScalarEq R}.

(** C1.  The combine test holds for a batch if and only if all spectra
    have the same shape, any two orientation matrices are equal element
    by element, and any two dwell times are equal, where equality of
    numbers is [==], without tolerance. *)
Theorem combine_test_exact (st : loop_state R) :
  combine_test st = true <->
  (forall i j a b,
      data_list st !! i = Some a -> data_list st !! j = Some b ->
      shape a = shape b)
  /\ (forall i j a b,
         i <> j ->
         orientation_list st !! i = Some a -> orientation_list st !! j = Some b ->
         Forall2 (Forall2 (fun x y => f_eqb x y = true)) (Q44 a) (Q44 b))
  /\ (forall i j x y,
         i <> j ->
         dwelltime_list st !! i = Some x -> dwelltime_list st !! j = Some y ->
         f_eqb x y = true).
Proof.
  assert (Hrow_sym : forall r1 r2 : list R,
             list_eqb f_eqb r1 r2 = true -> list_eqb f_eqb r2 r1 = true).
  { intros r1 r2. apply list_eqb_sym, f_eqb_sym. }
  assert (Hrow_trans : forall r1 r2 r3 : list R,
             list_eqb f_eqb r1 r2 = true -> list_eqb f_eqb r2 r3 = true ->
             list_eqb f_eqb r1 r3 = true).
  { intros r1 r2 r3. apply list_eqb_trans, f_eqb_trans. }
  assert (Hmat : forall Q1 Q2 : list (list R),
             list_eqb (list_eqb f_eqb) Q1 Q2 = true <->
             Forall2 (Forall2 (fun x y => f_eqb x y = true)) Q1 Q2).
  { intros Q1 Q2. rewrite list_eqb_Forall2. split; intros Hf.
    - induction Hf; constructor; [apply list_eqb_Forall2 |]; assumption.
    - induction Hf; constructor; [apply list_eqb_Forall2 |]; assumption. }
  unfold combine_test. rewrite !andb_true_iff.
  rewrite (all_equal_pairwise (list_eqb Nat.eqb)).
  2: { intros s1 s2. rewrite !list_eqb_nat_eq. congruence. }
  2: { intros s1 s2 s3. rewrite !list_eqb_nat_eq. congruence. }
  rewrite (all_equal_pairwise (list_eqb (list_eqb f_eqb))).
  2: { intros Q1 Q2. apply list_eqb_sym, Hrow_sym. }
  2: { intros Q1 Q2 Q3. apply list_eqb_trans, Hrow_trans. }
  rewrite (all_equal_pairwise f_eqb) by (apply f_eqb_sym || apply f_eqb_trans).
  split.
  - intros [[Hshape Hor] Hdt]. split; [| split].
    + intros i j a b Hi Hj. destruct (decide (i = j)) as [-> | Hne].
      * congruence.
      * apply list_eqb_nat_eq. apply (Hshape i j); [exact Hne | |];
          rewrite list_lookup_fmap; [rewrite Hi | rewrite Hj]; reflexivity.
    + intros i j a b Hne Hi Hj. apply Hmat. apply (Hor i j); [exact Hne | |];
        rewrite list_lookup_fmap; [rewrite Hi | rewrite Hj]; reflexivity.
    + exact Hdt.
  - intros (Hshape & Hor & Hdt). split; [split |].
    + intros i j s1 s2 _ Hi Hj. rewrite list_lookup_fmap in Hi, Hj.
      destruct (data_list st !! i) as [a |] eqn:Ha; [| discriminate].
      destruct (data_list st !! j) as [b |] eqn:Hb; [| discriminate].
      simpl in Hi, Hj. injection Hi as <-. injection Hj as <-.
      apply list_eqb_nat_eq. eapply Hshape; eassumption.
    + intros i j Q1 Q2 Hne Hi Hj. rewrite list_lookup_fmap in Hi, Hj.
      destruct (orientation_list st !! i) as [a |] eqn:Ha; [| discriminate].
      destruct (orientation_list st !! j) as [b |] eqn:Hb; [| discriminate].
      simpl in Hi, Hj. injection Hi as <-. injection Hj as <-.
      apply Hmat. apply (Hor i j); [exact Hne | exact Ha | exact Hb].
    + exact Hdt.
Qed.
End CombineTest.

#[export] Instance ScalarEq_Q : ScalarEq Q.
Proof.
  split; simpl.
  - intros x y Hxy. apply Qeq_bool_iff in Hxy. apply Qeq_bool_iff. now symmetry.
  - intros x y z Hxy Hyz. apply Qeq_bool_iff in Hxy, Hyz. apply Qeq_bool_iff.
    now transitivity y.
Qed.

#[export] Instance ToleranceLaw_Q : ToleranceLaw Q.
Proof.
  split. intros x y z Hx Hy Hz.
  change (Qeq_bool x 0 = true) in Hx. change (Qeq_bool y 0 = true) in Hy.
  change (Qeq_bool z 0 = true) in Hz.
  change (Qeq_bool x 0 && Qeq_bool y 0 && Qeq_bool z 0 = true).
  rewrite Hx, Hy, Hz. reflexivity.
Qed.

Lemma combine_test_exact_witness :
  combine_test Examples.two_results = true <->
  (forall i j a b,
      data_list Examples.two_results !! i = Some a ->
      data_list Examples.two_results !! j = Some b ->
      shape a = shape b)
  /\ (forall i j a b,
         i <> j ->
         orientation_list Examples.two_results !! i = Some a ->
         orientation_list Examples.two_results !! j = Some b ->
         Forall2 (Forall2 (fun x y => f_eqb x y = true)) (Q44 a) (Q44 b))
  /\ (forall i j x y,
         i <> j ->
         dwelltime_list Examples.two_results !! i = Some x ->
         dwelltime_list Examples.two_results !! j = Some y ->
         f_eqb x y = true).
Proof. apply (combine_test_exact Examples.two_results). Defined.

(** ** numpy arrays: indexing, transposition, stacking, reshaping *)

Section ArrayFacts.
Context {A : Type} `{Inhabited A}.
#[local] Open Scope nat_scope.

(** Element [i * m + r] of a concatenation of blocks of length [m] is
    element [r] of block [i]. *)
Lemma flat_map_seq_lookup {B} (f : nat -> list B) (m a n i r : nat) :
  (forall k, length (f k) = m) -> i < n -> r < m ->
  flat_map f (seq a n) !! (i * m + r) = f (a + i) !! r.
Proof.
  intros Hlen. revert a i. induction n as [| n IH]; intros a i Hi Hr; [lia |].
  simpl. destruct i as [| i].
  - rewrite lookup_app_l by (rewrite Hlen; lia).
    rewrite Nat.add_0_r. reflexivity.
  - rewrite lookup_app_r by (rewrite Hlen; lia).
    rewrite Hlen. replace (S i * m + r - m) with (i * m + r) by lia.
    rewrite IH by lia. f_equal. f_equal. lia.
Qed.

Lemma flat_map_seq_length {B} (f : nat -> list B) (m a n : nat) :
  (forall k, length (f k) = m) -> length (flat_map f (seq a n)) = n * m.
Proof.
  intros Hlen. revert a. induction n as [| n IH]; intros a; [reflexivity |].
  simpl. rewrite length_app, Hlen, IH. reflexivity.
Qed.

Lemma indices_length (sh : list nat) : length (indices sh) = size_of sh.
Proof.
  induction sh as [| n sh IH]; [reflexivity |].
  simpl. apply flat_map_seq_length. intros k. rewrite length_map. exact IH.
Qed.

Lemma ravel_lt (sh idx : list nat) :
  in_bounds sh idx -> ravel sh idx < size_of sh.
Proof.
  revert idx. induction sh as [| n sh IH]; intros [| i idx] Hb; simpl in *;
    try contradiction; [lia |].
  destruct Hb as [Hi Hb]. specialize (IH idx Hb). nia.
Qed.

(** The multi-indices are listed in C order. *)
Lemma indices_lookup (sh idx : list nat) :
  in_bounds sh idx -> indices sh !! ravel sh idx = Some idx.
Proof.
  revert idx. induction sh as [| n sh IH]; intros [| i idx] Hb; simpl in *;
    try contradiction; [reflexivity |].
  destruct Hb as [Hi Hb].
  rewrite (flat_map_seq_lookup _ (size_of sh)).
  - rewrite list_lookup_fmap, (IH idx Hb). reflexivity.
  - intros k. rewrite length_map. apply indices_length.
  - exact Hi.
  - apply ravel_lt, Hb.
Qed.

Lemma transpose_shape (a : ndarray A) (order : list nat) :
  shape (transpose a order) = map (fun ax => shape a !!! ax) order.
Proof. reflexivity. Qed.

Lemma transpose_well_formed (a : ndarray A) (order : list nat) :
  well_formed (transpose a order).
Proof.
  unfold well_formed, transpose. simpl. rewrite length_map. apply indices_length.
Qed.

(** [a.transpose(order)[idx] = a[source_index order idx]]. *)
Lemma transpose_get (a : ndarray A) (order idx : list nat) :
  in_bounds (shape (transpose a order)) idx ->
  get (transpose a order) idx = get a (source_index order idx).
Proof.
  intros Hb. unfold get at 1. apply list_lookup_total_correct.
  unfold transpose in *. simpl in *.
  rewrite list_lookup_fmap, (indices_lookup _ _ Hb). reflexivity.
Qed.

Lemma size_of_app (s1 s2 : list nat) : size_of (s1 ++ s2) = size_of s1 * size_of s2.
Proof.
  induction s1 as [| n s1 IH]; simpl; [lia |]. rewrite IH. lia.
Qed.

Lemma ravel_snoc (sh idx : list nat) (n j : nat) :
  in_bounds sh idx ->
  ravel (sh ++ [n]) (idx ++ [j]) = ravel sh idx * n + j.
Proof.
  revert idx. induction sh as [| m sh IH]; intros [| i idx] Hb; simpl in *;
    try contradiction; [lia |].
  destruct Hb as [_ Hb]. rewrite (IH idx Hb), size_of_app. simpl. lia.
Qed.

(** [np.stack] succeeds on one or more arrays of one shape. *)
Lemma stack_last_same_shape (a0 : ndarray A) (arrays : list (ndarray A)) :
  (forall a, a ∈ a0 :: arrays -> shape a = shape a0) ->
  stack_last (a0 :: arrays)
  = Ok (mk_ndarray
          (shape a0 ++ [length (a0 :: arrays)])
          (flat_map (fun p => map (fun a => data a !!! p) (a0 :: arrays))
                    (seq 0 (length (data a0))))).
Proof.
  intros Hsame. unfold stack_last.
  replace (forallb _ (a0 :: arrays)) with true; [reflexivity |].
  symmetry. apply forallb_forall. intros a Ha.
  apply list_eqb_nat_eq, Hsame, list_elem_of_In, Ha.
Qed.

(** Element [idx ++ [j]] of the stack is element [idx] of array [j]. *)
Lemma stack_last_get (arrays : list (ndarray A)) (a0 aj : ndarray A)
      (idx : list nat) (j : nat) :
  well_formed a0 ->
  arrays !! j = Some aj ->
  shape aj = shape a0 ->
  in_bounds (shape a0) idx ->
  get (mk_ndarray
         (shape a0 ++ [length arrays])
         (flat_map (fun p => map (fun a => data a !!! p) arrays)
                   (seq 0 (length (data a0)))))
      (idx ++ [j])
  = get aj idx.
Proof.
  intros Hwf Hj Hshape Hb. unfold get. simpl.
  apply list_lookup_total_correct.
  rewrite (ravel_snoc _ _ _ _ Hb).
  rewrite (flat_map_seq_lookup _ (length arrays)).
  - rewrite list_lookup_fmap, Hj, Hshape. reflexivity.
  - intros k. apply length_map.
  - rewrite Hwf. apply ravel_lt, Hb.
  - apply lookup_lt_Some in Hj. exact Hj.
Qed.
End ArrayFacts.

Section ReshapeFacts.
Context {A : Type}.

Lemma filter_negative_nil (l : list Z) :
  Forall (fun d => 0 <= d) l -> List.filter (fun d => d <? 0) l = [].
Proof.
  induction 1 as [| d l Hd _ IH]; [reflexivity |].
  simpl. destruct (Z.ltb_spec d 0); [lia | exact IH].
Qed.

Lemma filter_nonnegative_all (l : list Z) :
  Forall (fun d => 0 <= d) l -> List.filter (fun d => 0 <=? d) l = l.
Proof.
  induction 1 as [| d l Hd _ IH]; [reflexivity |].
  simpl. destruct (Z.leb_spec 0 d); [congruence | lia].
Qed.

Lemma filter_negative_nil_inv (l : list Z) :
  List.filter (fun d => d <? 0) l = [] -> Forall (fun d => 0 <= d) l.
Proof.
  induction l as [| d l IH]; [constructor |].
  simpl. destruct (Z.ltb_spec d 0); [discriminate |].
  intros Hl. constructor; [assumption | apply IH, Hl].
Qed.

Lemma size_of_to_nat (l : list Z) :
  Forall (fun d => 0 <= d) l ->
  Z.of_nat (size_of (map Z.to_nat l)) = fold_right Z.mul 1 l.
Proof.
  induction 1 as [| d l Hd _ IH]; [reflexivity |].
  simpl. rewrite Nat2Z.inj_mul, IH, Z2Nat.id by assumption. reflexivity.
Qed.

Lemma product_of_nat (sh : list nat) :
  fold_right Z.mul 1 (map Z.of_nat sh) = Z.of_nat (size_of sh).
Proof.
  induction sh as [| n sh IH]; [reflexivity |].
  simpl. rewrite IH, Nat2Z.inj_mul. reflexivity.
Qed.

(** [reshape] to non-negative dimensions keeps the elements and succeeds
    exactly when the dimensions multiply to the number of elements. *)
Lemma reshape_nonnegative (a : ndarray A) (newshape : list Z) :
  Forall (fun d => 0 <= d) newshape ->
  reshape a newshape
  = if Z.of_nat (length (data a)) =? fold_right Z.mul 1 newshape
    then Ok (mk_ndarray (map Z.to_nat newshape) (data a))
    else Raise ValueError.
Proof.
  intros Hnn. unfold reshape.
  rewrite (filter_negative_nil _ Hnn), (filter_nonnegative_all _ Hnn).
  reflexivity.
Qed.

(** The shape with one inferred dimension [q] multiplies to [q] times
    the known dimensions. *)
Lemma size_of_inferred (q : Z) (l : list Z) :
  0 <= q ->
  Z.of_nat (size_of (map (fun d => Z.to_nat (if d <? 0 then q else d)) l))
  = q ^ Z.of_nat (length (List.filter (fun d => d <? 0) l))
    * fold_right Z.mul 1 (List.filter (fun d => 0 <=? d) l).
Proof.
  intros Hq. induction l as [| d l IH]; [reflexivity |].
  cbn [map size_of fold_right List.filter].
  change (fold_right Nat.mul 1%nat ?x) with (size_of x).
  rewrite Nat2Z.inj_mul, IH.
  destruct (Z.ltb_spec d 0) as [Hneg | Hpos].
  - destruct (Z.leb_spec 0 d); [lia |].
    cbn [length]. rewrite Nat2Z.inj_succ, Z.pow_succ_r by lia.
    rewrite Z2Nat.id by assumption. ring.
  - destruct (Z.leb_spec 0 d); [| lia].
    cbn [fold_right]. rewrite Z2Nat.id by assumption. ring.
Qed.

Lemma product_filter_nonnegative (l : list Z) :
  0 <= fold_right Z.mul 1 (List.filter (fun d => 0 <=? d) l).
Proof.
  induction l as [| d l IH]; simpl; [lia |].
  destruct (Z.leb_spec 0 d); simpl; lia.
Qed.

(** Whatever [reshape] returns holds the same elements, as many as its
    shape says. *)
Lemma reshape_Ok (a b : ndarray A) (newshape : list Z) :
  reshape a newshape = Ok b ->
  data b = data a /\ length (data b) = size_of (shape b).
Proof.
  unfold reshape.
  destruct (List.filter (fun d => d <? 0) newshape) as [| u [| u' us]] eqn:Hneg.
  - destruct (Z.eqb_spec (Z.of_nat (length (data a)))
                (fold_right Z.mul 1 (List.filter (fun d => 0 <=? d) newshape)))
      as [Heq | Hne]; [| discriminate].
    intros Hb. apply Ok_inj in Hb. subst b. simpl. split; [reflexivity |].
    apply filter_negative_nil_inv in Hneg.
    rewrite (filter_nonnegative_all _ Hneg) in Heq.
    apply Nat2Z.inj. rewrite size_of_to_nat by assumption. exact Heq.
  - set (s_known := fold_right Z.mul 1 (List.filter (fun d => 0 <=? d) newshape)).
    set (s_original := Z.of_nat (length (data a))).
    destruct (Z.eqb_spec s_known 0) as [Hz | Hnz]; [discriminate |].
    destruct (Z.eqb_spec (s_original mod s_known) 0) as [Hmod | Hmod];
      [| discriminate].
    simpl. intros Hb. apply Ok_inj in Hb. subst b. simpl. split; [reflexivity |].
    assert (Hk : 0 < s_known).
    { pose proof (product_filter_nonnegative newshape). fold s_known in H. lia. }
    assert (Hq : 0 <= s_original / s_known).
    { apply Z.div_pos; [unfold s_original; lia | exact Hk]. }
    apply Nat2Z.inj. rewrite (size_of_inferred _ _ Hq), Hneg.
    fold s_known. fold s_original. cbn [length].
    change (Z.of_nat 1) with 1. rewrite Z.pow_1_r.
    rewrite (Z.div_mod s_original s_known) at 1 by lia. lia.
  - discriminate.
Qed.

(** The reshape of [multi_file_dicom]'s single-voxel branch: three
    leading axes of length one in front of the shape at hand. *)
Lemma reshape_leading_ones (a : ndarray A) :
  length (data a) = size_of (shape a) ->
  reshape a ([1; 1; 1] ++ map Z.of_nat (shape a))
  = Ok (mk_ndarray ([1; 1; 1]%nat ++ shape a) (data a)).
Proof.
  intros Hwf. rewrite reshape_nonnegative.
  - cbn [app fold_right]. rewrite product_of_nat, Hwf.
    replace (Z.of_nat (size_of (shape a)) =? _) with true
      by (symmetry; apply Z.eqb_eq; lia).
    cbn [map]. rewrite map_map.
    rewrite (map_ext _ (fun n => n)) by (intros n; apply Nat2Z.id).
    rewrite map_id. reflexivity.
  - repeat constructor; try lia.
    clear Hwf. induction (shape a) as [| n sh IH]; simpl; constructor;
      [lia | exact IH].
Qed.
End ReshapeFacts.

(** ** C4: single-voxel extraction *)

Section DecodeFacts.
Context {R : Type} `{Scalar R} `{Tolerance R}.
#[local] Open Scope nat_scope.

Lemma slice_step2_lookup {A} (l : list A) (k : nat) :
  slice_step2 l !! k = l !! (2 * k).
Proof.
  remember (length l) as n eqn:Hn. revert l k Hn.
  induction n as [n IH] using lt_wf_ind. intros l k Hn.
  destruct l as [| x [| y l]].
  - reflexivity.
  - destruct k; reflexivity.
  - destruct k as [| k]; [reflexivity |].
    replace (2 * S k) with (S (S (2 * k))) by lia.
    cbn [slice_step2 lookup list_lookup].
    apply (IH (length l)); [simpl in Hn; lia | reflexivity].
Qed.

Lemma slice_from1_step2_lookup {A} (l : list A) (k : nat) :
  slice_from1_step2 l !! k = l !! (2 * k + 1).
Proof.
  unfold slice_from1_step2. rewrite slice_step2_lookup, lookup_tail.
  f_equal. lia.
Qed.

Lemma slice_step2_length {A} (l : list A) :
  length (slice_step2 l) = Nat.div2 (S (length l)).
Proof.
  remember (length l) as n eqn:Hn. revert l Hn.
  induction n as [n IH] using lt_wf_ind. intros l Hn.
  destruct l as [| x [| y l]]; subst n; [reflexivity | reflexivity |].
  cbn [slice_step2 length Nat.div2]. f_equal.
  apply (IH (length l)); [simpl; lia | reflexivity].
Qed.

Lemma slice_from1_step2_length {A} (l : list A) :
  length (slice_from1_step2 l) = Nat.div2 (length l).
Proof.
  unfold slice_from1_step2. rewrite slice_step2_length.
  destruct l; reflexivity.
Qed.

Lemma div2_double (n : nat) : Nat.div2 (2 * n) = n.
Proof. rewrite Nat.div2_div, Nat.mul_comm. apply Nat.div_mul. lia. Qed.

Lemma div2_succ_double (n : nat) : Nat.div2 (S (2 * n)) = n.
Proof.
  rewrite Nat.div2_div. replace (S (2 * n)) with (1 + n * 2) by lia.
  rewrite Nat.div_add by lia. reflexivity.
Qed.

(** An interleaved buffer of even length decodes, sample by sample. *)
Lemma decode_complex_even (specData : list R) (n : nat) :
  length specData = 2 * n ->
  exists l,
    decode_complex specData = Ok (array1 l)
    /\ length l = n
    /\ forall k r i,
        specData !! (2 * k) = Some r -> specData !! (2 * k + 1) = Some i ->
        l !! k = Some (scanner_sample r i).
Proof.
  intros Hlen. unfold decode_complex, broadcast_sub.
  rewrite !length_map, slice_step2_length, slice_from1_step2_length, Hlen.
  rewrite div2_double, div2_succ_double, Nat.eqb_refl.
  eexists. split; [reflexivity |]. split.
  - rewrite length_zip_with, !length_map, slice_step2_length,
      slice_from1_step2_length, Hlen, div2_double, div2_succ_double. lia.
  - intros k r i Hr Hi.
    rewrite lookup_zip_with, !list_lookup_fmap.
    rewrite slice_step2_lookup, slice_from1_step2_lookup, Hr, Hi.
    reflexivity.
Qed.

(** Five or more samples in odd number cannot be paired up or broadcast. *)
Lemma decode_complex_odd (specData : list R) (n : nat) :
  length specData = 2 * n + 1 -> 2 <= n ->
  decode_complex specData = Raise ValueError.
Proof.
  intros Hlen Hn. unfold decode_complex, broadcast_sub.
  pose proof (slice_step2_length specData) as Ha.
  pose proof (slice_from1_step2_length specData) as Hb.
  rewrite Hlen in Ha, Hb.
  replace (S (2 * n + 1)) with (2 * S n) in Ha by lia.
  replace (2 * n + 1) with (S (2 * n)) in Hb by lia.
  rewrite div2_double in Ha. rewrite div2_succ_double in Hb.
  rewrite !length_map, Ha, Hb.
  replace (S n =? n) with false by (symmetry; apply Nat.eqb_neq; lia).
  destruct (slice_step2 specData) as [| a1 [| a2 a]];
    [simpl in Ha; lia | simpl in Ha; lia |].
  destruct (slice_from1_step2 specData) as [| b1 [| b2 b]];
    [simpl in Hb; lia | simpl in Hb; lia |].
  reflexivity.
Qed.

Lemma svs_data_even (img : dicom_img R) (buf : list R) (n : nat) :
  SpectroscopyData (dcm_data img) = Some buf ->
  length buf = 2 * n ->
  exists l,
    svs_data img = Ok (array1 l)
    /\ length l = n
    /\ forall k r i,
        buf !! (2 * k) = Some r -> buf !! (2 * k + 1) = Some i ->
        l !! k = Some (scanner_sample r i).
Proof.
  intros Hbuf Hlen. unfold svs_data, frombuffer. rewrite Hbuf. cbn [rbind Ok].
  apply decode_complex_even, Hlen.
Qed.

(** C4.  For a single-voxel file whose buffer holds 2N interleaved
    samples, the converted spectrum has shape (1, 1, 1, N) and its sample
    at spectral index k is r_k - 1j * i_k, for r_k and i_k at positions
    2k and 2k + 1 of the buffer; the conversion of the file returns this
    spectrum whenever the file's orientation, dwell time and metadata can
    be extracted. *)
Theorem svs_spectrum_shape_and_sign (now : string) (img : dicom_img R)
        (buf : list R) (n : nat) :
  svs_or_CSI img = Ok SVS ->
  SpectroscopyData (dcm_data img) = Some buf ->
  length buf = 2 * n ->
  exists d,
    shape d = [1; 1; 1; n]
    /\ length (data d) = n
    /\ (forall k r i,
           buf !! (2 * k) = Some r -> buf !! (2 * k + 1) = Some i ->
           get d [0; 0; 0; k] = scanner_sample r i)
    /\ (forall o dt m,
           svs_header now img = Ok (o, dt, m) ->
           convert_file now img = Ok (d, o, dt, m))
    /\ (forall r, convert_file now img = Ok r -> fst (fst (fst r)) = d).
Proof.
  intros Hsvs Hbuf Hlen.
  destruct (svs_data_even img buf n Hbuf Hlen) as (l & Hdata & Hl & Hsample).
  assert (Hconv : forall o dt m,
             svs_header now img = Ok (o, dt, m) ->
             convert_file now img
             = Ok (mk_ndarray [1; 1; 1; n] l, o, dt, m)).
  { intros o dt m Hh. unfold convert_file, process_siemens_svs.
    rewrite Hsvs, Hdata, Hh. cbn [rbind Ok fst snd].
    rewrite reshape_leading_ones by (unfold size_of; simpl; lia).
    cbn [array1 shape data app]. rewrite Hl. reflexivity. }
  exists (mk_ndarray [1; 1; 1; n] l). split; [reflexivity |].
  split; [exact Hl |]. split; [| split].
  - intros k r i Hr Hi. unfold get. cbn [shape data].
    apply list_lookup_total_correct.
    replace (ravel [1; 1; 1; n] [0; 0; 0; k]) with k by (simpl; lia).
    apply (Hsample k r i Hr Hi).
  - exact Hconv.
  - intros r Hr.
    destruct (svs_header now img) as [e | [[o dt] m]] eqn:Hh.
    + unfold convert_file, process_siemens_svs in Hr.
      rewrite Hsvs, Hdata, Hh in Hr. discriminate.
    + rewrite (Hconv o dt m eq_refl) in Hr. apply Ok_inj in Hr. subst r.
      reflexivity.
Qed.
End DecodeFacts.

Lemma svs_spectrum_shape_and_sign_witness :
  exists d,
    shape d = [1; 1; 1; 2]%nat
    /\ length (data d) = 2%nat
    /\ (forall k r i,
           [1; 2; 3; 4]%Q !! (2 * k)%nat = Some r ->
           [1; 2; 3; 4]%Q !! (2 * k + 1)%nat = Some i ->
           get d [0; 0; 0; k]%nat = scanner_sample r i)
    /\ (forall o dt m,
           svs_header (Examples.clock 0) Examples.file_a = Ok (o, dt, m) ->
           convert_file (Examples.clock 0) Examples.file_a = Ok (d, o, dt, m))
    /\ (forall r,
           convert_file (Examples.clock 0) Examples.file_a = Ok r ->
           fst (fst (fst r)) = d).
Proof.
  apply (svs_spectrum_shape_and_sign
           (Examples.clock 0) Examples.file_a [1; 2; 3; 4]%Q 2);
    reflexivity.
Defined.

(** The sign convention on the rationals: the pair (1, 2) is 1 - 2i. *)
Example scanner_sample_sign :
  scanner_sample 1%Q 2%Q = mk_complex 1%Q (-2)%Q.
Proof. reflexivity. Qed.

(** ** The conversion loop *)

Lemma enumerate_from_lookup {A} (l : list A) (k i : nat) (x : A) :
  l !! i = Some x -> enumerate_from k l !! i = Some ((k + i)%nat, x).
Proof.
  revert k i. induction l as [| y l IH]; intros k i Hi; [discriminate |].
  destruct i as [| i]; simpl in *.
  - injection Hi as ->. rewrite Nat.add_0_r. reflexivity.
  - rewrite (IH (S k) i Hi). do 2 f_equal. lia.
Qed.

Lemma enumerate_from_length {A} (l : list A) (k : nat) :
  length (enumerate_from k l) = length l.
Proof.
  revert k. induction l as [| y l IH]; intros k; simpl; [| rewrite IH]; reflexivity.
Qed.

(** A loop whose body raises on one of the elements, whatever the state,
    raises. *)
Lemma foldM_fails_at {A S} (body : S -> A -> result S) (l : list A) (st0 : S)
      (i : nat) (x : A) :
  l !! i = Some x -> (forall st, fails (body st x)) -> fails (foldM body l st0).
Proof.
  revert st0 i. induction l as [| y l IH]; intros st0 i Hi Hx; [discriminate |].
  simpl. destruct i as [| i]; simpl in Hi.
  - injection Hi as ->. destruct (Hx st0) as [e ->]. exists e. reflexivity.
  - destruct (body st0 y) as [e | st1]; [exists e; reflexivity |].
    simpl. apply (IH st1 i Hi Hx).
Qed.

Section LoopFacts.
Context {R : Type} `{Scalar R} `{Tolerance R}.
Variable wrapper_from_file : string -> result (dicom_img R).
Variable clock : nat -> string.

Lemma loop_body_fails (fname_out : option string) (idx : nat) (fn : string)
      (img : dicom_img R) (st : loop_state R) :
  wrapper_from_file fn = Ok img ->
  fails (convert_file (clock idx) img) ->
  fails (loop_body wrapper_from_file clock fname_out st (idx, fn)).
Proof.
  intros Himg [e He]. exists e. unfold loop_body. cbn [fst snd].
  rewrite Himg. cbn [rbind Ok]. rewrite He. reflexivity.
Qed.

(** Fail-fast: a file that does not convert leaves the batch without
    output. *)
Lemma multi_file_dicom_fails (files_in : list string) (fname_out tag : option string)
      (verbose : bool) (i : nat) (fn : string) (img : dicom_img R) :
  files_in !! i = Some fn ->
  wrapper_from_file fn = Ok img ->
  fails (convert_file (clock i) img) ->
  fails (multi_file_dicom wrapper_from_file clock files_in fname_out tag verbose).
Proof.
  intros Hi Himg Hconv. unfold multi_file_dicom.
  destruct (foldM_fails_at (loop_body wrapper_from_file clock fname_out)
              (enumerate files_in) initial_state i (i, fn)) as [e He].
  - apply (enumerate_from_lookup files_in 0 i fn Hi).
  - intros st. apply loop_body_fails with img; assumption.
  - exists e. rewrite He. reflexivity.
Qed.
End LoopFacts.

(** ** C7: buffers of the wrong length *)

Section LengthErrors.
Context {R : Type} `{Scalar R} `{Tolerance R}.

Lemma svs_data_odd (img : dicom_img R) (buf : list R) (n : nat) :
  SpectroscopyData (dcm_data img) = Some buf ->
  length buf = (2 * n + 1)%nat -> (2 <= n)%nat ->
  svs_data img = Raise ValueError.
Proof.
  intros Hbuf Hlen Hn. unfold svs_data, frombuffer. rewrite Hbuf. cbn [rbind Ok].
  apply (decode_complex_odd buf n Hlen Hn).
Qed.

Lemma csi_storage_odd (img : dicom_img R) (buf : list R) (n : nat) :
  SpectroscopyData (dcm_data img) = Some buf ->
  length buf = (2 * n + 1)%nat -> (2 <= n)%nat ->
  csi_storage img = Raise ValueError.
Proof.
  intros Hbuf Hlen Hn. unfold csi_storage, frombuffer. rewrite Hbuf. cbn [rbind Ok].
  rewrite (decode_complex_odd buf n Hlen Hn). reflexivity.
Qed.

(** The storage-order array of a multi-voxel file with an even buffer
    and non-negative counts: the reshape decides. *)
Lemma csi_storage_even (img : dicom_img R) (buf : list R) (n : nat)
      (slices rows cols points : Z) :
  SpectroscopyData (dcm_data img) = Some buf ->
  length buf = (2 * n)%nat ->
  csa_item0 img "Rows" = Ok (IInt rows) ->
  csa_item0 img "Columns" = Ok (IInt cols) ->
  csa_item0 img "NumberOfFrames" = Ok (IInt slices) ->
  csa_item0 img "DataPointColumns" = Ok (IInt points) ->
  0 <= slices -> 0 <= rows -> 0 <= cols -> 0 <= points ->
  exists l,
    length l = n
    /\ (forall k r i,
           buf !! (2 * k)%nat = Some r -> buf !! (2 * k + 1)%nat = Some i ->
           l !! k = Some (scanner_sample r i))
    /\ csi_storage img
       = if Z.of_nat n =? slices * rows * cols * points
         then Ok (mk_ndarray (map Z.to_nat [slices; rows; cols; points]) l)
         else Raise ValueError.
Proof.
  intros Hbuf Hlen HR HC HS HP Hs Hr Hc Hp.
  destruct (decode_complex_even buf n Hlen) as (l & Hdec & Hl & Hsample).
  exists l. split; [exact Hl |]. split; [exact Hsample |].
  unfold csi_storage, frombuffer. rewrite Hbuf. cbn [rbind Ok].
  rewrite Hdec, HR, HC, HS, HP. cbn [rbind Ok as_index].
  rewrite reshape_nonnegative by (repeat constructor; assumption).
  cbn [array1 data fold_right]. rewrite Hl.
  replace (slices * (rows * (cols * (points * 1))))
    with (slices * rows * cols * points) by ring.
  reflexivity.
Qed.

(** C7 (amended).  The data extraction raises (numpy's ValueError)
    whenever the buffer length is odd and at least 5, and, on the
    multi-voxel path, whenever the buffer length is even, the counts are
    non-negative and the length differs from
    2 * slices * rows * cols * spectral-points.  The conversion of the file
    then raises, and so does the conversion of every batch that contains
    it: no output unit is produced. *)
Theorem bad_buffer_length_raises
        (wrapper_from_file : string -> result (dicom_img R)) (clock : nat -> string)
        (img : dicom_img R) (buf : list R) (mrs : mrs_type) :
  SpectroscopyData (dcm_data img) = Some buf ->
  svs_or_CSI img = Ok mrs ->
  (exists n, length buf = (2 * n + 1)%nat /\ (2 <= n)%nat)
  \/ (mrs = CSI
      /\ exists n slices rows cols points,
          length buf = (2 * n)%nat
          /\ csa_item0 img "Rows" = Ok (IInt rows)
          /\ csa_item0 img "Columns" = Ok (IInt cols)
          /\ csa_item0 img "NumberOfFrames" = Ok (IInt slices)
          /\ csa_item0 img "DataPointColumns" = Ok (IInt points)
          /\ 0 <= slices /\ 0 <= rows /\ 0 <= cols /\ 0 <= points
          /\ Z.of_nat (length buf) <> 2 * slices * rows * cols * points) ->
  (mrs = SVS -> svs_data img = Raise ValueError)
  /\ (mrs = CSI -> csi_data img = Raise ValueError)
  /\ (forall now, convert_file now img = Raise ValueError)
  /\ (forall files_in fname_out tag verbose i fn,
         files_in !! i = Some fn ->
         wrapper_from_file fn = Ok img ->
         fails (multi_file_dicom wrapper_from_file clock
                                 files_in fname_out tag verbose)).
Proof.
  intros Hbuf Hmrs Hbad.
  assert (Hdata : (mrs = SVS -> svs_data img = Raise ValueError)
                  /\ (mrs = CSI -> csi_data img = Raise ValueError)).
  { destruct Hbad as [(n & Hlen & Hn) | (-> & n & s & r & c & p & Hlen & HR & HC
                                         & HS & HP & Hs & Hr & Hc & Hp & Hne)].
    - split; intros _.
      + apply (svs_data_odd img buf n Hbuf Hlen Hn).
      + unfold csi_data. rewrite (csi_storage_odd img buf n Hbuf Hlen Hn).
        reflexivity.
    - split; [discriminate |]. intros _.
      destruct (csi_storage_even img buf n s r c p Hbuf Hlen HR HC HS HP Hs Hr Hc Hp)
        as (l & _ & _ & Hst).
      unfold csi_data. rewrite Hst.
      destruct (Z.eqb_spec (Z.of_nat n) (s * r * c * p)) as [Heq | _];
        [| reflexivity].
      exfalso. apply Hne. rewrite Hlen. lia. }
  destruct Hdata as [Hsvs Hcsi].
  assert (Hconv : forall now, convert_file now img = Raise ValueError).
  { intros now. unfold convert_file. rewrite Hmrs. cbn [rbind Ok].
    destruct mrs.
    - unfold process_siemens_svs. rewrite (Hsvs eq_refl). reflexivity.
    - unfold process_siemens_csi. rewrite (Hcsi eq_refl). reflexivity. }
  split; [exact Hsvs |]. split; [exact Hcsi |]. split; [exact Hconv |].
  intros files_in fname_out tag verbose i fn Hi Himg.
  apply multi_file_dicom_fails with i fn img; try assumption.
  exists ValueError. apply Hconv.
Qed.
End LengthErrors.

Lemma bad_buffer_length_raises_witness :
  (CSI = SVS -> svs_data Examples.file_grid_long = Raise ValueError)
  /\ (CSI = CSI -> csi_data Examples.file_grid_long = Raise ValueError)
  /\ (forall now, convert_file now Examples.file_grid_long = Raise ValueError)
  /\ (forall files_in fname_out tag verbose i fn,
         files_in !! i = Some fn ->
         Examples.reader fn = Ok Examples.file_grid_long ->
         fails (multi_file_dicom Examples.reader Examples.clock
                                 files_in fname_out tag verbose)).
Proof.
  apply (bad_buffer_length_raises Examples.reader Examples.clock
           Examples.file_grid_long (Examples.grid_samples ++ [0; 0]%Q) CSI).
  - reflexivity.
  - reflexivity.
  - right. split; [reflexivity |].
    exists 13%nat, 1, 2, 3, 2.
    repeat split; try reflexivity; try lia.
    vm_compute. discriminate.
Defined.

(** C7 as stated fails: a single-voxel buffer of three samples is of odd
    length, yet the file converts, into a spectrum of two samples, and
    the batch yields an output unit. *)
Lemma odd_buffer_converts :
  SpectroscopyData (dcm_data Examples.file_odd) = Some [1; 2; 3]%Q
  /\ length [1; 2; 3]%Q = 3%nat
  /\ svs_or_CSI Examples.file_odd = Ok SVS
  /\ svs_data Examples.file_odd
     = Ok (mk_ndarray [2%nat] [scanner_sample 1 2; scanner_sample 3 2]%Q)
  /\ exists out,
      multi_file_dicom Examples.reader Examples.clock ["odd.dcm"] None None false
      = Ok ([out], ["svs_se_30"])
      /\ shape (mrs_data out) = [1; 1; 1; 2; 1]%nat.
Proof.
  split; [reflexivity |]. split; [reflexivity |]. split; [reflexivity |].
  split; [reflexivity |].
  eexists. split; [vm_compute; reflexivity | reflexivity].
Qed.

(** ** C5: multi-voxel extraction *)

Section MultiVoxel.
Context {R : Type} `{Scalar R} `{Tolerance R}.

(** The axis order of [np.moveaxis(a, (0, 1, 2), (2, 1, 0))] on a
    four-dimensional array. *)
Lemma moveaxis_order_spatial :
  moveaxis_order 4 [0; 1; 2]%nat [2; 1; 0]%nat = [2; 1; 0; 3]%nat.
Proof. reflexivity. Qed.

Lemma moveaxis_spatial {A} `{Inhabited A} (a : ndarray A) (s r c p : nat) :
  shape a = [s; r; c; p] ->
  moveaxis a [0; 1; 2]%nat [2; 1; 0]%nat = Ok (transpose a [2; 1; 0; 3]%nat)
  /\ shape (transpose a [2; 1; 0; 3]%nat) = [c; r; s; p]
  /\ forall ic ir isl k,
      (ic < c)%nat -> (ir < r)%nat -> (isl < s)%nat -> (k < p)%nat ->
      get (transpose a [2; 1; 0; 3]%nat) [ic; ir; isl; k] = get a [isl; ir; ic; k].
Proof.
  intros Hshape. split; [| split].
  - unfold moveaxis. rewrite Hshape. reflexivity.
  - rewrite transpose_shape, Hshape. reflexivity.
  - intros ic ir isl k Hc Hr Hs Hk. rewrite transpose_get.
    + reflexivity.
    + rewrite transpose_shape, Hshape. simpl. tauto.
Qed.

(** C5.  For a multi-voxel file whose counts (slices, rows, cols,
    spectral-points) multiply to the number of decoded samples, the
    decoded sequence is reshaped to storage order (slices, rows, cols,
    spectral-points) and its three spatial axes are reversed: the returned
    array has shape (cols, rows, slices, spectral-points) and its element
    at (c, r, s, k) is the storage-order element at (s, r, c, k). *)
Theorem csi_data_canonical_order (now : string) (img : dicom_img R)
        (buf : list R) (slices rows cols points : nat) :
  SpectroscopyData (dcm_data img) = Some buf ->
  length buf = (2 * (slices * rows * cols * points))%nat ->
  csa_item0 img "Rows" = Ok (IInt (Z.of_nat rows)) ->
  csa_item0 img "Columns" = Ok (IInt (Z.of_nat cols)) ->
  csa_item0 img "NumberOfFrames" = Ok (IInt (Z.of_nat slices)) ->
  csa_item0 img "DataPointColumns" = Ok (IInt (Z.of_nat points)) ->
  exists storage d,
    csi_storage img = Ok storage
    /\ shape storage = [slices; rows; cols; points]
    /\ (forall k r i,
           buf !! (2 * k)%nat = Some r -> buf !! (2 * k + 1)%nat = Some i ->
           data storage !! k = Some (scanner_sample r i))
    /\ csi_data img = Ok d
    /\ shape d = [cols; rows; slices; points]
    /\ (forall ic ir isl k,
           (ic < cols)%nat -> (ir < rows)%nat -> (isl < slices)%nat ->
           (k < points)%nat ->
           get d [ic; ir; isl; k] = get storage [isl; ir; ic; k])
    /\ (forall o dt m,
           svs_or_CSI img = Ok CSI ->
           csi_header now img = Ok (o, dt, m) ->
           convert_file now img = Ok (d, o, dt, m)).
Proof.
  intros Hbuf Hlen HR HC HS HP.
  destruct (csi_storage_even img buf (slices * rows * cols * points)
              (Z.of_nat slices) (Z.of_nat rows) (Z.of_nat cols) (Z.of_nat points)
              Hbuf Hlen HR HC HS HP) as (l & Hl & Hsample & Hst); try lia.
  replace (Z.of_nat (slices * rows * cols * points)
           =? Z.of_nat slices * Z.of_nat rows * Z.of_nat cols * Z.of_nat points)
    with true in Hst by (symmetry; apply Z.eqb_eq; lia).
  cbn [map] in Hst. rewrite !Nat2Z.id in Hst.
  set (storage := mk_ndarray [slices; rows; cols; points] l) in *.
  destruct (moveaxis_spatial storage slices rows cols points eq_refl)
    as (Hmove & Hshape & Hget).
  assert (Hdata : csi_data img = Ok (transpose storage [2; 1; 0; 3]%nat)).
  { unfold csi_data. rewrite Hst. cbn [rbind Ok]. exact Hmove. }
  exists storage, (transpose storage [2; 1; 0; 3]%nat).
  split; [exact Hst |]. split; [reflexivity |]. split; [exact Hsample |].
  split; [exact Hdata |]. split; [exact Hshape |]. split; [exact Hget |].
  intros o dt m Hcsi Hh. unfold convert_file, process_siemens_csi.
  rewrite Hcsi, Hdata, Hh. reflexivity.
Qed.
End MultiVoxel.

Lemma csi_data_canonical_order_witness :
  exists storage d,
    csi_storage Examples.file_grid = Ok storage
    /\ shape storage = [1; 2; 3; 2]%nat
    /\ (forall k r i,
           Examples.grid_samples !! (2 * k)%nat = Some r ->
           Examples.grid_samples !! (2 * k + 1)%nat = Some i ->
           data storage !! k = Some (scanner_sample r i))
    /\ csi_data Examples.file_grid = Ok d
    /\ shape d = [3; 2; 1; 2]%nat
    /\ (forall ic ir isl k,
           (ic < 3)%nat -> (ir < 2)%nat -> (isl < 1)%nat -> (k < 2)%nat ->
           get d [ic; ir; isl; k] = get storage [isl; ir; ic; k])
    /\ (forall o dt m,
           svs_or_CSI Examples.file_grid = Ok CSI ->
           csi_header (Examples.clock 0) Examples.file_grid = Ok (o, dt, m) ->
           convert_file (Examples.clock 0) Examples.file_grid = Ok (d, o, dt, m)).
Proof.
  apply (csi_data_canonical_order (Examples.clock 0) Examples.file_grid
           Examples.grid_samples 1 2 3 2); reflexivity.
Defined.

(** ** C9: the receive-coil name *)

Section Metadata.
Context {R : Type} `{Scalar R}.

Lemma user_data_set_standard_def (key : string) (value : meta_value R) (obj : hdr_ext R) :
  user_data (set_standard_def key value obj) = user_data obj.
Proof. reflexivity. Qed.

Lemma user_data_set_user_def (key : string) (value : meta_value R) (doc : string)
      (obj : hdr_ext R) :
  user_data (set_user_def key value doc obj) = <[key := (value, doc)]> (user_data obj).
Proof. reflexivity. Qed.

(** One step of a successful run: names the value bound and goes on
    with the rest of the function. *)
Ltac step H :=
  apply rbind_Ok in H; destruct H as (? & ? & H); cbv beta zeta in H.

(** C9.  When the metadata extraction returns, the user field
    ReceiveCoilName is the first item of tag ReceivingCoil if that tag has
    an item, and the first item of tag ImaCoilString if it has none; in
    both cases the field carries the documentation string
    "Rx coil name.". *)
Theorem receive_coil_name (now : string) (img : dicom_img R) (obj : hdr_ext R) :
  extractDicomMetadata now img = Ok obj ->
  exists coil,
    csa_items img "ReceivingCoil" = Ok coil
    /\ match coil with
       | [] =>
           exists v,
             csa_item0 img "ImaCoilString" = Ok v
             /\ user_data obj !! "ReceiveCoilName" = Some (VItem v, "Rx coil name.")
       | v :: _ =>
           user_data obj !! "ReceiveCoilName" = Some (VItem v, "Rx coil name.")
       end.
Proof.
  intros Hrun. unfold extractDicomMetadata in Hrun.
  do 8 step Hrun.
  apply rbind_Ok in Hrun. destruct Hrun as (coil & Hcoil & Hrun).
  apply rbind_Ok in Hrun. destruct Hrun as (obj1 & Hobj1 & Hrun).
  cbv beta zeta in Hrun.
  do 11 step Hrun.
  apply rbind_Ok in Hrun. destruct Hrun as (obj2 & Hobj2 & Hrun).
  cbv beta zeta in Hrun.
  do 3 step Hrun.
  apply Ok_inj in Hrun. subst obj.
  assert (Hkeep : user_data obj2
                  = <["PulseSequenceFile" := (VItem x9, "Sequence binary path.")]>
                      (user_data obj1)).
  { destruct (0 <? n_items x17).
    - apply rbind_Ok in Hobj2. destruct Hobj2 as (v & _ & Hobj2).
      apply Ok_inj in Hobj2. subst obj2. reflexivity.
    - apply Ok_inj in Hobj2. subst obj2. reflexivity. }
  exists coil. split; [exact Hcoil |].
  rewrite !user_data_set_standard_def, Hkeep.
  rewrite lookup_insert_ne by discriminate.
  unfold csa_item0 in Hobj1. rewrite Hcoil in Hobj1. cbn [rbind Ok] in Hobj1.
  destruct coil as [| v coil].
  - cbn [length Nat.ltb Nat.leb] in Hobj1.
    apply rbind_Ok in Hobj1. destruct Hobj1 as (v & Hv & Hobj1).
    apply Ok_inj in Hobj1. subst obj1. exists v. split.
    + unfold csa_item0. exact Hv.
    + rewrite user_data_set_user_def. apply lookup_insert_eq.
  - cbn [length Nat.ltb Nat.leb list_get0 rbind Ok] in Hobj1.
    apply Ok_inj in Hobj1. subst obj1.
    rewrite user_data_set_user_def. apply lookup_insert_eq.
Qed.
End Metadata.

Lemma receive_coil_name_witness :
  exists coil,
    csa_items Examples.file_grid "ReceivingCoil" = Ok coil
    /\ match coil with
       | [] =>
           exists v,
             csa_item0 Examples.file_grid "ImaCoilString" = Ok v
             /\ user_data Examples.grid_metadata !! "ReceiveCoilName"
                = Some (VItem v, "Rx coil name.")
       | v :: _ =>
           user_data Examples.grid_metadata !! "ReceiveCoilName"
           = Some (VItem v, "Rx coil name.")
       end.
Proof.
  apply (receive_coil_name (Examples.clock 0) Examples.file_grid
           Examples.grid_metadata).
  vm_compute. reflexivity.
Defined.

(** ** C8: degenerate geometry *)

Section Geometry.
Context {R : Type} `{Scalar R} `{Tolerance R}.

Lemma bad_voxel_size_spec (sx sy sz : R) :
  bad_voxel_size (sx, sy, sz) = true <->
  f_leb sx (f_of_Z 0) = true \/ f_leb sy (f_of_Z 0) = true
  \/ f_leb sz (f_of_Z 0) = true.
Proof. unfold bad_voxel_size. rewrite !orb_true_iff. tauto. Qed.

(** The matrix assembly fails exactly on degenerate geometry. *)
Lemma dicom2mat_cases (row col pos xyzMM : vec3) :
  (bad_voxel_size xyzMM = true \/ near_zero3 (cross row col) = true ->
   dicom2mat row col pos xyzMM = Raise GeometryError)
  /\ (~ (bad_voxel_size xyzMM = true \/ near_zero3 (cross row col) = true) ->
      exists r0 r1 r2,
        dicom2mat row col pos xyzMM
        = Ok [r0; r1; r2; [f_of_Z 0; f_of_Z 0; f_of_Z 0; f_of_Z 1]]).
Proof.
  unfold dicom2mat.
  destruct (bad_voxel_size xyzMM) eqn:Hsize; [split; [reflexivity | tauto] |].
  destruct (near_zero3 (cross row col)) eqn:Hcross; [split; [reflexivity | tauto] |].
  split; [intros [Hb | Hb]; discriminate |]. intros _.
  destruct row as [[r0 r1] r2], col as [[c0 c1] c2], (cross (r0, r1, r2) (c0, c1, c2))
    as [[n0 n1] n2], pos as [[p0 p1] p2], xyzMM as [[sx sy] sz].
  eexists _, _, _. reflexivity.
Qed.

(** C8.  On direction cosines, position and voxel sizes that are
    numbers, the orientation calculation fails with GeometryError exactly
    when some voxel-size component is [<= 0] or the cross product of the
    row and column directions is near zero; otherwise it returns a matrix
    of four rows whose bottom row is [0, 0, 0, 1].  Whatever the
    tolerance, directions whose cross product is zero in each component
    are among the degenerate ones, and so are equal row and column
    directions wherever [a * b - b * a] compares equal to zero.  The
    failure is the failure of the header step of [process_siemens_svs]
    and [process_siemens_csi] on a file with these geometry tags. *)
Theorem orientation_geometry_error `{!ToleranceLaw R} (orient : ndarray (item R))
        (position xyzMM : list (item R)) (row col pos : vec3) (sx sy sz : R) :
  to_vec3 (take 3 (data orient)) = Ok row ->
  to_vec3 (drop 3 (data orient)) = Ok col ->
  to_vec3 position = Ok pos ->
  to_vec3 xyzMM = Ok (sx, sy, sz) ->
  let degenerate :=
    f_leb sx (f_of_Z 0) = true \/ f_leb sy (f_of_Z 0) = true
    \/ f_leb sz (f_of_Z 0) = true \/ near_zero3 (cross row col) = true in
  (degenerate <-> nifti_orientation orient position xyzMM = Raise GeometryError)
  /\ (~ degenerate <->
      exists o, nifti_orientation orient position xyzMM = Ok o)
  /\ (forall o,
         nifti_orientation orient position xyzMM = Ok o ->
         length (Q44 o) = 4%nat
         /\ Q44 o !! 3%nat = Some [f_of_Z 0; f_of_Z 0; f_of_Z 0; f_of_Z 1])
  /\ (forall n0 n1 n2,
         cross row col = (n0, n1, n2) ->
         f_eqb n0 (f_of_Z 0) = true ->
         f_eqb n1 (f_of_Z 0) = true ->
         f_eqb n2 (f_of_Z 0) = true ->
         nifti_orientation orient position xyzMM = Raise GeometryError)
  /\ ((forall a b : R, f_eqb (f_sub (f_mul a b) (f_mul b a)) (f_of_Z 0) = true) ->
      row = col ->
      nifti_orientation orient position xyzMM = Raise GeometryError)
  /\ (forall now img,
         svs_geometry img = Ok (orient, position, xyzMM) ->
         degenerate -> svs_header now img = Raise GeometryError)
  /\ (forall now img,
         csi_geometry img = Ok (orient, position, xyzMM) ->
         degenerate -> csi_header now img = Raise GeometryError).
Proof.
  intros Hrow Hcol Hpos Hsize degenerate.
  assert (Hdeg : degenerate <->
                 bad_voxel_size (sx, sy, sz) = true
                 \/ near_zero3 (cross row col) = true).
  { unfold degenerate. rewrite bad_voxel_size_spec. tauto. }
  assert (Hrun : nifti_orientation orient position xyzMM
                 = (Q <~ dicom2mat row col pos (sx, sy, sz) ;;
                    Ok (mk_NIFTIOrient (negate_first_two_rows Q)))).
  { unfold nifti_orientation, nifti_dicom2mat.
    rewrite Hrow, Hcol, Hpos, Hsize. reflexivity. }
  destruct (dicom2mat_cases row col pos (sx, sy, sz)) as [Hbad Hgood].
  assert (Hfail : degenerate ->
                  nifti_orientation orient position xyzMM = Raise GeometryError).
  { intros Hd. rewrite Hrun, (Hbad (proj1 Hdeg Hd)). reflexivity. }
  assert (Hsucc : ~ degenerate ->
                  exists r0 r1 r2,
                    nifti_orientation orient position xyzMM
                    = Ok (mk_NIFTIOrient
                            (negate_first_two_rows
                               [r0; r1; r2;
                                [f_of_Z 0; f_of_Z 0; f_of_Z 0; f_of_Z 1]]))).
  { intros Hd. destruct Hgood as (r0 & r1 & r2 & HQ); [rewrite <- Hdeg; exact Hd |].
    exists r0, r1, r2. rewrite Hrun, HQ. reflexivity. }
  assert (Hdec : degenerate \/ ~ degenerate).
  { rewrite Hdeg.
    destruct (bad_voxel_size (sx, sy, sz)), (near_zero3 (cross row col));
      try (left; tauto).
    right. intros [Hb | Hb]; discriminate. }
  assert (Hzero : forall n0 n1 n2,
             cross row col = (n0, n1, n2) ->
             f_eqb n0 (f_of_Z 0) = true ->
             f_eqb n1 (f_of_Z 0) = true ->
             f_eqb n2 (f_of_Z 0) = true ->
             nifti_orientation orient position xyzMM = Raise GeometryError).
  { intros n0 n1 n2 Hn Hz0 Hz1 Hz2. apply Hfail. unfold degenerate.
    right; right; right. rewrite Hn. apply near_zero3_zero; assumption. }
  split; [| split; [| split; [| split; [| split; [| split]]]]].
  - split; [exact Hfail |]. intros Hraise.
    destruct Hdec as [Hd | Hd]; [exact Hd |].
    destruct (Hsucc Hd) as (r0 & r1 & r2 & Hok). rewrite Hok in Hraise. discriminate.
  - split.
    + intros Hd. destruct (Hsucc Hd) as (r0 & r1 & r2 & Hok). eexists. exact Hok.
    + intros [o Hok] Hd. rewrite (Hfail Hd) in Hok. discriminate.
  - intros o Hok. destruct Hdec as [Hd | Hd].
    + rewrite (Hfail Hd) in Hok. discriminate.
    + destruct (Hsucc Hd) as (r0 & r1 & r2 & Hok'). rewrite Hok' in Hok.
      apply Ok_inj in Hok. subst o. split; reflexivity.
  - exact Hzero.
  - intros Hcomm Heq. destruct row as [[r0 r1] r2]. subst col.
    apply (Hzero _ _ _ eq_refl); apply Hcomm.
  - intros now img Hg Hd. unfold svs_header. rewrite Hg. cbn [rbind Ok fst snd].
    rewrite (Hfail Hd). reflexivity.
  - intros now img Hg Hd. unfold csi_header. rewrite Hg. cbn [rbind Ok fst snd].
    rewrite (Hfail Hd). reflexivity.
Qed.
End Geometry.

Lemma orientation_geometry_error_witness :
  nifti_orientation Examples.parallel_orientation Examples.origin Examples.voxel_20mm
  = Raise GeometryError
  /\ svs_header (Examples.clock 0) Examples.file_parallel = Raise GeometryError
  /\ csi_header (Examples.clock 0) Examples.file_flat = Raise GeometryError
  /\ exists o,
      nifti_orientation Examples.axial_orientation Examples.origin
                        Examples.voxel_20mm = Ok o
      /\ Q44 o !! 3%nat = Some [f_of_Z 0; f_of_Z 0; f_of_Z 0; f_of_Z 1].
Proof.
  pose proof (orientation_geometry_error
                Examples.parallel_orientation Examples.origin Examples.voxel_20mm
                (1, 0, 0)%Q (2, 0, 0)%Q (0, 0, 0)%Q 20%Q 20%Q 20%Q
                eq_refl eq_refl eq_refl eq_refl)
    as (_ & _ & _ & Hzero & _ & Hsvs & _).
  pose proof (orientation_geometry_error
                Examples.axial_orientation Examples.origin
                [IFloat 10; IFloat 10; IFloat 0]%Q
                (1, 0, 0)%Q (0, 1, 0)%Q (0, 0, 0)%Q 10%Q 10%Q 0%Q
                eq_refl eq_refl eq_refl eq_refl)
    as (_ & _ & _ & _ & _ & _ & Hcsi).
  pose proof (orientation_geometry_error
                Examples.axial_orientation Examples.origin Examples.voxel_20mm
                (1, 0, 0)%Q (0, 1, 0)%Q (0, 0, 0)%Q 20%Q 20%Q 20%Q
                eq_refl eq_refl eq_refl eq_refl)
    as (_ & Hvalid & Hrow & _).
  split; [| split; [| split]].
  - apply (Hzero _ _ _ eq_refl); reflexivity.
  - apply Hsvs; [reflexivity |]. right; right; right. reflexivity.
  - apply Hcsi; [reflexivity |]. right; right; left. reflexivity.
  - destruct (proj1 Hvalid) as [o Ho].
    + intros [Hd | [Hd | [Hd | Hd]]]; discriminate.
    + exists o. split; [exact Ho | apply (Hrow o Ho)].
Defined.

(** ** The state after the conversion loop *)

Section LoopState.
Context {R : Type} `{Scalar R} `{Tolerance R}.

(** Every converted spectrum has as many elements as its shape says. *)
Lemma convert_file_well_formed (now : string) (img : dicom_img R)
      (d : ndarray (complex R)) (o : NIFTIOrient R) (dt : R) (m : hdr_ext R) :
  convert_file now img = Ok (d, o, dt, m) -> well_formed d.
Proof.
  unfold convert_file. intros Hrun. inv_bind Hrun. destruct x.
  - inv_bind Hrun. destruct x as [[[d1 o1] dt1] m1]. inv_bind Hrun.
    apply Ok_inj in Hrun. injection Hrun as <- _ _ _.
    apply reshape_Ok in Hx1. unfold well_formed. tauto.
  - unfold process_siemens_csi in Hrun.
    apply rbind_Ok in Hrun. destruct Hrun as (d1 & Hdata & Hrun).
    apply rbind_Ok in Hrun. destruct Hrun as (h & _ & Hrun).
    apply Ok_inj in Hrun. injection Hrun as <- _ _ _.
    unfold csi_data in Hdata.
    apply rbind_Ok in Hdata. destruct Hdata as (storage & _ & Hmove).
    unfold moveaxis in Hmove.
    destruct (_ && _) in Hmove; [| discriminate].
    apply Ok_inj in Hmove. subst d1. apply transpose_well_formed.
Qed.

Variable wrapper_from_file : string -> result (dicom_img R).
Variable clock : nat -> string.

(** The loop appends one result per file, in order, and fixes [mainStr]
    at the file numbered 0. *)
Lemma loop_Ok (fname_out : option string) (files : list string) (k : nat)
      (st0 st : loop_state R) :
  foldM (loop_body wrapper_from_file clock fname_out) (enumerate_from k files) st0
  = Ok st ->
  exists rs,
    Forall2 (converts_to wrapper_from_file clock) (enumerate_from k files) rs
    /\ data_list st = data_list st0 ++ map (fun ir => ir.2.1.1.1) rs
    /\ orientation_list st = orientation_list st0 ++ map (fun ir => ir.2.1.1.2) rs
    /\ dwelltime_list st = dwelltime_list st0 ++ map (fun ir => ir.2.1.2) rs
    /\ meta_list st = meta_list st0 ++ map (fun ir => ir.2.2) rs
    /\ match rs with
       | [] => mainStr st = mainStr st0
       | ir :: _ =>
           if (k =? 0)%nat then main_name fname_out ir.1 = Ok (mainStr st)
           else mainStr st = mainStr st0
       end.
Proof.
  revert k st0. induction files as [| fn files IH]; intros k st0 Hrun.
  - apply Ok_inj in Hrun. subst st. exists [].
    rewrite !app_nil_r. repeat split. constructor.
  - cbn [enumerate_from foldM] in Hrun.
    apply rbind_Ok in Hrun. destruct Hrun as (st1 & Hbody & Hrun).
    unfold loop_body in Hbody. cbn [fst snd] in Hbody.
    apply rbind_Ok in Hbody. destruct Hbody as (img & Himg & Hbody).
    apply rbind_Ok in Hbody. destruct Hbody as ([[[d o] dt] m] & Hconv & Hbody).
    apply rbind_Ok in Hbody. destruct Hbody as (main & Hmain & Hbody).
    apply Ok_inj in Hbody. subst st1.
    destruct (IH (S k) _ Hrun) as (rs & Hrs & Hd & Ho & Hdt & Hm & Hname).
    cbn [data_list orientation_list dwelltime_list meta_list mainStr] in *.
    exists ((img, (d, o, dt, m)) :: rs).
    split; [constructor; [split; assumption | exact Hrs] |].
    rewrite Hd, Ho, Hdt, Hm, <- !app_assoc. cbn [map app fst snd].
    do 4 (split; [reflexivity |]).
    assert (Hkeep : mainStr st = main).
    { destruct rs; [exact Hname |]. exact Hname. }
    rewrite Hkeep. destruct (k =? 0)%nat; [exact Hmain |].
    apply Ok_inj in Hmain. symmetry. exact Hmain.
Qed.

Lemma Forall2_converts_lookup (files : list string) (k : nat)
      (rs : list (dicom_img R * (ndarray (complex R) * NIFTIOrient R * R * hdr_ext R)))
      (j : nat) (fn : string) :
  Forall2 (converts_to wrapper_from_file clock) (enumerate_from k files) rs ->
  files !! j = Some fn ->
  exists ir,
    rs !! j = Some ir
    /\ wrapper_from_file fn = Ok ir.1
    /\ convert_file (clock (k + j)) ir.1 = Ok ir.2.
Proof.
  intros Hrs Hj.
  pose proof (enumerate_from_lookup files k j fn Hj) as He.
  destruct (Forall2_lookup_l _ _ _ _ _ Hrs He) as (ir & Hir & Hw & Hc).
  exists ir. split; [exact Hir |]. split; assumption.
Qed.
End LoopState.

(** ** C2: the combine path *)

Section CombinePath.
Context {R : Type} `{Scalar R} `{Tolerance R}.
Variable wrapper_from_file : string -> result (dicom_img R).
Variable clock : nat -> string.

(** The combine test compares shapes with an equality that is reflexive:
    when it holds, all spectra have one shape. *)
Lemma combine_test_shapes (st : loop_state R) :
  combine_test st = true ->
  forall i j a b,
    data_list st !! i = Some a -> data_list st !! j = Some b -> shape a = shape b.
Proof.
  unfold combine_test. rewrite !andb_true_iff. intros [[Hshape _] _].
  rewrite (all_equal_pairwise (list_eqb Nat.eqb)) in Hshape.
  2: { intros s1 s2. rewrite !list_eqb_nat_eq. congruence. }
  2: { intros s1 s2 s3. rewrite !list_eqb_nat_eq. congruence. }
  intros i j a b Hi Hj. destruct (decide (i = j)) as [-> | Hne]; [congruence |].
  apply list_eqb_nat_eq. apply (Hshape i j); [exact Hne | |];
    rewrite list_lookup_fmap; [rewrite Hi | rewrite Hj]; reflexivity.
Qed.

Lemma main_name_cases (fname_out : option string) (img : dicom_img R) (stem : string) :
  main_name fname_out img = Ok stem ->
  match truthy fname_out with
  | Some name => stem = name
  | None => SeriesDescription (dcm_data img) = Some stem
  end.
Proof.
  unfold main_name, attr. destruct (truthy fname_out) as [name |].
  - intros Hn. apply Ok_inj in Hn. symmetry. exact Hn.
  - destruct (SeriesDescription (dcm_data img)) as [s |]; [| discriminate].
    intros Hn. apply Ok_inj in Hn. congruence.
Qed.

(** An empty batch passes the combine test and then has no first
    file. *)
Lemma empty_batch_raises (fname_out tag : option string) (verbose : bool) :
  multi_file_dicom wrapper_from_file clock [] fname_out tag verbose
  = Raise IndexError.
Proof. reflexivity. Qed.

(** C2 (amended).  When every file of a non-empty batch converts and the
    combine test holds, exactly one output unit is emitted.  Its data are
    the per-file spectra stacked along a new trailing axis in input order
    (one more dimension, of length N); its orientation, dwell time and
    metadata are the first file's; the metadata gain the standard field
    OriginalFile with all N file names in input order; its name is the
    override when one is given and not empty, and the first file's series
    description otherwise. *)
Theorem combine_path (files_in : list string) (fname_out tag : option string)
        (verbose : bool) (st : loop_state R) :
  files_in <> [] ->
  foldM (loop_body wrapper_from_file clock fname_out) (enumerate files_in)
        initial_state = Ok st ->
  combine_test st = true ->
  exists fn0 img0 d0 o0 dt0 m0 out,
    files_in !! 0%nat = Some fn0
    /\ wrapper_from_file fn0 = Ok img0
    /\ convert_file (clock 0) img0 = Ok (d0, o0, dt0, m0)
    /\ multi_file_dicom wrapper_from_file clock files_in fname_out tag verbose
       = Ok ([out], [mainStr st])
    /\ shape (mrs_data out) = shape d0 ++ [length files_in]
    /\ (forall j fn,
           files_in !! j = Some fn ->
           exists img d o dt m,
             wrapper_from_file fn = Ok img
             /\ convert_file (clock j) img = Ok (d, o, dt, m)
             /\ shape d = shape d0
             /\ forall idx,
                 in_bounds (shape d0) idx ->
                 get (mrs_data out) (idx ++ [j]) = get d idx)
    /\ mrs_affine out = Q44 o0
    /\ mrs_dwelltime out = dt0
    /\ mrs_hdr_ext out
       = match truthy tag with
         | Some t =>
             set_dim_info 0 t (set_standard_def "OriginalFile" (VStrList files_in) m0)
         | None => set_standard_def "OriginalFile" (VStrList files_in) m0
         end
    /\ standard_data (mrs_hdr_ext out)
       = <["OriginalFile" := VStrList files_in]> (standard_data m0)
    /\ user_data (mrs_hdr_ext out) = user_data m0
    /\ match truthy fname_out with
       | Some name => mainStr st = name
       | None => SeriesDescription (dcm_data img0) = Some (mainStr st)
       end.
Proof.
  intros Hne Hloop Hcomb.
  destruct (loop_Ok wrapper_from_file clock fname_out files_in 0 initial_state st Hloop)
    as (rs & Hrs & Hd & Ho & Hdt & Hm & Hname).
  cbn [initial_state data_list orientation_list dwelltime_list meta_list app] in *.
  destruct files_in as [| fn0 files]; [contradiction |].
  cbn [enumerate_from] in Hrs.
  destruct rs as [| [img0 [[[d0 o0] dt0] m0]] rs]; [inversion Hrs |].
  assert (Hfirst : converts_to wrapper_from_file clock (0%nat, fn0) (img0, (d0, o0, dt0, m0))).
  { inversion Hrs; assumption. }
  destruct Hfirst as [Himg0 Hconv0]. cbn [fst snd] in Himg0, Hconv0.
  cbn [Nat.eqb map] in Hd, Ho, Hdt, Hm, Hname. cbn [fst snd] in *.
  assert (Hlen : length (data_list st) = length (fn0 :: files)).
  { rewrite Hd. cbn [length]. rewrite length_map.
    pose proof (Forall2_length _ _ _ Hrs) as Hlen.
    cbn [length] in Hlen. rewrite enumerate_from_length in Hlen.
    symmetry. exact Hlen. }
  assert (Hsame : forall a, a ∈ data_list st -> shape a = shape d0).
  { intros a Ha. apply list_elem_of_lookup in Ha as [i Hi].
    apply (combine_test_shapes st Hcomb i 0%nat a d0 Hi). rewrite Hd. reflexivity. }
  set (stacked := mk_ndarray
                    (shape d0 ++ [length (data_list st)])
                    (flat_map (fun p => map (fun a => data a !!! p) (data_list st))
                              (seq 0 (length (data d0))))).
  assert (Hstack : stack_last (data_list st) = Ok stacked).
  { unfold stacked. rewrite Hd in *. apply stack_last_same_shape. exact Hsame. }
  set (meta := set_standard_def "OriginalFile" (VStrList (fn0 :: files)) m0).
  set (out := mk_NIfTI_MRS stacked (Q44 o0) dt0
                match truthy tag with
                | Some t => set_dim_info 0 t meta
                | None => meta
                end).
  exists fn0, img0, d0, o0, dt0, m0, out.
  split; [reflexivity |]. split; [exact Himg0 |]. split; [exact Hconv0 |].
  split.
  { unfold multi_file_dicom. rewrite Hloop. cbn [rbind Ok].
    rewrite Hcomb. unfold combine_files. rewrite Hstack, Hdt, Ho, Hm.
    reflexivity. }
  split; [cbn [out mrs_data stacked shape]; rewrite Hlen; reflexivity |].
  split.
  { intros j fn Hj.
    destruct (Forall2_converts_lookup wrapper_from_file clock (fn0 :: files) 0 _ j fn
                Hrs Hj) as ([img [[[d o] dt] m]] & Hir & Hw & Hc).
    cbn [fst snd Nat.add] in Hw, Hc.
    assert (Hdj : data_list st !! j = Some d).
    { rewrite Hd.
      change (d0 :: map _ rs) with (map (fun ir => ir.2.1.1.1)
                                      ((img0, (d0, o0, dt0, m0)) :: rs)).
      unfold per_file in Hir. rewrite list_lookup_fmap, Hir. reflexivity. }
    assert (Hsh : shape d = shape d0).
    { apply Hsame. apply list_elem_of_lookup. exists j. exact Hdj. }
    exists img, d, o, dt, m. split; [exact Hw |]. split; [exact Hc |].
    split; [exact Hsh |]. intros idx Hb.
    cbn [out mrs_data]. unfold stacked.
    apply stack_last_get; try assumption.
    eapply convert_file_well_formed. exact Hconv0. }
  split; [reflexivity |]. split; [reflexivity |]. split; [reflexivity |].
  split; [cbn [out mrs_hdr_ext]; destruct (truthy tag); reflexivity |].
  split; [cbn [out mrs_hdr_ext]; destruct (truthy tag); reflexivity |].
  apply main_name_cases. exact Hname.
Qed.
End CombinePath.

Lemma combine_path_witness :
  let files_in := ["a.dcm"; "b.dcm"; "c.dcm"] in
  let st := Examples.state_after files_in None in
  exists fn0 img0 d0 o0 dt0 m0 out,
    files_in !! 0%nat = Some fn0
    /\ Examples.reader fn0 = Ok img0
    /\ convert_file (Examples.clock 0) img0 = Ok (d0, o0, dt0, m0)
    /\ multi_file_dicom Examples.reader Examples.clock files_in None
                        (Some "DIM_DYN") false
       = Ok ([out], [mainStr st])
    /\ shape (mrs_data out) = shape d0 ++ [length files_in]
    /\ (forall j fn,
           files_in !! j = Some fn ->
           exists img d o dt m,
             Examples.reader fn = Ok img
             /\ convert_file (Examples.clock j) img = Ok (d, o, dt, m)
             /\ shape d = shape d0
             /\ forall idx,
                 in_bounds (shape d0) idx ->
                 get (mrs_data out) (idx ++ [j]) = get d idx)
    /\ mrs_affine out = Q44 o0
    /\ mrs_dwelltime out = dt0
    /\ mrs_hdr_ext out
       = match truthy (Some "DIM_DYN") with
         | Some t =>
             set_dim_info 0 t (set_standard_def "OriginalFile" (VStrList files_in) m0)
         | None => set_standard_def "OriginalFile" (VStrList files_in) m0
         end
    /\ standard_data (mrs_hdr_ext out)
       = <["OriginalFile" := VStrList files_in]> (standard_data m0)
    /\ user_data (mrs_hdr_ext out) = user_data m0
    /\ match truthy None with
       | Some name => mainStr st = name
       | None => SeriesDescription (dcm_data img0) = Some (mainStr st)
       end.
Proof.
  apply (combine_path Examples.reader Examples.clock
           ["a.dcm"; "b.dcm"; "c.dcm"] None (Some "DIM_DYN") false
           (Examples.state_after ["a.dcm"; "b.dcm"; "c.dcm"] None)).
  - discriminate.
  - vm_compute. reflexivity.
  - vm_compute. reflexivity.
Defined.

(** C2 as stated fails: the output name is not derived from the first
    file's protocol name.  Two batches whose first files have the same
    protocol name, and differ in their series description only, combine
    under different names, the series descriptions. *)
Lemma combined_name_ignores_protocol_name :
  ProtocolName (dcm_data Examples.file_a) = Some "svs_se"
  /\ ProtocolName (dcm_data Examples.file_e) = Some "svs_se"
  /\ SeriesDescription (dcm_data Examples.file_a) = Some "svs_se_30"
  /\ SeriesDescription (dcm_data Examples.file_e) = Some "localizer_7"
  /\ (exists out,
         multi_file_dicom Examples.reader Examples.clock
                          ["a.dcm"; "b.dcm"; "c.dcm"] None None false
         = Ok ([out], ["svs_se_30"]))
  /\ (exists out,
         multi_file_dicom Examples.reader Examples.clock
                          ["e.dcm"; "b.dcm"; "c.dcm"] None None false
         = Ok ([out], ["localizer_7"])).
Proof.
  do 4 (split; [reflexivity |]).
  split; eexists; vm_compute; reflexivity.
Qed.

(** ** C3: the non-combine path *)

(** Numbers below 1000 are written with exactly three digits. *)
Lemma format_03_three_digits (i : nat) :
  (i < 1000)%nat -> format_03 i = three_digits i.
Proof.
  intros Hi.
  assert (Hall : forallb (fun n => String.eqb (format_03 n) (three_digits n))
                         (seq 0 1000) = true) by (vm_compute; reflexivity).
  rewrite forallb_forall in Hall. apply String.eqb_eq, Hall, in_seq. lia.
Qed.

Section SeparatePath.
Context {R : Type} `{Scalar R} `{Tolerance R}.
Variable wrapper_from_file : string -> result (dicom_img R).
Variable clock : nat -> string.

(** After the loop, position [i] of each list holds what file [i]
    converted to. *)
Lemma loop_lookup (fname_out : option string) (files_in : list string)
      (st : loop_state R) (i : nat) (fn : string) :
  foldM (loop_body wrapper_from_file clock fname_out) (enumerate files_in)
        initial_state = Ok st ->
  files_in !! i = Some fn ->
  exists img d o dt m,
    wrapper_from_file fn = Ok img
    /\ convert_file (clock i) img = Ok (d, o, dt, m)
    /\ data_list st !! i = Some d
    /\ orientation_list st !! i = Some o
    /\ dwelltime_list st !! i = Some dt
    /\ meta_list st !! i = Some m.
Proof.
  intros Hloop Hi.
  destruct (loop_Ok wrapper_from_file clock fname_out files_in 0 initial_state st Hloop)
    as (rs & Hrs & Hd & Ho & Hdt & Hm & _).
  destruct (Forall2_converts_lookup wrapper_from_file clock files_in 0 rs i fn Hrs Hi)
    as ([img [[[d o] dt] m]] & Hir & Hw & Hc).
  cbn [fst snd Nat.add] in Hw, Hc. unfold per_file in Hir.
  exists img, d, o, dt, m. split; [exact Hw |]. split; [exact Hc |].
  rewrite Hd, Ho, Hdt, Hm. cbn [initial_state data_list orientation_list
                                  dwelltime_list meta_list app].
  rewrite !list_lookup_fmap, Hir. repeat split.
Qed.

Lemma loop_lengths (fname_out : option string) (files_in : list string)
      (st : loop_state R) :
  foldM (loop_body wrapper_from_file clock fname_out) (enumerate files_in)
        initial_state = Ok st ->
  length (data_list st) = length files_in
  /\ length (orientation_list st) = length files_in
  /\ length (dwelltime_list st) = length files_in
  /\ length (meta_list st) = length files_in.
Proof.
  intros Hloop.
  destruct (loop_Ok wrapper_from_file clock fname_out files_in 0 initial_state st Hloop)
    as (rs & Hrs & Hd & Ho & Hdt & Hm & _).
  pose proof (Forall2_length _ _ _ Hrs) as Hlen.
  rewrite enumerate_from_length in Hlen.
  rewrite Hd, Ho, Hdt, Hm. cbn [initial_state data_list orientation_list
                                  dwelltime_list meta_list app].
  rewrite !length_map. repeat split; symmetry; exact Hlen.
Qed.

Lemma loop_main_name (fname_out : option string) (fn0 : string) (files : list string)
      (st : loop_state R) :
  foldM (loop_body wrapper_from_file clock fname_out) (enumerate (fn0 :: files))
        initial_state = Ok st ->
  exists img0,
    wrapper_from_file fn0 = Ok img0
    /\ main_name fname_out img0 = Ok (mainStr st).
Proof.
  intros Hloop.
  destruct (loop_Ok wrapper_from_file clock fname_out (fn0 :: files) 0
              initial_state st Hloop) as (rs & Hrs & _ & _ & _ & _ & Hname).
  cbn [enumerate_from] in Hrs.
  destruct rs as [| [img0 r0] rs]; [inversion Hrs |].
  assert (Hfirst : converts_to wrapper_from_file clock (0%nat, fn0) (img0, r0)).
  { inversion Hrs; assumption. }
  destruct Hfirst as [Himg0 _]. exists img0. split; [exact Himg0 | exact Hname].
Qed.

Lemma combine_test_initial : combine_test (R := R) initial_state = true.
Proof. reflexivity. Qed.

(** C3 (amended).  When every file of a batch converts and the combine
    test does not hold, exactly N output units are emitted; the unit at
    index i carries that file's own spectrum, orientation, dwell time and
    metadata, with the standard field OriginalFile holding that file's
    name only; its name is the stem, an underscore and the index padded
    with zeros to three digits, where the stem is the override when one is
    given and not empty, and the first file's series description
    otherwise. *)
Theorem separate_path (files_in : list string) (fname_out tag : option string)
        (verbose : bool) (st : loop_state R) :
  foldM (loop_body wrapper_from_file clock fname_out) (enumerate files_in)
        initial_state = Ok st ->
  combine_test st = false ->
  exists outs names,
    multi_file_dicom wrapper_from_file clock files_in fname_out tag verbose
    = Ok (outs, names)
    /\ length outs = length files_in
    /\ length names = length files_in
    /\ (forall i fn,
           files_in !! i = Some fn ->
           exists img d o dt m,
             wrapper_from_file fn = Ok img
             /\ convert_file (clock i) img = Ok (d, o, dt, m)
             /\ outs !! i
                = Some (mk_NIfTI_MRS d (Q44 o) dt
                          (set_standard_def "OriginalFile" (VStrList [fn]) m))
             /\ names !! i = Some (mainStr st ++ "_" ++ format_03 i)%string
             /\ ((i < 1000)%nat ->
                 names !! i = Some (mainStr st ++ "_" ++ three_digits i)%string))
    /\ exists fn0 img0,
        files_in !! 0%nat = Some fn0
        /\ wrapper_from_file fn0 = Ok img0
        /\ match truthy fname_out with
           | Some name => mainStr st = name
           | None => SeriesDescription (dcm_data img0) = Some (mainStr st)
           end.
Proof.
  intros Hloop Hcomb.
  destruct (loop_lengths fname_out files_in st Hloop) as (Ld & Lo & Ldt & Lm).
  set (zipped := zip (data_list st)
                     (zip (orientation_list st)
                          (zip (dwelltime_list st) (zip (meta_list st) files_in)))).
  assert (Lz : length zipped = length files_in).
  { unfold zipped. rewrite !length_zip_with. lia. }
  exists (map fst (map (separate_file (mainStr st)) (enumerate zipped))),
         (map snd (map (separate_file (mainStr st)) (enumerate zipped))).
  split.
  { unfold multi_file_dicom. rewrite Hloop. cbn [rbind Ok]. rewrite Hcomb.
    reflexivity. }
  split; [rewrite !length_map; unfold enumerate; rewrite enumerate_from_length;
          exact Lz |].
  split; [rewrite !length_map; unfold enumerate; rewrite enumerate_from_length;
          exact Lz |].
  split.
  - intros i fn Hi.
    destruct (loop_lookup fname_out files_in st i fn Hloop Hi)
      as (img & d & o & dt & m & Hw & Hc & Hd & Ho & Hdt & Hm).
    assert (Hz : zipped !! i = Some (d, (o, (dt, (m, fn))))).
    { unfold zipped. rewrite !lookup_zip_with, Hd, Ho, Hdt, Hm, Hi. reflexivity. }
    assert (He : enumerate zipped !! i = Some (i, (d, (o, (dt, (m, fn)))))).
    { apply (enumerate_from_lookup zipped 0 i _ Hz). }
    assert (Hname : map snd (map (separate_file (mainStr st)) (enumerate zipped)) !! i
                    = Some (mainStr st ++ "_" ++ format_03 i)%string).
    { rewrite !list_lookup_fmap, He. reflexivity. }
    exists img, d, o, dt, m. split; [exact Hw |]. split; [exact Hc |].
    split; [rewrite !list_lookup_fmap, He; reflexivity |].
    split; [exact Hname |].
    intros Hlt. rewrite Hname, (format_03_three_digits i Hlt). reflexivity.
  - destruct files_in as [| fn0 files].
    + apply Ok_inj in Hloop. subst st. rewrite combine_test_initial in Hcomb.
      discriminate.
    + destruct (loop_main_name fname_out fn0 files st Hloop) as (img0 & Hw & Hn).
      exists fn0, img0. split; [reflexivity |]. split; [exact Hw |].
      apply main_name_cases. exact Hn.
Qed.
End SeparatePath.

Lemma separate_path_witness :
  let files_in := ["a.dcm"; "d.dcm"] in
  let st := Examples.state_after files_in (Some "out") in
  exists outs names,
    multi_file_dicom Examples.reader Examples.clock files_in (Some "out") None false
    = Ok (outs, names)
    /\ length outs = length files_in
    /\ length names = length files_in
    /\ (forall i fn,
           files_in !! i = Some fn ->
           exists img d o dt m,
             Examples.reader fn = Ok img
             /\ convert_file (Examples.clock i) img = Ok (d, o, dt, m)
             /\ outs !! i
                = Some (mk_NIfTI_MRS d (Q44 o) dt
                          (set_standard_def "OriginalFile" (VStrList [fn]) m))
             /\ names !! i = Some (mainStr st ++ "_" ++ format_03 i)%string
             /\ ((i < 1000)%nat ->
                 names !! i = Some (mainStr st ++ "_" ++ three_digits i)%string))
    /\ exists fn0 img0,
        files_in !! 0%nat = Some fn0
        /\ Examples.reader fn0 = Ok img0
        /\ match truthy (Some "out") with
           | Some name => mainStr st = name
           | None => SeriesDescription (dcm_data img0) = Some (mainStr st)
           end.
Proof.
  apply (separate_path Examples.reader Examples.clock
           ["a.dcm"; "d.dcm"] (Some "out") None false
           (Examples.state_after ["a.dcm"; "d.dcm"] (Some "out"))).
  - vm_compute. reflexivity.
  - vm_compute. reflexivity.
Defined.

(** C3 as stated fails: without an override the stem is not the first
    file's protocol name.  The first file's protocol name is "svs_se";
    the two outputs are named after its series description. *)
Lemma separate_names_ignore_protocol_name :
  ProtocolName (dcm_data Examples.file_a) = Some "svs_se"
  /\ SeriesDescription (dcm_data Examples.file_a) = Some "svs_se_30"
  /\ Examples.reader "a.dcm" = Ok Examples.file_a
  /\ combine_test (Examples.state_after ["a.dcm"; "d.dcm"] None) = false
  /\ exists out0 out1,
      multi_file_dicom Examples.reader Examples.clock ["a.dcm"; "d.dcm"] None None false
      = Ok ([out0; out1], ["svs_se_30_000"; "svs_se_30_001"]).
Proof.
  do 3 (split; [reflexivity |]).
  split; [vm_compute; reflexivity |].
  eexists _, _. vm_compute. reflexivity.
Qed.

(** ** C10: a batch of one file *)

Section SingleFile.
Context {R : Type} `{Scalar R} `{Tolerance R}.
Variable wrapper_from_file : string -> result (dicom_img R).
Variable clock : nat -> string.

(** Stacking one array lists its elements once. *)
Lemma flat_map_lookup_total {A} `{Inhabited A} (l : list A) :
  flat_map (fun p => [l !!! p]) (seq 0 (length l)) = l.
Proof.
  apply list_eq. intros i.
  destruct (decide (i < length l)%nat) as [Hlt | Hge].
  - replace i with (i * 1 + 0)%nat at 1 by lia.
    rewrite (flat_map_seq_lookup _ 1) by (try reflexivity; lia).
    destruct (lookup_lt_is_Some_2 l i Hlt) as [x Hx].
    cbn [Nat.add lookup list_lookup].
    rewrite (list_lookup_total_correct l i x Hx), Hx. reflexivity.
  - rewrite (proj2 (lookup_ge_None l i)) by lia.
    apply lookup_ge_None.
    rewrite (flat_map_seq_length _ 1) by reflexivity. lia.
Qed.

(** The spectrum a single-voxel file converts to has three leading axes
    of length one. *)
Lemma convert_file_svs_shape (now : string) (img : dicom_img R) (buf : list R)
      (n : nat) (d : ndarray (complex R)) (o : NIFTIOrient R) (dt : R)
      (m : hdr_ext R) :
  svs_or_CSI img = Ok SVS ->
  SpectroscopyData (dcm_data img) = Some buf ->
  length buf = (2 * n)%nat ->
  convert_file now img = Ok (d, o, dt, m) ->
  shape d = [1; 1; 1; n]%nat.
Proof.
  intros Hsvs Hbuf Hlen Hconv.
  destruct (svs_data_even img buf n Hbuf Hlen) as (l & Hdata & Hl & _).
  unfold convert_file, process_siemens_svs in Hconv.
  rewrite Hsvs, Hdata in Hconv. cbn [rbind Ok] in Hconv.
  destruct (svs_header now img) as [e | [[o1 dt1] m1]]; [discriminate |].
  cbn [rbind Ok fst snd] in Hconv.
  rewrite reshape_leading_ones in Hconv by (unfold size_of; simpl; lia).
  cbn [rbind Ok] in Hconv. apply Ok_inj in Hconv. injection Hconv as <- _ _ _.
  cbn [shape array1 app]. rewrite Hl. reflexivity.
Qed.

(** C10.  A batch of one file that converts passes the combine test, so
    the combine path is taken: one output unit is emitted, named by the
    bare stem; its field OriginalFile lists the one file; its data are the
    file's spectrum with one more trailing axis, of length 1, so that a
    single-voxel file of N samples gives shape (1, 1, 1, N, 1). *)
Theorem single_file_batch (fn : string) (fname_out tag : option string)
        (verbose : bool) (img : dicom_img R) (d : ndarray (complex R))
        (o : NIFTIOrient R) (dt : R) (m : hdr_ext R) (stem : string) :
  wrapper_from_file fn = Ok img ->
  convert_file (clock 0) img = Ok (d, o, dt, m) ->
  main_name fname_out img = Ok stem ->
  foldM (loop_body wrapper_from_file clock fname_out) (enumerate [fn]) initial_state
  = Ok (mk_loop_state [d] [o] [dt] [m] stem)
  /\ combine_test (mk_loop_state [d] [o] [dt] [m] stem) = true
  /\ exists out,
      multi_file_dicom wrapper_from_file clock [fn] fname_out tag verbose
      = Ok ([out], [stem])
      /\ shape (mrs_data out) = shape d ++ [1%nat]
      /\ data (mrs_data out) = data d
      /\ (forall idx,
             in_bounds (shape d) idx ->
             get (mrs_data out) (idx ++ [0%nat]) = get d idx)
      /\ mrs_affine out = Q44 o
      /\ mrs_dwelltime out = dt
      /\ standard_data (mrs_hdr_ext out) !! "OriginalFile" = Some (VStrList [fn])
      /\ (forall buf n,
             svs_or_CSI img = Ok SVS ->
             SpectroscopyData (dcm_data img) = Some buf ->
             length buf = (2 * n)%nat ->
             shape (mrs_data out) = [1; 1; 1; n; 1]%nat).
Proof.
  intros Himg Hconv Hmain.
  assert (Hloop : foldM (loop_body wrapper_from_file clock fname_out) (enumerate [fn])
                        initial_state
                  = Ok (mk_loop_state [d] [o] [dt] [m] stem)).
  { cbn [enumerate enumerate_from foldM]. unfold loop_body. cbn [fst snd].
    rewrite Himg. cbn [rbind Ok]. rewrite Hconv. cbn [rbind Ok Nat.eqb].
    rewrite Hmain. reflexivity. }
  assert (Hcomb : combine_test (mk_loop_state [d] [o] [dt] [m] stem) = true)
    by reflexivity.
  split; [exact Hloop |]. split; [exact Hcomb |].
  set (stacked := mk_ndarray (shape d ++ [1%nat])
                             (flat_map (fun p => [data d !!! p])
                                       (seq 0 (length (data d))))).
  set (meta := set_standard_def "OriginalFile" (VStrList [fn]) m).
  exists (mk_NIfTI_MRS stacked (Q44 o) dt
            match truthy tag with
            | Some t => set_dim_info 0 t meta
            | None => meta
            end).
  assert (Hstack : stack_last [d] = Ok stacked).
  { rewrite stack_last_same_shape; [reflexivity |].
    intros a Ha. apply list_elem_of_singleton in Ha. subst a. reflexivity. }
  split.
  { unfold multi_file_dicom. rewrite Hloop. cbn [rbind Ok]. rewrite Hcomb.
    unfold combine_files.
    cbn [dwelltime_list orientation_list meta_list data_list mainStr list_get0
         rbind Ok].
    rewrite Hstack. reflexivity. }
  cbn [mrs_data mrs_affine mrs_dwelltime mrs_hdr_ext].
  split; [reflexivity |].
  split; [apply flat_map_lookup_total |].
  split.
  { intros idx Hb. unfold stacked.
    apply (stack_last_get [d] d d idx 0); try reflexivity; try assumption.
    eapply convert_file_well_formed. exact Hconv. }
  split; [reflexivity |]. split; [reflexivity |].
  split.
  { destruct (truthy tag); apply lookup_insert_eq. }
  intros buf n Hsvs Hbuf Hlen. cbn [stacked shape].
  rewrite (convert_file_svs_shape _ _ _ _ _ _ _ _ Hsvs Hbuf Hlen Hconv).
  reflexivity.
Qed.
End SingleFile.

Lemma single_file_batch_witness :
  let d := fst (fst (fst Examples.converted_a)) in
  let o := snd (fst (fst Examples.converted_a)) in
  let dt := snd (fst Examples.converted_a) in
  let m := snd Examples.converted_a in
  foldM (loop_body Examples.reader Examples.clock None) (enumerate ["a.dcm"])
        initial_state
  = Ok (mk_loop_state [d] [o] [dt] [m] "svs_se_30")
  /\ combine_test (mk_loop_state [d] [o] [dt] [m] "svs_se_30") = true
  /\ exists out,
      multi_file_dicom Examples.reader Examples.clock ["a.dcm"] None None false
      = Ok ([out], ["svs_se_30"])
      /\ shape (mrs_data out) = shape d ++ [1%nat]
      /\ data (mrs_data out) = data d
      /\ (forall idx,
             in_bounds (shape d) idx ->
             get (mrs_data out) (idx ++ [0%nat]) = get d idx)
      /\ mrs_affine out = Q44 o
      /\ mrs_dwelltime out = dt
      /\ standard_data (mrs_hdr_ext out) !! "OriginalFile" = Some (VStrList ["a.dcm"])
      /\ (forall buf n,
             svs_or_CSI Examples.file_a = Ok SVS ->
             SpectroscopyData (dcm_data Examples.file_a) = Some buf ->
             length buf = (2 * n)%nat ->
             shape (mrs_data out) = [1; 1; 1; n; 1]%nat).
Proof.
  apply (single_file_batch Examples.reader Examples.clock "a.dcm" None None false
           Examples.file_a).
  - reflexivity.
  - vm_compute. reflexivity.
  - reflexivity.
Defined.

(** * Further properties of the module *)

(** ** svs_or_CSI: which headers classify, and how *)

Section ClassifierFacts.
Context {R : Type} `{Scalar R}.






Lemma wrap64_congruent (a : Z) : exists q, wrap64 a = a + q * 2 ^ 64.
Proof.
  unfold wrap64. exists (- ((a + 2 ^ 63) / 2 ^ 64)).
  pose proof (Z.div_mod (a + 2 ^ 63) (2 ^ 64)) as Hdm. lia.
Qed.

(** Wrapping the factors first does not change the wrapped product. *)
Lemma wrap64_mul (a b : Z) : wrap64 (wrap64 a * b) = wrap64 (a * b).
Proof.
  destruct (wrap64_congruent a) as [q Hq]. rewrite Hq. unfold wrap64.
  replace ((a + q * 2 ^ 64) * b + 2 ^ 63) with (a * b + 2 ^ 63 + (q * b) * 2 ^ 64)
    by ring.
  rewrite Z.mod_add by lia. reflexivity.
Qed.

Lemma wrap64_zero_product (rows cols slices : Z) :
  rows = 0 \/ cols = 0 \/ slices = 0 -> wrap64 (rows * cols * slices) = 0.
Proof.
  intros Hz. replace (rows * cols * slices) with 0 by nia. reflexivity.
Qed.

(** For three integer counts that fit 64 bits, zero and negative ones
    included, the classifier answers CSI exactly when their product,
    wrapped to 64 bits, exceeds 1; a count of zero always gives SVS. *)
Theorem svs_or_CSI_int64_product (img : dicom_img R) (rows cols slices : Z) :
  csa_item0 img "Rows" = Ok (IInt rows) ->
  csa_item0 img "Columns" = Ok (IInt cols) ->
  csa_item0 img "NumberOfFrames" = Ok (IInt slices) ->
  fits_int64 rows = true -> fits_int64 cols = true -> fits_int64 slices = true ->
  svs_or_CSI img = Ok (if 1 <? wrap64 (rows * cols * slices) then CSI else SVS)
  /\ (rows = 0 \/ cols = 0 \/ slices = 0 -> svs_or_CSI img = Ok SVS).
Proof.
  intros HR HC HS Hr Hc Hs.
  assert (Hrun : svs_or_CSI img
                 = Ok (if 1 <? wrap64 (rows * cols * slices) then CSI else SVS)).
  { unfold svs_or_CSI. rewrite HR, HC, HS. cbn [rbind Ok].
    unfold np_prod. cbn [existsb is_str forallb is_int int_value orb andb].
    rewrite Hr, Hc, Hs. cbn [andb fold_left int_value rbind Ok gt_one].
    rewrite Z.mul_1_l, wrap64_mul, <- Z.mul_assoc, wrap64_mul, Z.mul_assoc.
    reflexivity. }
  split; [exact Hrun |].
  intros Hz. rewrite Hrun, (wrap64_zero_product _ _ _ Hz). reflexivity.
Qed.
End ClassifierFacts.

Lemma svs_or_CSI_int64_product_witness :
  svs_or_CSI Examples.small_grid
  = Ok (if 1 <? wrap64 (2 * 3 * 1) then CSI else SVS)
  /\ (2 = 0 \/ 3 = 0 \/ 1 = 0 -> svs_or_CSI Examples.small_grid = Ok SVS).
Proof.
  apply (svs_or_CSI_int64_product Examples.small_grid 2 3 1); reflexivity.
Defined.

(** ** Decoding: which buffers decode, and what a converted file holds *)

Section ConversionFacts.
Context {R : Type} `{Scalar R} `{Tolerance R}.

(** The interleaved buffer decodes exactly when its length is even, 1 or
    3 (numpy broadcasts a one-element operand); every other length raises
    ValueError.  What decodes is one-dimensional and has half as many
    samples as the buffer has elements, except that three elements give
    two samples. *)
Theorem decode_complex_returns_iff (specData : list R) :
  ((exists a, decode_complex specData = Ok a) <->
   Nat.even (length specData) = true
   \/ length specData = 1%nat \/ length specData = 3%nat)
  /\ (forall a,
         decode_complex specData = Ok a ->
         shape a = [length (data a)]
         /\ length (data a)
            = if (length specData =? 3)%nat then 2%nat
              else (length specData / 2)%nat)
  /\ (forall e, decode_complex specData = Raise e -> e = ValueError).
Proof.
  destruct (Nat.Even_or_Odd (length specData)) as [[n Hn] | [n Hn]].
  - destruct (decode_complex_even specData n Hn) as (l & Hrun & Hl & _).
    rewrite Hrun. split; [| split].
    + split; [intros _; left | intros _; eexists; reflexivity].
      apply Nat.even_spec. exists n. exact Hn.
    + intros a Ha. apply Ok_inj in Ha. subst a. cbn [array1 shape data].
      split; [reflexivity |]. rewrite Hl, Hn.
      replace (2 * n =? 3)%nat with false by (symmetry; apply Nat.eqb_neq; lia).
      rewrite Nat.mul_comm, Nat.div_mul by lia. reflexivity.
    + intros e He. discriminate.
  - destruct n as [| [| n]].
    + destruct specData as [| x [| y l]]; simpl in Hn; try lia.
      split; [| split].
      * split; [intros _; right; left; reflexivity | intros _; eexists; reflexivity].
      * intros a Ha. apply Ok_inj in Ha. subst a. split; reflexivity.
      * intros e He. discriminate.
    + destruct specData as [| x [| y [| z [| w l]]]]; simpl in Hn; try lia.
      split; [| split].
      * split; [intros _; right; right; reflexivity
               | intros _; eexists; reflexivity].
      * intros a Ha. apply Ok_inj in Ha. subst a. split; reflexivity.
      * intros e He. discriminate.
    + rewrite (decode_complex_odd specData (S (S n))) by lia.
      split; [| split].
      * split; [intros [a Ha]; discriminate |].
        intros [Hev | [H1 | H3]]; try lia.
        apply Nat.even_spec in Hev as [k Hk]. lia.
      * intros a Ha. discriminate.
      * intros e He. injection He as <-. reflexivity.
Qed.

Lemma reshape_ndim {A} (a b : ndarray A) (newshape : list Z) :
  reshape a newshape = Ok b -> length (shape b) = length newshape.
Proof.
  unfold reshape.
  destruct (List.filter _ newshape) as [| u [| u' us]]; [| | discriminate].
  - destruct (_ =? _); [| discriminate]. intros Hb. apply Ok_inj in Hb. subst b.
    apply length_map.
  - destruct (_ || _); [discriminate |]. intros Hb. apply Ok_inj in Hb. subst b.
    apply length_map.
Qed.

Lemma decode_complex_array1 (specData : list R) (a : ndarray (complex R)) :
  decode_complex specData = Ok a -> a = array1 (data a).
Proof.
  unfold decode_complex. intros Hrun.
  apply rbind_Ok in Hrun. destruct Hrun as (l & _ & Hrun).
  apply Ok_inj in Hrun. subst a. reflexivity.
Qed.

(** A converted spectrum has four axes. *)
Lemma convert_file_ndim (now : string) (img : dicom_img R)
      (d : ndarray (complex R)) (o : NIFTIOrient R) (dt : R) (m : hdr_ext R) :
  convert_file now img = Ok (d, o, dt, m) -> length (shape d) = 4%nat.
Proof.
  intros Hconv. unfold convert_file in Hconv.
  apply rbind_Ok in Hconv. destruct Hconv as (mrs & Hmrs & Hconv).
  destruct mrs.
  - apply rbind_Ok in Hconv. destruct Hconv as ([[[d1 o1] dt1] m1] & Hsvs & Hconv).
    unfold process_siemens_svs in Hsvs.
    apply rbind_Ok in Hsvs. destruct Hsvs as (d2 & Hdata & Hsvs).
    apply rbind_Ok in Hsvs. destruct Hsvs as (h & _ & Hsvs).
    apply Ok_inj in Hsvs. injection Hsvs as <- _ _ _.
    unfold svs_data in Hdata.
    apply rbind_Ok in Hdata. destruct Hdata as (buf & _ & Hdec).
    apply decode_complex_array1 in Hdec. rewrite Hdec in Hconv.
    apply rbind_Ok in Hconv. destruct Hconv as (d3 & Hre & Hconv).
    apply Ok_inj in Hconv. injection Hconv as <- _ _ _.
    apply reshape_ndim in Hre. exact Hre.
  - unfold process_siemens_csi in Hconv.
    apply rbind_Ok in Hconv. destruct Hconv as (d1 & Hdata & Hconv).
    apply rbind_Ok in Hconv. destruct Hconv as (h & _ & Hconv).
    apply Ok_inj in Hconv. injection Hconv as <- _ _ _.
    unfold csi_data in Hdata.
    apply rbind_Ok in Hdata. destruct Hdata as (storage & Hst & Hmove).
    assert (Hnd : length (shape storage) = 4%nat).
    { unfold csi_storage in Hst. repeat inv_bind Hst.
      apply reshape_ndim in Hst. exact Hst. }
    unfold moveaxis in Hmove. rewrite Hnd in Hmove.
    destruct (_ && _) in Hmove; [| discriminate].
    apply Ok_inj in Hmove. subst d1. rewrite transpose_shape. reflexivity.
Qed.

(** Whatever a file converts to, its spectrum has four axes and as many
    elements as its shape says; on the single-voxel path the three
    spatial axes have length one. *)
Theorem convert_file_four_axes (now : string) (img : dicom_img R)
        (d : ndarray (complex R)) (o : NIFTIOrient R) (dt : R) (m : hdr_ext R) :
  convert_file now img = Ok (d, o, dt, m) ->
  length (shape d) = 4%nat
  /\ length (data d) = size_of (shape d)
  /\ (svs_or_CSI img = Ok SVS -> shape d = [1; 1; 1; length (data d)]%nat).
Proof.
  intros Hconv.
  split; [apply (convert_file_ndim now img d o dt m Hconv) |].
  split; [apply (convert_file_well_formed now img d o dt m Hconv) |].
  intros Hsvs. unfold convert_file in Hconv. rewrite Hsvs in Hconv.
  cbn [rbind Ok] in Hconv.
  apply rbind_Ok in Hconv. destruct Hconv as ([[[d1 o1] dt1] m1] & Hrun & Hconv).
  unfold process_siemens_svs in Hrun.
  apply rbind_Ok in Hrun. destruct Hrun as (d2 & Hdata & Hrun).
  apply rbind_Ok in Hrun. destruct Hrun as (h & _ & Hrun).
  apply Ok_inj in Hrun. injection Hrun as <- _ _ _.
  unfold svs_data in Hdata.
  apply rbind_Ok in Hdata. destruct Hdata as (buf & _ & Hdec).
  apply decode_complex_array1 in Hdec. rewrite Hdec in Hconv.
  rewrite reshape_leading_ones in Hconv by (unfold size_of; simpl; lia).
  cbn [rbind Ok] in Hconv. apply Ok_inj in Hconv. injection Hconv as <- _ _ _.
  reflexivity.
Qed.

(** The dwell time and the metadata of a converted file are those its
    header gives, on both paths. *)
Lemma convert_file_header (now : string) (img : dicom_img R)
      (d : ndarray (complex R)) (o : NIFTIOrient R) (dt : R) (m : hdr_ext R) :
  convert_file now img = Ok (d, o, dt, m) ->
  dwell_time img = Ok dt /\ extractDicomMetadata now img = Ok m.
Proof.
  intros Hconv. unfold convert_file in Hconv.
  apply rbind_Ok in Hconv. destruct Hconv as (mrs & _ & Hconv).
  assert (Hh : exists h : NIFTIOrient R * R * hdr_ext R,
             (svs_header now img = Ok h \/ csi_header now img = Ok h)
             /\ snd (fst h) = dt /\ snd h = m).
  { destruct mrs.
    - apply rbind_Ok in Hconv. destruct Hconv as ([[[d1 o1] dt1] m1] & Hsvs & Hconv).
      apply rbind_Ok in Hconv. destruct Hconv as (d2 & _ & Hconv).
      apply Ok_inj in Hconv. injection Hconv as _ _ <- <-.
      unfold process_siemens_svs in Hsvs.
      apply rbind_Ok in Hsvs. destruct Hsvs as (d3 & _ & Hsvs).
      apply rbind_Ok in Hsvs. destruct Hsvs as (h & Hh & Hsvs).
      apply Ok_inj in Hsvs. injection Hsvs as _ _ <- <-.
      exists h. tauto.
    - unfold process_siemens_csi in Hconv.
      apply rbind_Ok in Hconv. destruct Hconv as (d1 & _ & Hconv).
      apply rbind_Ok in Hconv. destruct Hconv as (h & Hh & Hconv).
      apply Ok_inj in Hconv. injection Hconv as _ _ <- <-.
      exists h. tauto. }
  destruct Hh as (h & Hh & <- & <-).
  assert (Htail : exists o1 : NIFTIOrient R,
             (dt1 <~ dwell_time img ;;
              meta <~ extractDicomMetadata now img ;;
              Ok (o1, dt1, meta)) = Ok h).
  { destruct Hh as [Hh | Hh]; [unfold svs_header in Hh | unfold csi_header in Hh];
      apply rbind_Ok in Hh; destruct Hh as (g & _ & Hh);
      apply rbind_Ok in Hh; destruct Hh as (o1 & _ & Hh);
      exists o1; exact Hh. }
  destruct Htail as (o1 & Htail).
  apply rbind_Ok in Htail. destruct Htail as (dt1 & Hdt & Htail).
  apply rbind_Ok in Htail. destruct Htail as (meta & Hmeta & Htail).
  apply Ok_inj in Htail. subst h. cbn [fst snd]. split; assumption.
Qed.

(** On both paths the dwell time of a converted file is the first item of
    tag RealDwellTime times 1E-9, and its metadata are those
    [extractDicomMetadata] returns for the file. *)
Theorem convert_file_dwell_time_and_metadata (now : string) (img : dicom_img R)
        (d : ndarray (complex R)) (o : NIFTIOrient R) (dt : R) (m : hdr_ext R) :
  convert_file now img = Ok (d, o, dt, m) ->
  extractDicomMetadata now img = Ok m
  /\ exists t x,
      csa_item0 img "RealDwellTime" = Ok t
      /\ as_float t = Ok x
      /\ dt = f_mul x f_1em9.
Proof.
  intros Hconv.
  destruct (convert_file_header now img d o dt m Hconv) as [Hdt Hmeta].
  split; [exact Hmeta |].
  unfold dwell_time, item_mul_float in Hdt.
  apply rbind_Ok in Hdt. destruct Hdt as (t & Ht & Hdt).
  apply rbind_Ok in Hdt. destruct Hdt as (x & Hx & Hdt).
  apply Ok_inj in Hdt. exists t, x. split; [exact Ht |]. split; [exact Hx |].
  symmetry. exact Hdt.
Qed.
End ConversionFacts.

Lemma convert_file_four_axes_witness :
  let d := fst (fst (fst Examples.converted_a)) in
  length (shape d) = 4%nat
  /\ length (data d) = size_of (shape d)
  /\ (svs_or_CSI Examples.file_a = Ok SVS -> shape d = [1; 1; 1; length (data d)]%nat).
Proof.
  apply (convert_file_four_axes (Examples.clock 0) Examples.file_a
           (fst (fst (fst Examples.converted_a)))
           (snd (fst (fst Examples.converted_a)))
           (snd (fst Examples.converted_a))
           (snd Examples.converted_a)).
  vm_compute. reflexivity.
Defined.

Lemma convert_file_dwell_time_and_metadata_witness :
  extractDicomMetadata (Examples.clock 0) Examples.file_a
  = Ok (snd Examples.converted_a)
  /\ exists t x,
      csa_item0 Examples.file_a "RealDwellTime" = Ok t
      /\ as_float t = Ok x
      /\ snd (fst Examples.converted_a) = f_mul x f_1em9.
Proof.
  apply (convert_file_dwell_time_and_metadata (Examples.clock 0) Examples.file_a
           (fst (fst (fst Examples.converted_a)))
           (snd (fst (fst Examples.converted_a)))
           (snd (fst Examples.converted_a))
           (snd Examples.converted_a)).
  vm_compute. reflexivity.
Defined.

(** ** extractDicomMetadata: what it needs and what it records *)

Section MetadataFacts.
Context {R : Type} `{Scalar R}.

(** Closes a case in which the extraction has raised. *)
Ltac both_fail := intros _; eexists; reflexivity.

Ltac simpl_run :=
  cbn [rbind Ok andb negb is_str as_float list_get0 items n_items];
  cbv beta zeta.

(** Case analysis on the tag [k] and its first item. *)
Ltac on_tag img k :=
  destruct (csa_header img !! k) as [? |]; simpl_run; [| both_fail];
  match goal with
  | |- context [items ?t] =>
      destruct (items t) as [| ? ?]; simpl_run; [both_fail |]
  end.

Ltac on_attr img f :=
  destruct (f (dcm_data img)) as [? |]; simpl_run; [| both_fail].

(** The metadata extraction returns no header for a file that lacks
    anything it reads: on a file without one of the tags
    ImagingFrequency, ImagedNucleus, SequenceName, FlipAngle with an
    item, EchoTime and RepetitionTime with a number, a receive-coil item
    in ReceivingCoil or else ImaCoilString, the tag InversionTime with an
    item if it declares any, or one of the twelve top-level attributes,
    it raises. *)
Theorem extractDicomMetadata_needs_every_read (now : string) (img : dicom_img R) :
  metadata_available img = false ->
  exists e, extractDicomMetadata now img = Raise e.
Proof.
  unfold extractDicomMetadata, metadata_available, has_item, has_number,
    has_coil, has_inversion_time, has_attr, first_item_is, csa_item0, csa_items,
    dict_get, attr, item_mul_float, item_div_float.
  on_tag img "ImagingFrequency".
  on_tag img "ImagedNucleus".
  on_attr img (@Manufacturer R).
  on_attr img (@ManufacturerModelName R).
  on_attr img (@DeviceSerialNumber R).
  on_attr img (@SoftwareVersions R).
  on_attr img (@InstitutionName R).
  on_attr img (@InstitutionAddress R).
  destruct (csa_header img !! "ReceivingCoil") as [coil |]; simpl_run;
    [| both_fail].
  destruct (items coil) as [| ? ?]; cbn [length Nat.ltb Nat.leb]; simpl_run;
    [unfold has_item, first_item_is; on_tag img "ImaCoilString" |];
    (on_tag img "SequenceName";
     on_attr img (@ProtocolName R);
     on_attr img (@PatientPosition R);
     on_attr img (@PatientName R);
     on_attr img (@PatientWeight R);
     on_attr img (@PatientBirthDate R);
     on_attr img (@PatientSex R);
     on_tag img "EchoTime";
     match goal with
     | |- context [as_float ?x] => destruct x as [? | ? | ?]; simpl_run
     end;
     [| | both_fail];
     (destruct (csa_header img !! "InversionTime") as [ti |]; simpl_run;
      [| both_fail];
      destruct (0 <? n_items ti); simpl_run;
      [destruct (items ti) as [| ? ?]; simpl_run; [both_fail |] |];
      (on_tag img "FlipAngle";
       on_tag img "RepetitionTime";
       match goal with
       | |- context [as_float ?x] => destruct x as [? | ? | ?]; simpl_run
       end;
       [| | both_fail];
       (intros Hall; discriminate)))).
Qed.
Tactic Notation "bind_as" hyp(H) ident(x) ident(Hx) :=
  apply rbind_Ok in H; destruct H as (x & Hx & H); cbv beta zeta in H.

(** Splits a successful run of [extractDicomMetadata] into its steps. *)
Tactic Notation "invert_extract" hyp(Hrun) :=
  unfold extractDicomMetadata in Hrun;
  bind_as Hrun freq Hfreq; bind_as Hrun nuc Hnuc;
  bind_as Hrun man Hman; bind_as Hrun model Hmodel;
  bind_as Hrun serial Hserial; bind_as Hrun soft Hsoft;
  bind_as Hrun inst Hinst; bind_as Hrun addr Haddr;
  bind_as Hrun coil Hcoil; bind_as Hrun obj1 Hobj1;
  bind_as Hrun seqn Hseqn; bind_as Hrun prot Hprot;
  bind_as Hrun seqn' Hseqn';
  bind_as Hrun ppos Hppos; bind_as Hrun pname Hpname;
  bind_as Hrun weight Hweight; bind_as Hrun dob Hdob; bind_as Hrun sex Hsex;
  bind_as Hrun te Hte; bind_as Hrun te_s Hte_s;
  bind_as Hrun ti Hti; bind_as Hrun obj2 Hobj2;
  bind_as Hrun fa Hfa; bind_as Hrun tr Htr; bind_as Hrun tr_s Htr_s;
  apply Ok_inj in Hrun.

(** The receive-coil step adds one user field and nothing else. *)
Lemma coil_step_Ok (img : dicom_img R) (coil : list (item R)) (obj0 obj1 : hdr_ext R) :
  (if (0 <? length coil)%nat
   then v <~ csa_item0 img "ReceivingCoil" ;;
        Ok (set_user_def "ReceiveCoilName" (VItem v) "Rx coil name." obj0)
   else v <~ csa_item0 img "ImaCoilString" ;;
        Ok (set_user_def "ReceiveCoilName" (VItem v) "Rx coil name." obj0))
  = Ok obj1 ->
  exists v, obj1 = set_user_def "ReceiveCoilName" (VItem v) "Rx coil name." obj0.
Proof.
  destruct (0 <? length coil)%nat; intros Hrun;
    apply rbind_Ok in Hrun; destruct Hrun as (v & _ & Hrun);
    apply Ok_inj in Hrun; exists v; symmetry; exact Hrun.
Qed.

(** The inversion-time step adds the first item, unscaled, when the tag
    declares items, and nothing otherwise. *)
Lemma inversion_step_Ok (img : dicom_img R) (ti : csa_tag R) (obj0 obj2 : hdr_ext R) :
  dict_get (csa_header img) "InversionTime" = Ok ti ->
  (if 0 <? n_items ti
   then v <~ csa_item0 img "InversionTime" ;;
        Ok (set_standard_def "InversionTime" (VItem v) obj0)
   else Ok obj0) = Ok obj2 ->
  if 0 <? n_items ti
  then exists v,
      head (items ti) = Some v
      /\ obj2 = set_standard_def "InversionTime" (VItem v) obj0
  else obj2 = obj0.
Proof.
  intros Hti. destruct (0 <? n_items ti); intros Hrun.
  - apply rbind_Ok in Hrun. destruct Hrun as (v & Hv & Hrun).
    apply Ok_inj in Hrun. exists v. split; [| symmetry; exact Hrun].
    unfold csa_item0, csa_items in Hv. rewrite Hti in Hv. cbn [rbind Ok] in Hv.
    destruct (items ti); [discriminate |]. apply Ok_inj in Hv. subst. reflexivity.
  - apply Ok_inj in Hrun. symmetry. exact Hrun.
Qed.

(** An extracted header has a fixed schema: the eighteen standard fields
    of [standard_keys], with InversionTime on top exactly when the tag
    declares items; the two user fields ReceiveCoilName and
    PulseSequenceFile, the latter holding the item also stored as
    SequenceName; and the frequency and nucleus of tags ImagingFrequency
    and ImagedNucleus. *)
Theorem extractDicomMetadata_schema (now : string) (img : dicom_img R)
        (obj : hdr_ext R) :
  extractDicomMetadata now img = Ok obj ->
  dom (user_data obj) = user_keys
  /\ csa_item0 img "ImagingFrequency" = Ok (SpectrometerFrequency obj)
  /\ csa_item0 img "ImagedNucleus" = Ok (ResonantNucleus obj)
  /\ (exists seqn,
         csa_item0 img "SequenceName" = Ok seqn
         /\ standard_data obj !! "SequenceName" = Some (VItem seqn)
         /\ user_data obj !! "PulseSequenceFile"
            = Some (VItem seqn, "Sequence binary path."))
  /\ exists ti,
      csa_header img !! "InversionTime" = Some ti
      /\ dom (standard_data obj)
         = if 0 <? n_items ti then standard_keys ∪ {["InversionTime"]}
           else standard_keys.
Proof.
  intros Hrun. invert_extract Hrun.
  rewrite Hseqn in Hseqn'. apply Ok_inj in Hseqn'. subst seqn'.
  destruct (coil_step_Ok img coil _ obj1 Hobj1) as (coilv & ->).
  pose proof (inversion_step_Ok img ti _ obj2 Hti Hobj2) as Hinv.
  assert (Hti' : csa_header img !! "InversionTime" = Some ti).
  { unfold dict_get in Hti. destruct (csa_header img !! "InversionTime");
      [apply Ok_inj in Hti; congruence | discriminate]. }
  destruct (0 <? n_items ti) eqn:Hn;
    [destruct Hinv as (v & _ & ->) | subst obj2]; subst obj.
  - split; [vm_compute; reflexivity |].
    split; [exact Hfreq |]. split; [exact Hnuc |].
    split; [exists seqn; split; [exact Hseqn |]; split; reflexivity |].
    exists ti. split; [exact Hti' |]. rewrite Hn. vm_compute. reflexivity.
  - split; [vm_compute; reflexivity |].
    split; [exact Hfreq |]. split; [exact Hnuc |].
    split; [exists seqn; split; [exact Hseqn |]; split; reflexivity |].
    exists ti. split; [exact Hti' |]. rewrite Hn. vm_compute. reflexivity.
Qed.

(** Echo time and repetition time are recorded in seconds: the first
    item of tag EchoTime times 1E-3, and the first item of tag
    RepetitionTime divided by 1E3.  The inversion time is recorded as the
    tag gives it, without scaling, and only when the tag declares items.
    The conversion is stamped with the method "spec2nii" and the clock
    reading. *)
Theorem extractDicomMetadata_timing (now : string) (img : dicom_img R)
        (obj : hdr_ext R) :
  extractDicomMetadata now img = Ok obj ->
  (exists te x,
      csa_item0 img "EchoTime" = Ok te /\ as_float te = Ok x
      /\ standard_data obj !! "EchoTime" = Some (VFloat (f_mul x f_1em3)))
  /\ (exists tr y,
         csa_item0 img "RepetitionTime" = Ok tr /\ as_float tr = Ok y
         /\ standard_data obj !! "RepetitionTime" = Some (VFloat (f_div y f_1e3)))
  /\ (exists ti,
         csa_header img !! "InversionTime" = Some ti
         /\ standard_data obj !! "InversionTime"
            = if 0 <? n_items ti then VItem <$> head (items ti) else None)
  /\ standard_data obj !! "ConversionMethod" = Some (VString "spec2nii")
  /\ standard_data obj !! "ConversionTime" = Some (VString now).
Proof.
  intros Hrun. invert_extract Hrun.
  rewrite Hseqn in Hseqn'. apply Ok_inj in Hseqn'. subst seqn'.
  destruct (coil_step_Ok img coil _ obj1 Hobj1) as (coilv & ->).
  pose proof (inversion_step_Ok img ti _ obj2 Hti Hobj2) as Hinv.
  assert (Hti' : csa_header img !! "InversionTime" = Some ti).
  { unfold dict_get in Hti. destruct (csa_header img !! "InversionTime");
      [apply Ok_inj in Hti; congruence | discriminate]. }
  unfold item_mul_float in Hte_s. unfold item_div_float in Htr_s.
  apply rbind_Ok in Hte_s. destruct Hte_s as (x & Hx & Hte_s).
  apply rbind_Ok in Htr_s. destruct Htr_s as (y & Hy & Htr_s).
  apply Ok_inj in Hte_s, Htr_s. subst te_s tr_s.
  destruct (0 <? n_items ti) eqn:Hn;
    [destruct Hinv as (v & Hv & ->) | subst obj2]; subst obj.
  - split; [exists te, x; split; [exact Hte |]; split; [exact Hx | reflexivity] |].
    split; [exists tr, y; split; [exact Htr |]; split; [exact Hy | reflexivity] |].
    split; [| split; reflexivity].
    exists ti. split; [exact Hti' |]. rewrite Hn, Hv. reflexivity.
  - split; [exists te, x; split; [exact Hte |]; split; [exact Hx | reflexivity] |].
    split; [exists tr, y; split; [exact Htr |]; split; [exact Hy | reflexivity] |].
    split; [| split; reflexivity].
    exists ti. split; [exact Hti' |]. rewrite Hn. reflexivity.
Qed.
End MetadataFacts.

Lemma extractDicomMetadata_needs_every_read_witness :
  exists e, extractDicomMetadata (Examples.clock 0) Examples.small_grid = Raise e.
Proof.
  apply (extractDicomMetadata_needs_every_read (Examples.clock 0) Examples.small_grid).
  vm_compute. reflexivity.
Defined.

Lemma extractDicomMetadata_schema_witness :
  dom (user_data Examples.grid_metadata) = user_keys
  /\ csa_item0 Examples.file_grid "ImagingFrequency"
     = Ok (SpectrometerFrequency Examples.grid_metadata)
  /\ csa_item0 Examples.file_grid "ImagedNucleus"
     = Ok (ResonantNucleus Examples.grid_metadata)
  /\ (exists seqn,
         csa_item0 Examples.file_grid "SequenceName" = Ok seqn
         /\ standard_data Examples.grid_metadata !! "SequenceName" = Some (VItem seqn)
         /\ user_data Examples.grid_metadata !! "PulseSequenceFile"
            = Some (VItem seqn, "Sequence binary path."))
  /\ exists ti,
      csa_header Examples.file_grid !! "InversionTime" = Some ti
      /\ dom (standard_data Examples.grid_metadata)
         = if 0 <? n_items ti then standard_keys ∪ {["InversionTime"]}
           else standard_keys.
Proof.
  apply (extractDicomMetadata_schema (Examples.clock 0) Examples.file_grid
           Examples.grid_metadata).
  vm_compute. reflexivity.
Defined.

Lemma extractDicomMetadata_timing_witness :
  (exists te x,
      csa_item0 Examples.file_grid "EchoTime" = Ok te /\ as_float te = Ok x
      /\ standard_data Examples.grid_metadata !! "EchoTime"
         = Some (VFloat (f_mul x f_1em3)))
  /\ (exists tr y,
         csa_item0 Examples.file_grid "RepetitionTime" = Ok tr /\ as_float tr = Ok y
         /\ standard_data Examples.grid_metadata !! "RepetitionTime"
            = Some (VFloat (f_div y f_1e3)))
  /\ (exists ti,
         csa_header Examples.file_grid !! "InversionTime" = Some ti
         /\ standard_data Examples.grid_metadata !! "InversionTime"
            = if 0 <? n_items ti then VItem <$> head (items ti) else None)
  /\ standard_data Examples.grid_metadata !! "ConversionMethod"
     = Some (VString "spec2nii")
  /\ standard_data Examples.grid_metadata !! "ConversionTime"
     = Some (VString (Examples.clock 0)).
Proof.
  apply (extractDicomMetadata_timing (Examples.clock 0) Examples.file_grid
           Examples.grid_metadata).
  vm_compute. reflexivity.
Defined.

(** ** multi_file_dicom: what a batch yields *)

Lemma foldM_app {A S} (body : S -> A -> result S) (l1 l2 : list A) (st : S) :
  foldM body (l1 ++ l2) st = (st' <~ foldM body l1 st ;; foldM body l2 st').
Proof.
  revert st. induction l1 as [| x l1 IH]; intros st; [reflexivity |].
  cbn [app foldM]. destruct (body st x) as [e | st1]; [reflexivity |].
  cbn [rbind]. apply IH.
Qed.

Lemma enumerate_from_app {A} (l1 l2 : list A) (k : nat) :
  enumerate_from k (l1 ++ l2)
  = enumerate_from k l1 ++ enumerate_from (k + length l1) l2.
Proof.
  revert k. induction l1 as [| x l1 IH]; intros k.
  - cbn [app length enumerate_from]. rewrite Nat.add_0_r. reflexivity.
  - cbn [app length enumerate_from]. rewrite IH. do 3 f_equal. lia.
Qed.

Lemma enumerate_from_snd {A} (l : list A) (k : nat) :
  map snd (enumerate_from k l) = l.
Proof.
  revert k. induction l as [| x l IH]; intros k; [reflexivity |].
  cbn [enumerate_from map snd]. rewrite IH. reflexivity.
Qed.

Lemma enumerate_from_lookup_fst {A} (l : list A) (k i : nat) (e : nat * A) :
  enumerate_from k l !! i = Some e -> fst e = (k + i)%nat.
Proof.
  revert k i. induction l as [| x l IH]; intros k i He; [discriminate |].
  destruct i as [| i]; cbn [enumerate_from] in He; simpl in He.
  - injection He as <-. simpl. lia.
  - apply IH in He. lia.
Qed.

Lemma concat_singletons {A B} (f : A -> B) (l : list A) :
  concat (map (fun x => [f x]) l) = map f l.
Proof. induction l as [| x l IH]; [reflexivity |]. simpl. rewrite IH. reflexivity. Qed.

Section BatchFacts.
Context {R : Type} `{Scalar R} `{Tolerance R}.
Variable wrapper_from_file : string -> result (dicom_img R).
Variable clock : nat -> string.

(** What [np.stack(arrays, axis=-1)] returns when it returns. *)
Lemma stack_last_Ok {A} `{Inhabited A} (arrays : list (ndarray A)) (out : ndarray A) :
  stack_last arrays = Ok out ->
  exists a0,
    arrays !! 0%nat = Some a0
    /\ out = mk_ndarray
               (shape a0 ++ [length arrays])
               (flat_map (fun p => map (fun a => data a !!! p) arrays)
                         (seq 0 (length (data a0)))).
Proof.
  unfold stack_last. destruct arrays as [| a0 arrays]; [discriminate |].
  destruct (forallb _ _); [| discriminate].
  intros Hout. apply Ok_inj in Hout. exists a0. split; [reflexivity |].
  symmetry. exact Hout.
Qed.

(** A batch that returns went through the loop and then through one of
    the two branches. *)
Lemma multi_file_dicom_Ok (files_in : list string) (fname_out tag : option string)
      (verbose : bool) (outs : list (NIfTI_MRS R)) (names : list string) :
  multi_file_dicom wrapper_from_file clock files_in fname_out tag verbose
  = Ok (outs, names) ->
  exists st,
    foldM (loop_body wrapper_from_file clock fname_out) (enumerate files_in)
          initial_state = Ok st
    /\ ((combine_test st = true /\ combine_files files_in tag st = Ok (outs, names))
        \/ (combine_test st = false /\ separate_files files_in st = (outs, names))).
Proof.
  unfold multi_file_dicom. intros Hrun.
  apply rbind_Ok in Hrun. destruct Hrun as (st & Hloop & Hrun).
  exists st. split; [exact Hloop |].
  destruct (combine_test st); [left | right]; split; try reflexivity.
  - exact Hrun.
  - apply Ok_inj in Hrun. exact Hrun.
Qed.

Lemma combine_files_Ok (files_in : list string) (tag : option string)
      (st : loop_state R) (outs : list (NIfTI_MRS R)) (names : list string) :
  combine_files files_in tag st = Ok (outs, names) ->
  exists d0 o0 dt0 m0,
    data_list st !! 0%nat = Some d0
    /\ orientation_list st !! 0%nat = Some o0
    /\ dwelltime_list st !! 0%nat = Some dt0
    /\ meta_list st !! 0%nat = Some m0
    /\ names = [mainStr st]
    /\ outs = [mk_NIfTI_MRS
                 (mk_ndarray
                    (shape d0 ++ [length (data_list st)])
                    (flat_map (fun p => map (fun a => data a !!! p) (data_list st))
                              (seq 0 (length (data d0)))))
                 (Q44 o0) dt0
                 match truthy tag with
                 | Some t =>
                     set_dim_info 0 t
                       (set_standard_def "OriginalFile" (VStrList files_in) m0)
                 | None => set_standard_def "OriginalFile" (VStrList files_in) m0
                 end].
Proof.
  unfold combine_files. intros Hrun.
  apply rbind_Ok in Hrun. destruct Hrun as (dt0 & Hdt & Hrun).
  apply rbind_Ok in Hrun. destruct Hrun as (o0 & Ho & Hrun).
  apply rbind_Ok in Hrun. destruct Hrun as (m0 & Hm & Hrun).
  apply rbind_Ok in Hrun. destruct Hrun as (stacked & Hstack & Hrun).
  apply Ok_inj in Hrun. injection Hrun as <- <-.
  destruct (stack_last_Ok _ _ Hstack) as (d0 & Hd & ->).
  exists d0, o0, dt0, m0.
  split; [exact Hd |].
  split; [destruct (orientation_list st); [discriminate | apply Ok_inj in Ho; subst; reflexivity] |].
  split; [destruct (dwelltime_list st); [discriminate | apply Ok_inj in Hdt; subst; reflexivity] |].
  split; [destruct (meta_list st); [discriminate | apply Ok_inj in Hm; subst; reflexivity] |].
  split; reflexivity.
Qed.

(** The per-file lists zipped together: one entry per file. *)
Lemma zipped_length (fname_out : option string) (files_in : list string)
      (st : loop_state R) :
  foldM (loop_body wrapper_from_file clock fname_out) (enumerate files_in)
        initial_state = Ok st ->
  length (zip (data_list st)
              (zip (orientation_list st)
                   (zip (dwelltime_list st) (zip (meta_list st) files_in))))
  = length files_in.
Proof.
  intros Hloop.
  destruct (loop_lengths wrapper_from_file clock fname_out files_in st Hloop)
    as (Ld & Lo & Ldt & Lm).
  rewrite !length_zip_with. lia.
Qed.

(** One or no converted file always passes the combine test. *)
Lemma combine_test_short (fname_out : option string) (files_in : list string)
      (st : loop_state R) :
  foldM (loop_body wrapper_from_file clock fname_out) (enumerate files_in)
        initial_state = Ok st ->
  (length files_in <= 1)%nat -> combine_test st = true.
Proof.
  intros Hloop Hlen.
  destruct (loop_lengths wrapper_from_file clock fname_out files_in st Hloop)
    as (Ld & Lo & Ldt & _).
  unfold combine_test.
  destruct (data_list st) as [| d [| d' ds]]; [| | simpl in Ld; lia];
    destruct (orientation_list st) as [| o [| o' os]]; try (simpl in Lo; lia);
    destruct (dwelltime_list st) as [| t [| t' ts]]; try (simpl in Ldt; lia);
    reflexivity.
Qed.

(** A batch that returns yields as many names as output units: one for
    the whole batch on the combine path, one per file otherwise, which
    takes at least two files.  It never returns without output. *)
Theorem multi_file_dicom_output_count (files_in : list string)
        (fname_out tag : option string) (verbose : bool)
        (outs : list (NIfTI_MRS R)) (names : list string) :
  multi_file_dicom wrapper_from_file clock files_in fname_out tag verbose
  = Ok (outs, names) ->
  length names = length outs
  /\ (1 <= length files_in)%nat
  /\ (length outs = 1%nat
      \/ ((2 <= length files_in)%nat /\ length outs = length files_in)).
Proof.
  intros Hrun.
  destruct (multi_file_dicom_Ok _ _ _ _ _ _ Hrun) as (st & Hloop & Hbranch).
  destruct (loop_lengths wrapper_from_file clock fname_out files_in st Hloop)
    as (Ld & _ & _ & _).
  destruct Hbranch as [[Hcomb Hout] | [Hcomb Hout]].
  - destruct (combine_files_Ok _ _ _ _ _ Hout)
      as (d0 & o0 & dt0 & m0 & Hd & _ & _ & _ & -> & ->).
    split; [reflexivity |]. split; [| left; reflexivity].
    apply lookup_lt_Some in Hd. lia.
  - unfold separate_files in Hout. injection Hout as <- <-.
    rewrite !length_map. unfold enumerate. rewrite enumerate_from_length.
    rewrite (zipped_length fname_out files_in st Hloop).
    assert (Hlen : (2 <= length files_in)%nat).
    { destruct (le_lt_dec (length files_in) 1) as [Hle | Hgt]; [| lia].
      rewrite (combine_test_short fname_out files_in st Hloop Hle) in Hcomb.
      discriminate. }
    split; [reflexivity |]. split; [lia |]. right. split; [exact Hlen | reflexivity].
Qed.

(** The outputs record every input file once, in input order: the
    OriginalFile lists of the output units, put end to end, are the
    file list of the batch. *)
Theorem multi_file_dicom_records_every_file (files_in : list string)
        (fname_out tag : option string) (verbose : bool)
        (outs : list (NIfTI_MRS R)) (names : list string) :
  multi_file_dicom wrapper_from_file clock files_in fname_out tag verbose
  = Ok (outs, names) ->
  concat (map original_files outs) = files_in.
Proof.
  intros Hrun.
  destruct (multi_file_dicom_Ok _ _ _ _ _ _ Hrun) as (st & Hloop & Hbranch).
  destruct Hbranch as [[_ Hout] | [_ Hout]].
  - destruct (combine_files_Ok _ _ _ _ _ Hout)
      as (d0 & o0 & dt0 & m0 & _ & _ & _ & _ & _ & ->).
    cbn [map concat]. rewrite app_nil_r. unfold original_files.
    cbn [mrs_hdr_ext]. destruct (truthy tag); cbn [standard_data set_dim_info
                                                     set_standard_def];
      rewrite lookup_insert_eq; reflexivity.
  - unfold separate_files in Hout. injection Hout as <- _.
    rewrite !map_map.
    rewrite (map_ext _ (fun e => [snd (snd (snd (snd (snd e))))])).
    2: { intros [idx [dd [oo [dt [mm ff]]]]]. unfold original_files.
         cbn [separate_file fst mrs_hdr_ext standard_data set_standard_def snd].
         rewrite lookup_insert_eq. reflexivity. }
    rewrite concat_singletons.
    destruct (loop_lengths wrapper_from_file clock fname_out files_in st Hloop)
      as (Ld & Lo & Ldt & Lm).
    rewrite <- (map_map snd (fun x => snd (snd (snd (snd x))))).
    unfold enumerate. rewrite enumerate_from_snd.
    rewrite <- (map_map snd (fun x => snd (snd (snd x)))).
    change (map snd (zip ?a ?b)) with ((zip a b).*2).
    rewrite snd_zip by (rewrite !length_zip_with; lia).
    rewrite <- (map_map snd (fun x => snd (snd x))).
    change (map snd (zip ?a ?b)) with ((zip a b).*2).
    rewrite snd_zip by (rewrite !length_zip_with; lia).
    rewrite <- (map_map snd snd).
    change (map snd (zip ?a ?b)) with ((zip a b).*2).
    rewrite snd_zip by (rewrite !length_zip_with; lia).
    change (map snd (zip ?a ?b)) with ((zip a b).*2).
    apply snd_zip. lia.
Qed.
End BatchFacts.

Lemma multi_file_dicom_output_count_witness :
  let files_in := ["a.dcm"; "d.dcm"; "b.dcm"] in
  let r := Examples.batch_result files_in None None in
  length (snd r) = length (fst r)
  /\ (1 <= length files_in)%nat
  /\ (length (fst r) = 1%nat
      \/ ((2 <= length files_in)%nat /\ length (fst r) = length files_in)).
Proof.
  apply (multi_file_dicom_output_count Examples.reader Examples.clock
           ["a.dcm"; "d.dcm"; "b.dcm"] None None false).
  vm_compute. reflexivity.
Defined.

Lemma multi_file_dicom_records_every_file_witness :
  let files_in := ["a.dcm"; "d.dcm"; "b.dcm"] in
  concat (map original_files (fst (Examples.batch_result files_in None None)))
  = files_in.
Proof.
  apply (multi_file_dicom_records_every_file Examples.reader Examples.clock
           ["a.dcm"; "d.dcm"; "b.dcm"] None None false
           (fst (Examples.batch_result ["a.dcm"; "d.dcm"; "b.dcm"] None None))
           (snd (Examples.batch_result ["a.dcm"; "d.dcm"; "b.dcm"] None None))).
  vm_compute. reflexivity.
Defined.

(** ** Output names *)

Lemma zfill_parse (pad : nat) (s : string) (d : Decimal.uint) :
  NilEmpty.uint_of_string s = Some d ->
  exists d',
    NilEmpty.uint_of_string (zfill pad s) = Some d'
    /\ Nat.of_uint d' = Nat.of_uint d.
Proof.
  intros Hs. induction pad as [| pad IH].
  - exists d. split; [exact Hs | reflexivity].
  - destruct IH as (d' & Hd' & Hval). exists (Decimal.D0 d'). split.
    + cbn [zfill NilEmpty.uint_of_string]. rewrite Hd'. reflexivity.
    + rewrite <- Hval. reflexivity.
Qed.

Lemma zfill_nonempty (pad : nat) (s : string) :
  s <> EmptyString -> zfill pad s <> EmptyString.
Proof. intros Hs. destruct pad; [exact Hs | discriminate]. Qed.

Lemma digits_parse (d : Decimal.uint) :
  NilZero.string_of_uint d <> EmptyString
  /\ exists d',
      NilEmpty.uint_of_string (NilZero.string_of_uint d) = Some d'
      /\ Nat.of_uint d' = Nat.of_uint d.
Proof.
  destruct d; (split; [discriminate |]);
    try (eexists; split; [apply NilEmpty.usu | reflexivity]).
  exists (Decimal.D0 Decimal.Nil). split; reflexivity.
Qed.

(** The index written into a name reads back as the index, however
    many digits it takes. *)
Theorem format_03_round_trip (idx : nat) :
  parse_index (format_03 idx) = Some idx.
Proof.
  unfold parse_index, format_03.
  destruct (digits_parse (Nat.to_uint idx)) as (Hne & d & Hd & Hval).
  set (digits := NilZero.string_of_uint (Nat.to_uint idx)) in *.
  destruct (zfill_parse (3 - String.length digits) digits d Hd) as (d' & Hd' & Hval').
  pose proof (zfill_nonempty (3 - String.length digits) digits Hne) as Hne'.
  unfold NilZero.uint_of_string.
  destruct (zfill (3 - String.length digits) digits) as [| c rest];
    [contradiction |].
  rewrite Hd'. rewrite Hval', Hval, DecimalNat.Unsigned.of_to. reflexivity.
Qed.

Lemma format_03_inj (i j : nat) : format_03 i = format_03 j -> i = j.
Proof.
  intros Heq. pose proof (format_03_round_trip i) as Hi.
  rewrite Heq, format_03_round_trip in Hi. congruence.
Qed.

Lemma string_app_inj (a x y : string) : (a ++ x = a ++ y)%string -> x = y.
Proof.
  induction a as [| c a IH]; simpl; intros Heq; [exact Heq |].
  injection Heq as Heq. apply IH, Heq.
Qed.

Section NameFacts.
Context {R : Type} `{Scalar R} `{Tolerance R}.
Variable wrapper_from_file : string -> result (dicom_img R).
Variable clock : nat -> string.

(** On the non-combine path the name at position [i] ends in the index
    [i]. *)
Lemma separate_files_name (files_in : list string) (st : loop_state R)
      (i : nat) (name : string) :
  snd (separate_files files_in st) !! i = Some name ->
  name = (mainStr st ++ "_" ++ format_03 i)%string.
Proof.
  unfold separate_files. cbn [snd]. rewrite !list_lookup_fmap.
  destruct (enumerate _ !! i) as [e |] eqn:He; [| discriminate].
  apply enumerate_from_lookup_fst in He as Hidx. cbn [Nat.add] in Hidx.
  destruct e as [idx [dd [oo [dt [mm ff]]]]]. cbn [fst] in Hidx. subst idx.
  cbn. intros Hname. injection Hname as <-. reflexivity.
Qed.

(** The names a batch returns are pairwise different: no output
    overwrites another. *)
Theorem multi_file_dicom_names_distinct (files_in : list string)
        (fname_out tag : option string) (verbose : bool)
        (outs : list (NIfTI_MRS R)) (names : list string) :
  multi_file_dicom wrapper_from_file clock files_in fname_out tag verbose
  = Ok (outs, names) ->
  NoDup names.
Proof.
  intros Hrun.
  destruct (multi_file_dicom_Ok _ _ _ _ _ _ _ _ Hrun) as (st & Hloop & Hbranch).
  destruct Hbranch as [[_ Hout] | [_ Hout]].
  - destruct (combine_files_Ok _ _ _ _ _ Hout)
      as (d0 & o0 & dt0 & m0 & _ & _ & _ & _ & -> & _).
    apply NoDup_singleton.
  - assert (Hnames : names = snd (separate_files files_in st))
      by (rewrite Hout; reflexivity).
    apply NoDup_alt. intros i j name Hi Hj. rewrite Hnames in Hi, Hj.
    apply separate_files_name in Hi, Hj. rewrite Hi in Hj.
    apply string_app_inj, string_app_inj in Hj. apply format_03_inj, Hj.
Qed.
End NameFacts.

Lemma multi_file_dicom_names_distinct_witness :
  NoDup (snd (Examples.batch_result ["a.dcm"; "d.dcm"; "b.dcm"] None None)).
Proof.
  apply (multi_file_dicom_names_distinct Examples.reader Examples.clock
           ["a.dcm"; "d.dcm"; "b.dcm"] None None false
           (fst (Examples.batch_result ["a.dcm"; "d.dcm"; "b.dcm"] None None))).
  vm_compute. reflexivity.
Defined.

(** ** The loop, file by file *)

Section BatchOrder.
Context {R : Type} `{Scalar R} `{Tolerance R}.
Variable wrapper_from_file : string -> result (dicom_img R).
Variable clock : nat -> string.

(** Every entry of the spectrum list is what a file of the batch
    converted to. *)
Lemma loop_data_converted (fname_out : option string) (files_in : list string)
      (st : loop_state R) (i : nat) (d : ndarray (complex R)) :
  foldM (loop_body wrapper_from_file clock fname_out) (enumerate files_in)
        initial_state = Ok st ->
  data_list st !! i = Some d ->
  exists fn img o dt m,
    files_in !! i = Some fn
    /\ wrapper_from_file fn = Ok img
    /\ convert_file (clock i) img = Ok (d, o, dt, m).
Proof.
  intros Hloop Hd.
  destruct (loop_lengths wrapper_from_file clock fname_out files_in st Hloop)
    as (Ld & _).
  assert (Hi : (i < length files_in)%nat)
    by (rewrite <- Ld; apply lookup_lt_Some in Hd; exact Hd).
  destruct (lookup_lt_is_Some_2 files_in i Hi) as [fn Hfn].
  destruct (loop_lookup wrapper_from_file clock fname_out files_in st i fn Hloop Hfn)
    as (img & d' & o & dt & m & Hw & Hc & Hd' & _).
  rewrite Hd in Hd'. injection Hd' as <-.
  exists fn, img, o, dt, m. split; [exact Hfn |]. split; assumption.
Qed.

(** Each output array has as many elements as its shape says.  The one
    combined output has five axes, the last as long as the batch; the
    outputs of the non-combine path have four. *)
Theorem multi_file_dicom_output_shapes (files_in : list string)
        (fname_out tag : option string) (verbose : bool)
        (outs : list (NIfTI_MRS R)) (names : list string) :
  multi_file_dicom wrapper_from_file clock files_in fname_out tag verbose
  = Ok (outs, names) ->
  forall out,
    out ∈ outs ->
    length (data (mrs_data out)) = size_of (shape (mrs_data out))
    /\ if (length outs =? 1)%nat
       then length (shape (mrs_data out)) = 5%nat
            /\ last (shape (mrs_data out)) = Some (length files_in)
       else length (shape (mrs_data out)) = 4%nat.
Proof.
  intros Hrun out Hout.
  destruct (multi_file_dicom_Ok _ _ _ _ _ _ _ _ Hrun) as (st & Hloop & Hbranch).
  destruct (loop_lengths wrapper_from_file clock fname_out files_in st Hloop)
    as (Ld & _).
  destruct Hbranch as [[_ Hres] | [Hcomb Hres]].
  - destruct (combine_files_Ok _ _ _ _ _ Hres)
      as (d0 & o0 & dt0 & m0 & Hd & _ & _ & _ & _ & ->).
    apply list_elem_of_singleton in Hout. subst out. cbn [mrs_data shape data length].
    destruct (loop_data_converted fname_out files_in st 0 d0 Hloop Hd)
      as (fn & img & o & dt & m & _ & _ & Hc).
    pose proof (convert_file_well_formed _ _ _ _ _ _ Hc) as Hwf.
    pose proof (convert_file_ndim _ _ _ _ _ _ Hc) as Hnd.
    split.
    + rewrite (flat_map_seq_length _ (length (data_list st)))
        by (intros k; apply length_map).
      rewrite size_of_app, Hwf.
      change (size_of [length (data_list st)])
        with (length (data_list st) * 1)%nat. lia.
    + cbn [Nat.eqb]. split.
      * rewrite length_app, Hnd. reflexivity.
      * rewrite last_snoc, Ld. reflexivity.
  - assert (Houts : outs = fst (separate_files files_in st))
      by (rewrite Hres; reflexivity).
    assert (Hlen : length outs = length files_in).
    { rewrite Houts. unfold separate_files. cbn [fst]. rewrite !length_map.
      unfold enumerate. rewrite enumerate_from_length.
      apply (zipped_length wrapper_from_file clock fname_out files_in st Hloop). }
    assert (H2 : (2 <= length files_in)%nat).
    { destruct (le_lt_dec (length files_in) 1) as [Hle | Hgt]; [| lia].
      rewrite (combine_test_short wrapper_from_file clock fname_out files_in st
                 Hloop Hle) in Hcomb. discriminate. }
    replace (length outs =? 1)%nat with false
      by (symmetry; apply Nat.eqb_neq; lia).
    rewrite Houts in Hout. unfold separate_files in Hout. cbn [fst] in Hout.
    apply list_elem_of_lookup in Hout as [i Hi].
    rewrite !list_lookup_fmap in Hi.
    destruct (enumerate _ !! i) as [e |] eqn:He; [| discriminate].
    assert (Hz : exists k, zip (data_list st)
                     (zip (orientation_list st)
                        (zip (dwelltime_list st) (zip (meta_list st) files_in)))
                     !! k = Some (snd e)).
    { apply (f_equal (fmap snd)) in He. rewrite <- list_lookup_fmap in He.
      unfold enumerate in He.
      change (snd <$> enumerate_from 0 ?l) with (map snd (enumerate_from 0 l)) in He.
      rewrite enumerate_from_snd in He. exists i. exact He. }
    destruct Hz as [k Hk]. destruct e as [idx [dd [oo [dt [mm ff]]]]].
    cbn [snd] in Hk. apply lookup_zip_with_Some in Hk as (d' & rest & Heq & Hd & _).
    injection Heq as <- _.
    cbn in Hi. injection Hi as <-. cbn [mrs_data].
    destruct (loop_data_converted fname_out files_in st k dd Hloop Hd)
      as (fn & img & o & dt' & m & _ & _ & Hc).
    split.
    + apply (convert_file_well_formed _ _ _ _ _ _ Hc).
    + apply (convert_file_ndim _ _ _ _ _ _ Hc).
Qed.

(** Fail-fast: when the files before [fn] convert and [fn] cannot be
    read or converted, the batch raises the exception of [fn], whatever
    follows it. *)
Theorem first_failure_wins (pre post : list string) (fn : string)
        (fname_out tag : option string) (verbose : bool) (st : loop_state R)
        (e : exn) :
  foldM (loop_body wrapper_from_file clock fname_out) (enumerate pre) initial_state
  = Ok st ->
  wrapper_from_file fn = Raise e
  \/ (exists img,
         wrapper_from_file fn = Ok img
         /\ convert_file (clock (length pre)) img = Raise e) ->
  multi_file_dicom wrapper_from_file clock (pre ++ fn :: post) fname_out tag verbose
  = Raise e.
Proof.
  intros Hloop Hfail. unfold multi_file_dicom, enumerate.
  rewrite enumerate_from_app, foldM_app. fold (enumerate pre). rewrite Hloop.
  cbn [rbind Ok Nat.add enumerate_from foldM].
  assert (Hbody : loop_body wrapper_from_file clock fname_out st (length pre, fn)
                  = Raise e).
  { unfold loop_body. cbn [fst snd].
    destruct Hfail as [Hw | (img & Hw & Hc)]; rewrite Hw; [reflexivity |].
    cbn [rbind Ok]. rewrite Hc. reflexivity. }
  rewrite Hbody. reflexivity.
Qed.

(** Without an override, [None] or the empty string, the name comes from
    the first file's SeriesDescription: a first file that converts but
    lacks the attribute makes the batch raise AttributeError.  With an
    override the attribute is not read. *)
Theorem series_description_needed_without_override (fn0 : string)
        (fname_out tag : option string) (verbose : bool) (img0 : dicom_img R)
        (d : ndarray (complex R)) (o : NIFTIOrient R) (dt : R) (m : hdr_ext R) :
  wrapper_from_file fn0 = Ok img0 ->
  convert_file (clock 0) img0 = Ok (d, o, dt, m) ->
  SeriesDescription (dcm_data img0) = None ->
  (fname_out = None \/ fname_out = Some "" ->
   forall rest,
     multi_file_dicom wrapper_from_file clock (fn0 :: rest) fname_out tag verbose
     = Raise AttributeError)
  /\ (forall name,
         fname_out = Some name -> name <> "" ->
         exists out,
           multi_file_dicom wrapper_from_file clock [fn0] fname_out tag verbose
           = Ok ([out], [name])).
Proof.
  intros Hw Hc Hsd. split.
  - intros Hnone rest.
    assert (Htruthy : truthy fname_out = None)
      by (destruct Hnone as [-> | ->]; reflexivity).
    unfold multi_file_dicom. cbn [enumerate enumerate_from foldM].
    unfold loop_body at 1. cbn [fst snd]. rewrite Hw. cbn [rbind Ok].
    rewrite Hc. cbn [rbind Ok Nat.eqb]. unfold main_name, attr.
    rewrite Htruthy, Hsd. reflexivity.
  - intros name -> Hne.
    assert (Htruthy : truthy (Some name) = Some name).
    { unfold truthy. destruct (String.eqb_spec name ""); [contradiction | reflexivity]. }
    unfold multi_file_dicom. cbn [enumerate enumerate_from foldM].
    unfold loop_body. cbn [fst snd]. rewrite Hw. cbn [rbind Ok].
    rewrite Hc. cbn [rbind Ok Nat.eqb]. unfold main_name. rewrite Htruthy.
    cbn [rbind Ok initial_state data_list orientation_list dwelltime_list
         meta_list app].
    change (combine_test _) with true. unfold combine_files.
    cbn [dwelltime_list orientation_list meta_list data_list mainStr list_get0
         rbind Ok].
    rewrite stack_last_same_shape.
    + cbn [rbind Ok]. eexists. reflexivity.
    + intros a Ha. apply list_elem_of_singleton in Ha. subst a. reflexivity.
Qed.
End BatchOrder.

Lemma multi_file_dicom_output_shapes_witness :
  let files_in := ["a.dcm"; "b.dcm"; "c.dcm"] in
  let outs := fst (Examples.batch_result files_in None None) in
  match outs !! 0%nat with
  | Some out =>
      out ∈ outs
      /\ length (data (mrs_data out)) = size_of (shape (mrs_data out))
      /\ if (length outs =? 1)%nat
         then length (shape (mrs_data out)) = 5%nat
              /\ last (shape (mrs_data out)) = Some (length files_in)
         else length (shape (mrs_data out)) = 4%nat
  | None => False
  end.
Proof.
  cbv zeta.
  destruct (fst (Examples.batch_result ["a.dcm"; "b.dcm"; "c.dcm"] None None)
              !! 0%nat) as [out |] eqn:Hout; [| vm_compute in Hout; discriminate].
  apply list_elem_of_lookup_2 in Hout. split; [exact Hout |].
  apply (multi_file_dicom_output_shapes Examples.reader Examples.clock
           ["a.dcm"; "b.dcm"; "c.dcm"] None None false
           (fst (Examples.batch_result ["a.dcm"; "b.dcm"; "c.dcm"] None None))
           (snd (Examples.batch_result ["a.dcm"; "b.dcm"; "c.dcm"] None None))).
  - vm_compute. reflexivity.
  - exact Hout.
Defined.

Lemma first_failure_wins_witness :
  multi_file_dicom Examples.reader Examples.clock
                   (["a.dcm"] ++ "five.dcm" :: ["missing.dcm"]) None None false
  = Raise ValueError.
Proof.
  apply (first_failure_wins Examples.reader Examples.clock
           ["a.dcm"] ["missing.dcm"] "five.dcm" None None false
           (Examples.state_after ["a.dcm"] None) ValueError).
  - vm_compute. reflexivity.
  - right. exists Examples.file_five. split; [reflexivity |].
    vm_compute. reflexivity.
Defined.

Lemma series_description_needed_without_override_witness :
  (Some "" = None \/ Some "" = Some "" ->
   forall rest,
     multi_file_dicom Examples.reader Examples.clock ("unnamed.dcm" :: rest)
                      (Some "") None false
     = Raise AttributeError)
  /\ (forall name,
         Some "" = Some name -> name <> "" ->
         exists out,
           multi_file_dicom Examples.reader Examples.clock ["unnamed.dcm"]
                            (Some "") None false
           = Ok ([out], [name])).
Proof.
  apply (series_description_needed_without_override
           Examples.reader Examples.clock "unnamed.dcm" (Some "") None false
           Examples.file_unnamed
           (fst (fst (fst Examples.converted_unnamed)))
           (snd (fst (fst Examples.converted_unnamed)))
           (snd (fst Examples.converted_unnamed))
           (snd Examples.converted_unnamed)).
  - reflexivity.
  - vm_compute. reflexivity.
  - reflexivity.
Defined.

(** ** What the name override and the dimension tag do not touch *)

Section TwoRuns.
Context {R : Type} `{Scalar R} `{Tolerance R}.

(** The clock enters the metadata in the last step only. *)
Lemma extractDicomMetadata_clock (now1 now2 : string) (img : dicom_img R) :
  extractDicomMetadata now2 img
  = (obj <~ extractDicomMetadata now1 img ;;
     Ok (set_standard_def "ConversionTime" (VString now2) obj)).
Proof.
  unfold extractDicomMetadata.
  repeat match goal with
         | |- rbind ?m _ = rbind (rbind ?m _) _ =>
             destruct m as [? | ?]; cbn [rbind Ok]; [reflexivity |]
         end.
  set (obj := set_standard_def "ConversionMethod" _ _).
  unfold set_standard_def.
  cbn [SpectrometerFrequency ResonantNucleus standard_data user_data
       dimension_information].
  rewrite insert_insert_eq. reflexivity.
Qed.

Lemma convert_file_clock (now1 now2 : string) (img : dicom_img R) :
  convert_file now2 img
  = (r <~ convert_file now1 img ;;
     Ok (r.1, set_standard_def "ConversionTime" (VString now2) r.2)).
Proof.
  unfold convert_file.
  destruct (svs_or_CSI img) as [e | [|]]; cbn [rbind Ok]; [reflexivity | |].
  - unfold process_siemens_svs.
    destruct (svs_data img) as [e | d]; cbn [rbind Ok]; [reflexivity |].
    unfold svs_header.
    destruct (svs_geometry img) as [e | g]; cbn [rbind Ok]; [reflexivity |].
    destruct (nifti_orientation _ _ _) as [e | o]; cbn [rbind Ok]; [reflexivity |].
    destruct (dwell_time img) as [e | dt]; cbn [rbind Ok]; [reflexivity |].
    rewrite (extractDicomMetadata_clock now1 now2).
    destruct (extractDicomMetadata now1 img) as [e | m]; cbn [rbind Ok fst snd];
      [reflexivity |].
    destruct (reshape d _) as [e | d']; reflexivity.
  - unfold process_siemens_csi.
    destruct (csi_data img) as [e | d]; cbn [rbind Ok]; [reflexivity |].
    unfold csi_header.
    destruct (csi_geometry img) as [e | g]; cbn [rbind Ok]; [reflexivity |].
    destruct (nifti_orientation _ _ _) as [e | o]; cbn [rbind Ok]; [reflexivity |].
    destruct (dwell_time img) as [e | dt]; cbn [rbind Ok]; [reflexivity |].
    rewrite (extractDicomMetadata_clock now1 now2).
    destruct (extractDicomMetadata now1 img) as [e | m]; reflexivity.
Qed.

Lemma same_header_restamp (now : string) (m : hdr_ext R) :
  same_header_but_time m (set_standard_def "ConversionTime" (VString now) m).
Proof.
  unfold same_header_but_time, set_standard_def.
  cbn [SpectrometerFrequency ResonantNucleus standard_data user_data
       dimension_information].
  rewrite delete_insert_eq. repeat split.
Qed.

Lemma same_header_original_file (l : list string) (m1 m2 : hdr_ext R) :
  same_header_but_time m1 m2 ->
  same_header_but_time (set_standard_def "OriginalFile" (VStrList l) m1)
                       (set_standard_def "OriginalFile" (VStrList l) m2).
Proof.
  intros (Hf & Hn & Hs & Hu & Hd). unfold same_header_but_time, set_standard_def.
  cbn [SpectrometerFrequency ResonantNucleus standard_data user_data
       dimension_information].
  rewrite !(delete_insert_ne _ "ConversionTime" "OriginalFile") by discriminate.
  rewrite Hs. repeat split; assumption.
Qed.

Lemma same_header_dim_info (dim : nat) (t : string) (m1 m2 : hdr_ext R) :
  same_header_but_time m1 m2 ->
  same_header_but_time (set_dim_info dim t m1) (set_dim_info dim t m2).
Proof.
  intros (Hf & Hn & Hs & Hu & Hd). unfold same_header_but_time, set_dim_info.
  cbn [SpectrometerFrequency ResonantNucleus standard_data user_data
       dimension_information].
  rewrite Hd. repeat split; assumption.
Qed.

(** The outputs of the non-combine path, for two lists of headers that
    agree but for the time stamp. *)
Lemma separate_outputs_two_runs (main1 main2 : string)
      (ms1 ms2 : list (hdr_ext R)) :
  Forall2 same_header_but_time ms1 ms2 ->
  forall (ds : list (ndarray (complex R))) (os : list (NIFTIOrient R))
         (dts : list R) (fs : list string) (k : nat),
    let run main ms :=
      map (separate_file main)
          (enumerate_from k (zip ds (zip os (zip dts (zip ms fs))))) in
    Forall2 same_output_but_time (map fst (run main1 ms1)) (map fst (run main2 ms2))
    /\ length (map snd (run main1 ms1)) = length (map snd (run main2 ms2))
    /\ (main1 = main2 -> map snd (run main1 ms1) = map snd (run main2 ms2)).
Proof.
  induction 1 as [| m1 m2 ms1 ms2 Hm Hms IH]; intros ds os dts fs k;
    destruct ds as [| d ds], os as [| o os], dts as [| dt dts], fs as [| f fs];
    cbn; try (split; [constructor | split; [reflexivity | reflexivity]]).
  destruct (IH ds os dts fs (S k)) as (Houts & Hlen & Hnames).
  split; [| split].
  - constructor; [| exact Houts].
    unfold same_output_but_time. cbn [mrs_data mrs_affine mrs_dwelltime mrs_hdr_ext].
    do 3 (split; [reflexivity |]). apply same_header_original_file, Hm.
  - f_equal. exact Hlen.
  - intros Hmain. rewrite (Hnames Hmain), Hmain. reflexivity.
Qed.

Variable wrapper_from_file : string -> result (dicom_img R).
Variables clock1 clock2 : nat -> string.

(** What the same files convert to under two clocks. *)
Lemma converts_to_two_clocks (entries : list (nat * string))
      (rs1 rs2 : list (dicom_img R * (ndarray (complex R) * NIFTIOrient R * R * hdr_ext R))) :
  Forall2 (converts_to wrapper_from_file clock1) entries rs1 ->
  Forall2 (converts_to wrapper_from_file clock2) entries rs2 ->
  Forall2 (fun ir1 ir2 =>
             ir1.1 = ir2.1 /\ ir1.2.1 = ir2.2.1
             /\ same_header_but_time ir1.2.2 ir2.2.2) rs1 rs2.
Proof.
  intros H1. revert rs2. induction H1 as [| e [img1 r1] entries rs1 Hc1 _ IH];
    intros rs2 H2; inversion H2 as [| e' [img2 r2] entries' rs2' Hc2 H2']; subst.
  - constructor.
  - constructor; [| apply IH, H2'].
    destruct Hc1 as [Hw1 Hr1], Hc2 as [Hw2 Hr2]. cbn [fst snd] in *.
    rewrite Hw1 in Hw2. apply Ok_inj in Hw2. subst img2.
    rewrite (convert_file_clock (clock1 e.1) (clock2 e.1)), Hr1 in Hr2.
    cbn [rbind Ok] in Hr2. apply Ok_inj in Hr2. subst r2. cbn [fst snd].
    split; [reflexivity |]. split; [reflexivity |]. apply same_header_restamp.
Qed.

(** Two runs of the loop over the same files fill the same lists of
    data, orientations and dwell times, read the same first file, and
    fill lists of headers that agree but for the time stamp. *)
Lemma loop_two_runs (files_in : list string) (f1 f2 : option string)
      (st1 st2 : loop_state R) :
  foldM (loop_body wrapper_from_file clock1 f1) (enumerate files_in) initial_state
  = Ok st1 ->
  foldM (loop_body wrapper_from_file clock2 f2) (enumerate files_in) initial_state
  = Ok st2 ->
  data_list st1 = data_list st2
  /\ orientation_list st1 = orientation_list st2
  /\ dwelltime_list st1 = dwelltime_list st2
  /\ Forall2 same_header_but_time (meta_list st1) (meta_list st2)
  /\ (f1 = f2 -> mainStr st1 = mainStr st2).
Proof.
  intros H1 H2.
  destruct (loop_Ok wrapper_from_file clock1 f1 files_in 0 initial_state st1 H1)
    as (rs1 & Hrs1 & Hd1 & Ho1 & Hdt1 & Hm1 & Hn1).
  destruct (loop_Ok wrapper_from_file clock2 f2 files_in 0 initial_state st2 H2)
    as (rs2 & Hrs2 & Hd2 & Ho2 & Hdt2 & Hm2 & Hn2).
  pose proof (converts_to_two_clocks _ _ _ Hrs1 Hrs2) as Hrel.
  rewrite Hd1, Hd2, Ho1, Ho2, Hdt1, Hdt2, Hm1, Hm2.
  cbn [initial_state data_list orientation_list dwelltime_list meta_list app].
  clear Hrs1 Hrs2 Hd1 Hd2 Ho1 Ho2 Hdt1 Hdt2 Hm1 Hm2.
  assert (Hlists :
            map (fun ir => ir.2.1) rs1 = map (fun ir => ir.2.1) rs2
            /\ Forall2 same_header_but_time (map (fun ir => ir.2.2) rs1)
                       (map (fun ir => ir.2.2) rs2)).
  { clear Hn1 Hn2. induction Hrel as [| ir1 ir2 rs1 rs2 (_ & Hr & Hm) _ [IHl IHm]].
    - split; constructor.
    - cbn [map]. rewrite Hr, IHl. split; [reflexivity |].
      constructor; assumption. }
  destruct Hlists as [Hl Hm].
  split; [| split; [| split; [| split]]].
  - rewrite <- !(map_map (fun ir => ir.2.1) (fun r => r.1.1)), Hl. reflexivity.
  - rewrite <- !(map_map (fun ir => ir.2.1) (fun r => r.1.2)), Hl. reflexivity.
  - rewrite <- !(map_map (fun ir => ir.2.1) (fun r => r.2)), Hl. reflexivity.
  - exact Hm.
  - intros <-. destruct Hrel as [| ir1 ir2 rs1 rs2 (Himg & _) _].
    + rewrite Hn1, Hn2. reflexivity.
    + destruct ir1 as [img1 r1], ir2 as [img2 r2]. cbn [fst] in Himg. subst img2.
      change (main_name f1 img1 = Ok (mainStr st1)) in Hn1.
      change (main_name f1 img1 = Ok (mainStr st2)) in Hn2.
      rewrite Hn2 in Hn1. apply Ok_inj in Hn1. symmetry. exact Hn1.
Qed.

(** Two runs on the same files that both return: when the tags count
    the same, or the batch was not combined, the outputs agree but for
    the time stamp, and the names agree when the overrides do. *)
Lemma two_runs (files_in : list string) (f1 f2 tag1 tag2 : option string)
      (v1 v2 : bool) (outs1 outs2 : list (NIfTI_MRS R))
      (names1 names2 : list string) :
  multi_file_dicom wrapper_from_file clock1 files_in f1 tag1 v1 = Ok (outs1, names1) ->
  multi_file_dicom wrapper_from_file clock2 files_in f2 tag2 v2 = Ok (outs2, names2) ->
  (2 <= length outs1)%nat \/ truthy tag1 = truthy tag2 ->
  Forall2 same_output_but_time outs1 outs2
  /\ length names1 = length names2
  /\ (f1 = f2 -> names1 = names2).
Proof.
  intros H1 H2 Hcase.
  destruct (multi_file_dicom_Ok _ _ _ _ _ _ _ _ H1) as (st1 & Hloop1 & Hb1).
  destruct (multi_file_dicom_Ok _ _ _ _ _ _ _ _ H2) as (st2 & Hloop2 & Hb2).
  destruct (loop_two_runs files_in f1 f2 st1 st2 Hloop1 Hloop2)
    as (Hd & Ho & Hdt & Hm & Hmain).
  assert (Hcomb : combine_test st1 = combine_test st2).
  { unfold combine_test. rewrite Hd, Ho, Hdt. reflexivity. }
  destruct Hb1 as [[Hc1 Hr1] | [Hc1 Hr1]], Hb2 as [[Hc2 Hr2] | [Hc2 Hr2]];
    try congruence.
  - destruct (combine_files_Ok _ _ _ _ _ Hr1)
      as (d1 & o1 & dt1 & m1 & Hd1 & Ho1 & Hdt1 & Hm1 & -> & ->).
    destruct (combine_files_Ok _ _ _ _ _ Hr2)
      as (d2 & o2 & dt2 & m2 & Hd2 & Ho2 & Hdt2 & Hm2 & -> & ->).
    destruct Hcase as [Hlen | Htag]; [cbn in Hlen; lia |].
    pose proof (Forall2_lookup_lr _ _ _ _ _ _ Hm Hm1 Hm2) as Hm0.
    rewrite Hd in Hd1. rewrite Ho in Ho1. rewrite Hdt in Hdt1.
    rewrite Hd1 in Hd2. rewrite Ho1 in Ho2. rewrite Hdt1 in Hdt2.
    injection Hd2 as <-. injection Ho2 as <-. injection Hdt2 as <-.
    rewrite Hd, Htag. split; [| split; [reflexivity |]].
    + constructor; [| constructor].
      unfold same_output_but_time. cbn [mrs_data mrs_affine mrs_dwelltime mrs_hdr_ext].
      do 3 (split; [reflexivity |]).
      destruct (truthy tag2) as [t |].
      * apply same_header_dim_info, same_header_original_file, Hm0.
      * apply same_header_original_file, Hm0.
    + intros Hf. rewrite (Hmain Hf). reflexivity.
  - unfold separate_files in Hr1, Hr2. injection Hr1 as <- <-.
    injection Hr2 as <- <-. unfold enumerate. rewrite Hd, Ho, Hdt.
    destruct (separate_outputs_two_runs (mainStr st1) (mainStr st2) _ _ Hm
                (data_list st2) (orientation_list st2) (dwelltime_list st2)
                files_in 0) as (Houts & Hlen & Hnames).
    split; [exact Houts |]. split; [exact Hlen |].
    intros Hf. apply Hnames, Hmain, Hf.
Qed.

(** The name override changes names only: two runs on the same files
    with the same tag, at different times and with different overrides,
    return equally many names and output units that agree in data,
    affine matrix, dwell time and header, the time stamp ConversionTime
    apart. *)
Theorem output_units_independent_of_name (files_in : list string)
        (f1 f2 tag : option string) (v1 v2 : bool)
        (outs1 outs2 : list (NIfTI_MRS R)) (names1 names2 : list string) :
  multi_file_dicom wrapper_from_file clock1 files_in f1 tag v1 = Ok (outs1, names1) ->
  multi_file_dicom wrapper_from_file clock2 files_in f2 tag v2 = Ok (outs2, names2) ->
  Forall2 same_output_but_time outs1 outs2 /\ length names1 = length names2.
Proof.
  intros H1 H2.
  destruct (two_runs files_in f1 f2 tag tag v1 v2 _ _ _ _ H1 H2) as (Houts & Hlen & _);
    [right; reflexivity |].
  split; assumption.
Qed.

(** The dimension tag is not consulted when the files are not combined,
    and an empty tag counts as no tag: two runs on the same files with
    the same override, at different times, return the same names and
    output units that agree but for the time stamp ConversionTime,
    whatever their tags when more than one output is returned, and also
    on the combine path when one tag is empty and the other absent. *)
Theorem tag_ignored_unless_combined (files_in : list string)
        (fname_out tag1 tag2 : option string) (v1 v2 : bool)
        (outs1 outs2 : list (NIfTI_MRS R)) (names1 names2 : list string) :
  multi_file_dicom wrapper_from_file clock1 files_in fname_out tag1 v1
  = Ok (outs1, names1) ->
  multi_file_dicom wrapper_from_file clock2 files_in fname_out tag2 v2
  = Ok (outs2, names2) ->
  (2 <= length outs1)%nat \/ (tag1 = Some "" /\ tag2 = None) ->
  Forall2 same_output_but_time outs1 outs2 /\ names1 = names2.
Proof.
  intros H1 H2 Hcase.
  destruct (two_runs files_in fname_out fname_out tag1 tag2 v1 v2 _ _ _ _ H1 H2)
    as (Houts & _ & Hnames).
  - destruct Hcase as [Hlen | [-> ->]]; [left; exact Hlen | right; reflexivity].
  - split; [exact Houts | apply Hnames; reflexivity].
Qed.
End TwoRuns.

Lemma output_units_independent_of_name_witness :
  let files_in := ["a.dcm"; "b.dcm"] in
  Forall2 same_output_but_time
          (Examples.batch_result files_in (Some "first") (Some "DIM_DYN")).1
          (Examples.later_batch_result files_in (Some "second") (Some "DIM_DYN")).1
  /\ length (Examples.batch_result files_in (Some "first") (Some "DIM_DYN")).2
     = length (Examples.later_batch_result files_in (Some "second") (Some "DIM_DYN")).2.
Proof.
  apply (output_units_independent_of_name Examples.reader Examples.clock
           Examples.later_clock ["a.dcm"; "b.dcm"] (Some "first") (Some "second")
           (Some "DIM_DYN") false true).
  - vm_compute. reflexivity.
  - vm_compute. reflexivity.
Defined.

Lemma tag_ignored_unless_combined_witness :
  let files_in := ["a.dcm"; "d.dcm"] in
  Forall2 same_output_but_time
          (Examples.batch_result files_in None (Some "DIM_DYN")).1
          (Examples.later_batch_result files_in None None).1
  /\ (Examples.batch_result files_in None (Some "DIM_DYN")).2
     = (Examples.later_batch_result files_in None None).2.
Proof.
  apply (tag_ignored_unless_combined Examples.reader Examples.clock
           Examples.later_clock ["a.dcm"; "d.dcm"] None (Some "DIM_DYN") None
           false true).
  - vm_compute. reflexivity.
  - vm_compute. reflexivity.
  - left. vm_compute. lia.
Defined.
